(** * Minder alarm engine: a shallow embedding of the Go sources

    The development follows the Go files of the repository:
    - [model.go]   : [Zone], [ArmMode], [AlertConfig], [Config];
    - [hal.go]     : [readPin], supplied here as the hardware capability;
    - [sensor.go]  : [zoneTriggered];
    - [alert.go]   : [AlertHandler], [LogAlert], [EmailAlert];
    - [server.go]  : [NewServer], [handleStatus], [handleArm], [handleDisarm],
                     [handleTestTrigger], [pollSensors], [initAlertHandlers].

    Handlers are written once, as programs over the atomic actions they
    perform on the shared [Server] fields and on the outside world.  The
    programs get a sequential semantics ([run]: a program runs alone, to
    its end, with the lock of the configuration free), used for the
    functional properties; an interleaving one ([pool_step]: goroutines
    take turns, [triggerMu] is waited for), used for the properties about
    concurrent requests and about the poll goroutine beside a request; and
    [exec], the run of a program that may find the lock of the
    configuration held.

    The functions of Go's [strings] package that read text as Unicode are
    parameters of the development (class [strings.Lib]); the worked
    examples are on ASCII text, where they are computed. *)

From Stdlib Require Import ZArith String Ascii List Bool Lia.
From stdpp Require Import base gmap strings list pretty.

Open Scope string_scope.
Open Scope list_scope.

(** ** Go's [strings] package

    Go strings are byte sequences, and so are the strings here.
    [strings.TrimSpace], [strings.ToLower] and [strings.EqualFold] read
    them as UTF-8 text: they trim Unicode white space, lower-case every
    letter that has a lower case, and compare under Unicode simple case
    folding.  The package and its tables are not part of the repository:
    the three functions are parameters of the development, the class
    [Lib], with the laws that the proofs need.  Each law holds of the Go
    functions: [EqualFold] compares rune by rune up to the orbits of
    [unicode.SimpleFold], which is an equivalence; a white-space rune is
    alone in its orbit, so a text that [EqualFold] matches with a trimmed
    one starts and ends with no white space.

    [strings.ToUpper] is called by [zoneTriggered] only, for a comparison
    with "NC", "NO" and "EOL".  No rune outside ASCII has C, E, L, N or O
    as its upper case, so that upper-casing the ASCII letters and leaving
    the other bytes as they are decides these comparisons as Go does.

    The functions on the ASCII range, [asciiTrimSpace], [asciiToLower] and
    [asciiEqualFold], act on the bytes below 0x80 as Go's do and leave the
    bytes from 0x80 on as they are; on ASCII text they are the functions
    of the package.  They are the instance for the worked examples. *)
Module strings.

Definition isUpper (c : ascii) : bool :=
  ((65 <=? N_of_ascii c) && (N_of_ascii c <=? 90))%N.

Definition isLower (c : ascii) : bool :=
  ((97 <=? N_of_ascii c) && (N_of_ascii c <=? 122))%N.

Definition toLowerByte (c : ascii) : ascii :=
  if isUpper c then ascii_of_N (N_of_ascii c + 32) else c.

Definition toUpperByte (c : ascii) : ascii :=
  if isLower c then ascii_of_N (N_of_ascii c - 32) else c.

Fixpoint asciiToLower (s : string) : string :=
  match s with
  | EmptyString => EmptyString
  | String c r => String (toLowerByte c) (asciiToLower r)
  end.

Fixpoint ToUpper (s : string) : string :=
  match s with
  | EmptyString => EmptyString
  | String c r => String (toUpperByte c) (ToUpper r)
  end.

(** '\t', '\n', '\v', '\f', '\r', ' ' *)
Definition isSpace (c : ascii) : bool :=
  let n := N_of_ascii c in
  ((n =? 9) || (n =? 10) || (n =? 11) || (n =? 12) || (n =? 13) || (n =? 32))%N.

Fixpoint TrimLeft (s : string) : string :=
  match s with
  | EmptyString => EmptyString
  | String c r => if isSpace c then TrimLeft r else s
  end.

Fixpoint TrimRight (s : string) : string :=
  match s with
  | EmptyString => EmptyString
  | String c r =>
      match TrimRight r with
      | EmptyString => if isSpace c then EmptyString else String c EmptyString
      | r' => String c r'
      end
  end.

Definition asciiTrimSpace (s : string) : string := TrimRight (TrimLeft s).

(** One step of [EqualFold] on ASCII: the bytes are equal, or the smaller
    one is an upper-case letter and the larger one is its lower-case form. *)
Definition foldEq (a b : ascii) : bool :=
  let sr := N.min (N_of_ascii a) (N_of_ascii b) in
  let tr := N.max (N_of_ascii a) (N_of_ascii b) in
  ((tr =? sr) || ((65 <=? sr) && (sr <=? 90) && (tr =? sr + 32)))%N.

Fixpoint asciiEqualFold (s t : string) : bool :=
  match s, t with
  | EmptyString, EmptyString => true
  | String a s', String b t' => foldEq a b && asciiEqualFold s' t'
  | _, _ => false
  end.

(** The functions of the package that read their argument as Unicode
    text, and what the proofs use of them. *)
Class Lib : Type := {
  TrimSpace : string -> string;
  ToLower : string -> string;
  EqualFold : string -> string -> bool;
  EqualFold_reflexive : forall s, EqualFold s s = true;
  EqualFold_symmetric : forall s t, EqualFold s t = EqualFold t s;
  EqualFold_transitive :
    forall s t u, EqualFold s t = true -> EqualFold t u = true -> EqualFold s u = true;
  EqualFold_trimmed :
    forall n m, TrimSpace n <> n -> EqualFold n (TrimSpace m) = false
}.

End strings.

(** ** model.go *)

Record Zone := {
  ID : Z;            (* unique numeric identifier *)
  Name : string;     (* human-readable name *)
  Type_ : string;    (* ZoneType: "contact" or "pir" *)
  Pin : Z;           (* GPIO pin number *)
  Enabled : bool;    (* if false the zone is ignored *)
  Mode : string      (* input mode: "NO", "NC", "EOL" *)
}.

(** [ActiveZones] is a Go slice: [None] is the nil slice (the JSON value
    was absent or null), [Some l] a non-nil slice, possibly empty. *)
Record ArmMode := {
  am_Name : string;
  ActiveZones : option (list Z)
}.

Record User := {
  Username : string;
  PasswordHash : string;
  Admin : bool
}.

Record AlertConfig := {
  ac_Type : string;        (* "log" or "email" *)
  ac_SMTPServer : string;
  ac_SMTPPort : Z;
  ac_Username : string;
  ac_Password : string;
  ac_From : string;
  ac_To : string;
  ac_Subject : string
}.

(** The fields of [Config] the alarm logic reads. *)
Record Config := {
  Zones : list Zone;
  ArmModes : list ArmMode;
  Alerts : list AlertConfig
}.

(** ** alert.go: the two implementations of the [AlertHandler] interface *)

Inductive AlertHandler :=
| LogAlert
| EmailAlert (SMTPServer : string) (SMTPPort : Z)
             (Username Password From To Subject : string).

Definition AlertHandler_Name (h : AlertHandler) : string :=
  match h with
  | LogAlert => "log"
  | EmailAlert _ _ _ _ _ _ _ => "email"
  end.

(** ** The event log and the trace of outside effects *)

(** One constructor per format string passed to [EventLogger.Log]. *)
Inductive LogRecord :=
| LogArm (mode user : string)                 (* "arm %s by %s" *)
| LogDisarm (user : string)                   (* "disarm by %s" *)
| LogTestTrigger (id : Z) (name user : string)(* "test trigger zone id=%d (%s) by %s" *)
| LogTrigger (id : Z) (name : string)         (* "trigger zone id=%d (%s)" *)
| LogAlertError (handler err : string)        (* "alert handler %s error: %v" *)
| LogAlertLine (id : Z) (name : string).      (* "alert: zone %d (%s) triggered" *)

Definition format (r : LogRecord) : string :=
  match r with
  | LogArm mode user => "arm " +:+ mode +:+ " by " +:+ user
  | LogDisarm user => "disarm by " +:+ user
  | LogTestTrigger id name user =>
      "test trigger zone id=" +:+ pretty id +:+ " (" +:+ name +:+ ") by " +:+ user
  | LogTrigger id name => "trigger zone id=" +:+ pretty id +:+ " (" +:+ name +:+ ")"
  | LogAlertError handler err => "alert handler " +:+ handler +:+ " error: " +:+ err
  | LogAlertLine id name => "alert: zone " +:+ pretty id +:+ " (" +:+ name +:+ ") triggered"
  end.

(** What a handler does to the outside, in the order it does it. *)
Inductive Event :=
| EvReadPin (pin : Z) (level : bool)            (* readPin(pin) returned level *)
| EvLog (r : LogRecord)                         (* s.logger.Log(...) *)
| EvPrint (line : string)                       (* log.Printf / log.Println *)
| EvSend (h : AlertHandler) (zone : Zone)       (* entry of h.Send(zone, logger) *)
| EvSendMail (addr from to msg : string) (res : option string). (* smtp.SendMail *)

(** ** The HTTP surface of the handlers *)

Definition StatusNoContent : Z := 204.
Definition StatusBadRequest : Z := 400.
Definition StatusNotFound : Z := 404.
Definition StatusMethodNotAllowed : Z := 405.

Record ZoneInfo := {
  zi_ID : Z;
  zi_Name : string;
  zi_Type : string;
  zi_Pin : Z;
  zi_Enabled : bool;
  zi_Active : bool
}.

(** The [status] struct of [handleStatus]. *)
Record status := {
  st_Mode : string;
  st_Triggered : list Z;
  st_Zones : list ZoneInfo
}.

Inductive Response :=
| WriteHeader (code : Z)                 (* w.WriteHeader(code) *)
| HttpError (msg : string) (code : Z)    (* http.Error(w, msg, code) *)
| Json (body : status).                  (* json.NewEncoder(w).Encode(resp) *)

(** ** Programs over atomic actions

    One action per access to a shared [Server] field, per call of the
    configuration manager, of the HAL, of the logger and of the SMTP
    client, and per operation on [triggerMu]. *)

Inductive Action : Type -> Type :=
| GetCurrentMode : Action string                    (* s.currentMode *)
| SetCurrentMode (m : string) : Action unit         (* s.currentMode = m *)
| GetTestMode : Action Z                            (* s.testMode *)
| SetTestMode (n : Z) : Action unit                 (* s.testMode = n *)
| Lock : Action unit                                (* s.triggerMu.Lock() *)
| Unlock : Action unit                              (* s.triggerMu.Unlock() *)
| LoadTriggered (id : Z) : Action bool              (* s.triggered[id] *)
| StoreTriggered (id : Z) (b : bool) : Action unit  (* s.triggered[id] = b *)
| MakeTriggered : Action unit                       (* s.triggered = make(map[int]bool) *)
| RangeTriggered : Action (list (Z * bool))         (* range s.triggered *)
| CfgGet : Action Config                            (* s.cfgMgr.Get() *)
| GetAlerts : Action (list AlertHandler)            (* s.alerts *)
| ReadPin (pin : Z) : Action bool                   (* readPin(pin) *)
| LoggerLog (r : LogRecord) : Action unit           (* s.logger.Log(...) *)
| Print (line : string) : Action unit               (* log.Printf / log.Println *)
| EnterSend (h : AlertHandler) (zone : Zone) : Action unit (* call of h.Send *)
| SmtpSendMail (addr user password host from to msg : string)
    : Action (option string).                       (* smtp.SendMail, nil or error text *)

Inductive Prog (A : Type) : Type :=
| Ret (a : A)
| Act {B : Type} (act : Action B) (k : B -> Prog A).

Arguments Ret {A} a.
Arguments Act {A B} act k.

Fixpoint bind {A B : Type} (p : Prog A) (f : A -> Prog B) : Prog B :=
  match p with
  | Ret a => f a
  | Act act k => Act act (fun b => bind (k b) f)
  end.

Definition perform {B : Type} (act : Action B) : Prog B := Act act Ret.

Declare Scope prog_scope.
Delimit Scope prog_scope with prog.
Notation "x <- p ;; q" := (bind p (fun x => q))
  (at level 100, p at next level, right associativity) : prog_scope.
Notation "p ;; q" := (bind p (fun _ => q))
  (at level 100, right associativity) : prog_scope.
Open Scope prog_scope.

(** [for _, x := range xs { body }] *)
Fixpoint forRange {A : Type} (xs : list A) (body : A -> Prog unit) : Prog unit :=
  match xs with
  | [] => Ret tt
  | x :: rest => body x ;; forRange rest body
  end.

(** ** sensor.go *)

Definition zoneTriggered (z : Zone) : Prog bool :=
  state <- perform (ReadPin (Pin z)) ;;
  let upper := strings.ToUpper (Mode z) in
  if String.eqb upper "NC" then Ret (negb state)
  else if String.eqb upper "NO" then Ret state
  else if String.eqb upper "EOL" then Ret state
  else Ret state.

(** ** alert.go: [Send] *)

Definition CRLF : string := String (ascii_of_N 13) (String (ascii_of_N 10) EmptyString).

Definition AlertHandler_Send (h : AlertHandler) (zone : Zone) : Prog (option string) :=
  perform (EnterSend h zone) ;;
  match h with
  | LogAlert =>
      perform (LoggerLog (LogAlertLine (ID zone) (Name zone))) ;;
      Ret None
  | EmailAlert server port username password from to subject0 =>
      let subject := if String.eqb subject0 "" then "Minder alert" else subject0 in
      let body := "Zone " +:+ Name zone +:+ " (ID " +:+ pretty (ID zone)
                  +:+ ") has been triggered" in
      let msg := "To: " +:+ to +:+ CRLF +:+ "Subject: " +:+ subject +:+ CRLF +:+ CRLF
                 +:+ body +:+ CRLF in
      let addr := server +:+ ":" +:+ pretty port in
      perform (SmtpSendMail addr username password server from to msg)
  end.

(** ** server.go *)

(** The loop
    [for i := range cfg.Zones { if cfg.Zones[i].ID == id { zone = &cfg.Zones[i]; break } }]
    of [handleTestTrigger] and [pollSensors]; [None] is [zone == nil]. *)
Fixpoint findZone (zones : list Zone) (id : Z) : option Zone :=
  match zones with
  | [] => None
  | z :: rest => if (ID z =? id)%Z then Some z else findZone rest id
  end.

Section Handlers.
Context {G : strings.Lib}.

(** The loop of [handleArm] over [cfg.ArmModes]; the result is the slice
    [activeZones], nil when no mode matched. *)
Fixpoint armActiveZones (ams : list ArmMode) (mode : string) : option (list Z) :=
  match ams with
  | [] => None
  | am :: rest =>
      if strings.EqualFold (am_Name am) mode then ActiveZones am
      else armActiveZones rest mode
  end.

(** The same loop in [pollSensors], which reads [s.currentMode] at every
    iteration. *)
Fixpoint pollActiveIDs (ams : list ArmMode) : Prog (option (list Z)) :=
  match ams with
  | [] => Ret None
  | am :: rest =>
      mode <- perform GetCurrentMode ;;
      if strings.EqualFold (am_Name am) mode then Ret (ActiveZones am)
      else pollActiveIDs rest
  end.

(** [%v] of a [[]int]. *)
Fixpoint fmtInts (l : list Z) : string :=
  match l with
  | [] => ""
  | [x] => pretty x
  | x :: rest => pretty x +:+ " " +:+ fmtInts rest
  end.

Definition fmtSlice (l : option (list Z)) : string :=
  "[" +:+ fmtInts (default [] l) +:+ "]".

(** The loop
    [for _, h := range s.alerts { if err := h.Send(zone, s.logger); err != nil { s.logger.Log(...) } }]
    written out in both [handleTestTrigger] and [pollSensors]. *)
Definition rangeAlerts (zone : Zone) : Prog unit :=
  alerts <- perform GetAlerts ;;
  forRange alerts (fun h =>
    err <- AlertHandler_Send h zone ;;
    match err with
    | Some e => perform (LoggerLog (LogAlertError (AlertHandler_Name h) e))
    | None => Ret tt
    end).

(** [s.triggerMu.Lock(); s.triggered = make(map[int]bool); s.triggerMu.Unlock()] *)
Definition resetTriggered : Prog unit :=
  perform Lock ;;
  perform MakeTriggered ;;
  perform Unlock.

(** A request is its method and its decoded JSON body; [None] is a body
    that [json.Decode] rejects. *)
Definition handleArm (method : string) (body : option string) (user : User)
  : Prog Response :=
  if negb (String.eqb method "POST") then
    Ret (HttpError "method not allowed" StatusMethodNotAllowed)
  else
  match body with
  | None => Ret (HttpError "invalid JSON" StatusBadRequest)
  | Some reqMode =>
      let mode := strings.TrimSpace reqMode in
      cfg <- perform CfgGet ;;
      let lower := strings.ToLower mode in
      if String.eqb lower "testsoft" || String.eqb lower "test soft" then
        perform (SetCurrentMode "TestSoft") ;;
        perform (SetTestMode 1) ;;
        resetTriggered ;;
        perform (LoggerLog (LogArm "TestSoft" (Username user))) ;;
        Ret (WriteHeader StatusNoContent)
      else if String.eqb lower "testwiring" || String.eqb lower "test wiring" then
        perform (SetCurrentMode "TestWiring") ;;
        perform (SetTestMode 2) ;;
        resetTriggered ;;
        perform (LoggerLog (LogArm "TestWiring" (Username user))) ;;
        Ret (WriteHeader StatusNoContent)
      else
        match armActiveZones (ArmModes cfg) mode with
        | None => Ret (HttpError "unknown arm mode" StatusBadRequest)
        | Some zs =>
            perform (SetCurrentMode mode) ;;
            perform (SetTestMode 0) ;;
            resetTriggered ;;
            m <- perform GetCurrentMode ;;
            perform (Print ("System armed in " +:+ m +:+ " mode (active zones: "
                            +:+ fmtSlice (Some zs) +:+ ")")) ;;
            m' <- perform GetCurrentMode ;;
            perform (LoggerLog (LogArm m' (Username user))) ;;
            Ret (WriteHeader StatusNoContent)
        end
  end.

Definition handleDisarm (method : string) (user : User) : Prog Response :=
  if negb (String.eqb method "POST") then
    Ret (HttpError "method not allowed" StatusMethodNotAllowed)
  else
    perform (SetCurrentMode "Disarmed") ;;
    perform (SetTestMode 0) ;;
    resetTriggered ;;
    perform (Print "System disarmed") ;;
    perform (LoggerLog (LogDisarm (Username user))) ;;
    Ret (WriteHeader StatusNoContent).

Definition handleTestTrigger (method : string) (body : option Z) (user : User)
  : Prog Response :=
  if negb (String.eqb method "POST") then
    Ret (HttpError "method not allowed" StatusMethodNotAllowed)
  else
    tm <- perform GetTestMode ;;
    if negb (tm =? 1)%Z then
      Ret (HttpError "not in TestSoft mode" StatusBadRequest)
    else
    match body with
    | None => Ret (HttpError "invalid JSON" StatusBadRequest)
    | Some zoneID =>
        cfg <- perform CfgGet ;;
        match findZone (Zones cfg) zoneID with
        | None => Ret (HttpError "zone not found" StatusNotFound)
        | Some zone =>
            perform Lock ;;
            already <- perform (LoadTriggered (ID zone)) ;;
            (if negb already then
               perform (StoreTriggered (ID zone) true) ;;
               perform Unlock ;;
               perform (LoggerLog (LogTestTrigger (ID zone) (Name zone) (Username user))) ;;
               rangeAlerts zone
             else
               perform Unlock) ;;
            Ret (WriteHeader StatusNoContent)
        end
    end.

(** What [pollSensors] does with one active zone ID. *)
Definition pollZone (cfg : Config) (id : Z) : Prog unit :=
  match findZone (Zones cfg) id with
  | None => Ret tt
  | Some zone =>
      if negb (Enabled zone) then Ret tt
      else
        t <- zoneTriggered zone ;;
        if t then
          perform Lock ;;
          already <- perform (LoadTriggered (ID zone)) ;;
          if negb already then
            perform (StoreTriggered (ID zone) true) ;;
            perform Unlock ;;
            perform (LoggerLog (LogTrigger (ID zone) (Name zone))) ;;
            tm <- perform GetTestMode ;;
            if (tm =? 0)%Z then rangeAlerts zone else Ret tt
          else
            perform Unlock
        else Ret tt
  end.

(** One iteration of the [for] loop of [pollSensors], after its
    [time.Sleep]. *)
Definition pollSensors_tick : Prog unit :=
  mode <- perform GetCurrentMode ;;
  skip <- (if String.eqb mode "Disarmed" then Ret true
           else tm <- perform GetTestMode ;; Ret (tm =? 1)%Z) ;;
  if skip : bool then Ret tt
  else
    cfg <- perform CfgGet ;;
    tm <- perform GetTestMode ;;
    activeIDs <- (if (tm =? 2)%Z then Ret (Some (map ID (Zones cfg)))
                  else pollActiveIDs (ArmModes cfg)) ;;
    forRange (default [] activeIDs) (pollZone cfg).

(** [mapM] over the zones, for the [zones] slice of [handleStatus]. *)
Fixpoint statusZones (zones : list Zone) : Prog (list ZoneInfo) :=
  match zones with
  | [] => Ret []
  | z :: rest =>
      active <- perform (LoadTriggered (ID z)) ;;
      infos <- statusZones rest ;;
      Ret ({| zi_ID := ID z; zi_Name := Name z; zi_Type := Type_ z; zi_Pin := Pin z;
              zi_Enabled := Enabled z; zi_Active := active |} :: infos)
  end.

Definition handleStatus (user : User) : Prog Response :=
  cfg <- perform CfgGet ;;
  entries <- perform RangeTriggered ;;
  let triggered := map fst (filter (fun e => snd e = true) entries) in
  zones <- statusZones (Zones cfg) ;;
  mode <- perform GetCurrentMode ;;
  Ret (Json {| st_Mode := mode; st_Triggered := triggered; st_Zones := zones |}).

(** [initAlertHandlers]: the loop appends to [handlers]. *)
Fixpoint appendHandlers (acs : list AlertConfig) (handlers : list AlertHandler)
  : list AlertHandler :=
  match acs with
  | [] => handlers
  | ac :: rest =>
      let ty := strings.ToLower (ac_Type ac) in
      if String.eqb ty "log" then appendHandlers rest (handlers ++ [LogAlert])
      else if String.eqb ty "email" then
        appendHandlers rest
          (handlers ++ [EmailAlert (ac_SMTPServer ac) (ac_SMTPPort ac) (ac_Username ac)
                          (ac_Password ac) (ac_From ac) (ac_To ac) (ac_Subject ac)])
      else appendHandlers rest handlers
  end.

Definition initAlertHandlers (cfg : Config) : list AlertHandler :=
  if (List.length (Alerts cfg) =? 0)%nat then [LogAlert]
  else
    let handlers := appendHandlers (Alerts cfg) [] in
    if (List.length handlers =? 0)%nat then [LogAlert] else handlers.

End Handlers.

(** ** The state the programs act on

    The mutable fields of [Server] ([currentMode], [triggered],
    [testMode]), its [alerts], fixed by [NewServer], the configuration held
    by [cfgMgr], and the outside world behind the HAL and the SMTP client. *)
Record State {World : Type} := mkState {
  cfgMgr : Config;
  currentMode : string;
  triggered : gmap Z bool;
  testMode : Z;
  alerts : list AlertHandler;
  world : World
}.
Arguments State World : clear implicits.
Arguments mkState {World} _ _ _ _ _ _.

Section Semantics.
Context {World : Type}.
Context {G : strings.Lib}.

(** hal.go: [readPin], as a capability over the world. *)
Variable readPin : Z -> World -> bool * World.

(** [smtp.SendMail(addr, smtp.PlainAuth("", user, password, host), from, []string{to}, msg)];
    the result is [None] for nil and [Some e] for an error with text [e]. *)
Variable SendMail :
  string -> string -> string -> string -> string -> string -> string ->
  World -> option string * World.

Definition set_currentMode (m : string) (s : State World) : State World :=
  mkState (cfgMgr s) m (triggered s) (testMode s) (alerts s) (world s).

Definition set_triggered (t : gmap Z bool) (s : State World) : State World :=
  mkState (cfgMgr s) (currentMode s) t (testMode s) (alerts s) (world s).

Definition set_testMode (n : Z) (s : State World) : State World :=
  mkState (cfgMgr s) (currentMode s) (triggered s) n (alerts s) (world s).

Definition set_world (w : World) (s : State World) : State World :=
  mkState (cfgMgr s) (currentMode s) (triggered s) (testMode s) (alerts s) w.

Definition set_cfgMgr (c : Config) (s : State World) : State World :=
  mkState c (currentMode s) (triggered s) (testMode s) (alerts s) (world s).

(** The effect of one action once it proceeds.  Whether it proceeds is
    decided by the semantics that calls [do_action]: [pool_step] holds
    [Lock] back while [triggerMu] is held, and [exec], further down, holds
    [CfgGet] back while the lock [cm.mu] of the configuration manager is
    held, so that [s.cfgMgr.Get()] never returns there.  [run] is the run
    with [cm.mu] free, as it is when a handler runs: [withAuth] has taken
    and released it on the way to the handler.  The poll goroutine can meet
    [cm.mu] held for good; what it does then is stated on [exec]. *)
Definition do_action {B : Type} (act : Action B) (s : State World)
  : B * State World * list Event :=
  match act in Action B return B * State World * list Event with
  | GetCurrentMode => (currentMode s, s, [])
  | SetCurrentMode m => (tt, set_currentMode m s, [])
  | GetTestMode => (testMode s, s, [])
  | SetTestMode n => (tt, set_testMode n s, [])
  | Lock => (tt, s, [])
  | Unlock => (tt, s, [])
  | LoadTriggered id => (default false (triggered s !! id), s, [])
  | StoreTriggered id b => (tt, set_triggered (<[id := b]> (triggered s)) s, [])
  | MakeTriggered => (tt, set_triggered ∅ s, [])
  | RangeTriggered => (map_to_list (triggered s), s, [])
  | CfgGet => (cfgMgr s, s, [])
  | GetAlerts => (alerts s, s, [])
  | ReadPin pin =>
      let '(level, w) := readPin pin (world s) in
      (level, set_world w s, [EvReadPin pin level])
  | LoggerLog r => (tt, s, [EvLog r])
  | Print line => (tt, s, [EvPrint line])
  | EnterSend h zone => (tt, s, [EvSend h zone])
  | SmtpSendMail addr user password host from to msg =>
      let '(res, w) := SendMail addr user password host from to msg (world s) in
      (res, set_world w s, [EvSendMail addr from to msg res])
  end.

(** *** Sequential semantics: a handler runs alone, to its end. *)
Fixpoint run {A : Type} (p : Prog A) (s : State World) : A * State World * list Event :=
  match p with
  | Ret a => (a, s, [])
  | Act act k =>
      let '(b, s1, t1) := do_action act s in
      let '(a, s2, t2) := run (k b) s1 in
      (a, s2, t1 ++ t2)
  end.

(** *** Interleaving semantics: goroutines take turns, one action at a
    time; [Lock] can only be taken while [triggerMu] is free. *)
Record Pool := mkPool {
  shared : State World;
  mu : bool;                          (* triggerMu is held *)
  threads : list (Prog Response)
}.

Definition isLock {B : Type} (act : Action B) : bool :=
  match act with Lock => true | _ => false end.

Definition isUnlock {B : Type} (act : Action B) : bool :=
  match act with Unlock => true | _ => false end.

Definition pool_step (i : nat) (p : Pool) : option (Pool * list Event) :=
  match threads p !! i with
  | Some (Act act k) =>
      if isLock act && mu p then None
      else
        let '(b, s', t) := do_action act (shared p) in
        let mu' := if isLock act then true
                   else if isUnlock act then false else mu p in
        Some (mkPool s' mu' (<[i := k b]> (threads p)), t)
  | _ => None
  end.

(** A schedule names the goroutine that takes each successive step. *)
Fixpoint pool_run (schedule : list nat) (p : Pool) : option (Pool * list Event) :=
  match schedule with
  | [] => Some (p, [])
  | i :: rest =>
      match pool_step i p with
      | None => None
      | Some (p1, t1) =>
          match pool_run rest p1 with
          | None => None
          | Some (p2, t2) => Some (p2, t1 ++ t2)
          end
      end
  end.

(** *** [NewServer] *)
Definition NewServer (cfg : Config) (w : World) : State World :=
  mkState cfg "Disarmed" ∅ 0%Z (initAlertHandlers cfg) w.

(** *** The engine's entry points and what the control surface sees *)

Definition arm (name : string) (user : User) : Prog Response :=
  handleArm "POST" (Some name) user.

Definition disarm (user : User) : Prog Response :=
  handleDisarm "POST" user.

Definition triggerManually (zoneID : Z) (user : User) : Prog Response :=
  handleTestTrigger "POST" (Some zoneID) user.

Definition snapshot (user : User) : Prog Response := handleStatus user.

Definition Success : Response := WriteHeader StatusNoContent.
Definition UnknownProfile : Response := HttpError "unknown arm mode" StatusBadRequest.
Definition NotInTestSoftMode : Response := HttpError "not in TestSoft mode" StatusBadRequest.
Definition UnknownZone : Response := HttpError "zone not found" StatusNotFound.

(** The Operating State that the pair [testMode], [currentMode] stands for. *)
Inductive OperatingState :=
| Disarmed
| Armed (profile : string)
| TestSoft
| TestWiring.

(** [opState] reads the two fields as [pollSensors] does, and as the
    comment on [currentMode] has it ("Disarmed" if none): the mode
    "Disarmed" stands for Disarmed also when it is the name of a profile
    that [handleArm] has just armed. *)
Definition opState (s : State World) : OperatingState :=
  if (testMode s =? 1)%Z then TestSoft
  else if (testMode s =? 2)%Z then TestWiring
  else if String.eqb (currentMode s) "Disarmed" then Disarmed
  else Armed (currentMode s).

(** The pairs that [NewServer], [handleArm] and [handleDisarm] write. *)
Definition consistent (s : State World) : Prop :=
  testMode s = 0%Z
  \/ (testMode s = 1%Z /\ currentMode s = "TestSoft")
  \/ (testMode s = 2%Z /\ currentMode s = "TestWiring").

Definition latched (s : State World) (id : Z) : bool :=
  default false (triggered s !! id).

(** The operations that leave the Operating State alone: a poll tick, a
    manual trigger request, a status request, and an edit of the
    configuration by the control surface. *)
Inductive Op :=
| OpTick
| OpTrigger (method : string) (body : option Z) (user : User)
| OpStatus (user : User)
| OpConfig (cfg : Config).

Definition run_op (o : Op) (s : State World) : State World * list Event :=
  match o with
  | OpTick => let '(_, s', t) := run pollSensors_tick s in (s', t)
  | OpTrigger method body user =>
      let '(_, s', t) := run (handleTestTrigger method body user) s in (s', t)
  | OpStatus user => let '(_, s', t) := run (handleStatus user) s in (s', t)
  | OpConfig cfg => (set_cfgMgr cfg s, [])
  end.

Fixpoint run_ops (ops : list Op) (s : State World) : State World * list Event :=
  match ops with
  | [] => (s, [])
  | o :: rest =>
      let '(s1, t1) := run_op o s in
      let '(s2, t2) := run_ops rest s1 in
      (s2, t1 ++ t2)
  end.

(** The states the server can be in: [NewServer], then requests and
    poll ticks, each run to its end. *)
Inductive reachable : State World -> Prop :=
| reach_NewServer (cfg : Config) (w : World) : reachable (NewServer cfg w)
| reach_arm (s : State World) (method : string) (body : option string) (user : User) :
    reachable s -> reachable (snd (fst (run (handleArm method body user) s)))
| reach_disarm (s : State World) (method : string) (user : User) :
    reachable s -> reachable (snd (fst (run (handleDisarm method user) s)))
| reach_op (s : State World) (o : Op) :
    reachable s -> reachable (fst (run_op o s)).

End Semantics.

(** ** Reference definitions, written from the specification

    These follow the words of the specification (sections 4.2 to 4.4) and
    are compared below with the programs translated from the Go code. *)
Section Reference.
Context {World : Type}.
Context {G : strings.Lib}.
Variable readPin : Z -> World -> bool * World.
Variable SendMail :
  string -> string -> string -> string -> string -> string -> string ->
  World -> option string * World.

(** Section 4.4: the wiring modes and the table of the interpreter. *)
Inductive WiringMode :=
| NormallyOpen
| NormallyClosed
| EndOfLine
| UnrecognizedMode.

(** The [mode] strings of the configuration: "NO", "NC", "EOL", in any
    letter case; everything else, the empty string included, names no
    wiring mode. *)
Definition wiringMode (mode : string) : WiringMode :=
  let m := strings.ToUpper mode in
  if String.eqb m "NC" then NormallyClosed
  else if String.eqb m "NO" then NormallyOpen
  else if String.eqb m "EOL" then EndOfLine
  else UnrecognizedMode.

(** [true] is a high level, [false] a low one. *)
Definition spec_activated (rawLevel : bool) (m : WiringMode) : bool :=
  match m with
  | NormallyClosed => negb rawLevel      (* activated when low *)
  | NormallyOpen => rawLevel             (* activated when high *)
  | EndOfLine => rawLevel                (* activated when high *)
  | UnrecognizedMode => rawLevel         (* as NormallyOpen *)
  end.

(** A state with nothing in it but the world: a channel's [Send] gets the
    zone and the logger, and touches nothing else. *)
Definition blank (w : World) : State World :=
  mkState (Build_Config [] [] []) "" ∅ 0%Z [] w.

(** Section 4.3: one channel's [send], with the record of its failure. *)
Definition spec_send (h : AlertHandler) (zone : Zone) (w : World)
  : World * list Event :=
  let '(res, s, t) := run readPin SendMail (AlertHandler_Send h zone) (blank w) in
  (world s,
   t ++ match res with
        | Some e => [EvLog (LogAlertError (AlertHandler_Name h) e)]
        | None => []
        end).

(** Section 4.3: every channel in configuration order, whatever the
    earlier ones returned. *)
Fixpoint spec_dispatch (channels : list AlertHandler) (zone : Zone) (w : World)
  : World * list Event :=
  match channels with
  | [] => (w, [])
  | h :: rest =>
      let '(w1, t1) := spec_send h zone w in
      let '(w2, t2) := spec_dispatch rest zone w1 in
      (w2, t1 ++ t2)
  end.

(** Section 4.2, step 3: the active zone set. *)
Definition spec_active_zones (s : State World) : list Z :=
  match opState s with
  | TestWiring => map ID (Zones (cfgMgr s))
  | Armed profile =>
      match List.find (fun am => strings.EqualFold (am_Name am) profile)
                      (ArmModes (cfgMgr s)) with
      | Some am => default [] (ActiveZones am)
      | None => []
      end
  | Disarmed | TestSoft => []
  end.

(** Section 4.2, step 4, for one zone ID of the active set; [quiet] is
    [true] in TestWiring, where the channels are not invoked. *)
Definition spec_poll_zone (quiet : bool) (id : Z) (s : State World)
  : State World * list Event :=
  match List.find (fun z => (ID z =? id)%Z) (Zones (cfgMgr s)) with
  | None => (s, [])
  | Some zone =>
      if negb (Enabled zone) then (s, [])
      else
        let '(level, w) := readPin (Pin zone) (world s) in
        if spec_activated level (wiringMode (Mode zone)) && negb (latched s (ID zone))
        then
          let s1 := set_triggered (<[ID zone := true]> (triggered s)) (set_world w s) in
          let '(w', t) := if quiet then (w, []) else spec_dispatch (alerts s) zone w in
          (set_world w' s1,
           [EvReadPin (Pin zone) level; EvLog (LogTrigger (ID zone) (Name zone))] ++ t)
        else (set_world w s, [EvReadPin (Pin zone) level])
  end.

Fixpoint spec_poll_zones (quiet : bool) (ids : list Z) (s : State World)
  : State World * list Event :=
  match ids with
  | [] => (s, [])
  | id :: rest =>
      let '(s1, t1) := spec_poll_zone quiet id s in
      let '(s2, t2) := spec_poll_zones quiet rest s1 in
      (s2, t1 ++ t2)
  end.

(** Section 4.2: one tick of the polling loop. *)
Definition spec_poll_tick (s : State World) : State World * list Event :=
  match opState s with
  | Disarmed | TestSoft => (s, [])
  | TestWiring => spec_poll_zones true (spec_active_zones s) s
  | Armed _ => spec_poll_zones false (spec_active_zones s) s
  end.

End Reference.

(** ** Observations on traces *)

(** The channels whose [Send] was entered, with the zone they were given. *)
Definition sends (t : list Event) : list (AlertHandler * Zone) :=
  omap (fun e => match e with EvSend h z => Some (h, z) | _ => None end) t.

(** The pins that were read. *)
Definition pinsRead (t : list Event) : list Z :=
  omap (fun e => match e with EvReadPin pin _ => Some pin | _ => None end) t.

(** The zone IDs for which a latch was recorded: the log records written
    right after [s.triggered[zone.ID] = true]. *)
Definition latches (t : list Event) : list Z :=
  omap (fun e => match e with
                 | EvLog (LogTrigger id _) => Some id
                 | EvLog (LogTestTrigger id _ _) => Some id
                 | _ => None
                 end) t.

(** The failures of channels that were recorded. *)
Definition failures (t : list Event) : list (string * string) :=
  omap (fun e => match e with
                 | EvLog (LogAlertError h err) => Some (h, err)
                 | _ => None
                 end) t.

(** The failures that the SMTP client returned. *)
Definition smtpFailures (t : list Event) : list (string * string) :=
  omap (fun e => match e with
                 | EvSendMail _ _ _ _ (Some err) => Some ("email", err)
                 | _ => None
                 end) t.

(** How many times the latch of [id] was set, and how many times a channel
    was given a zone with that ID. *)
Definition latchCount (id : Z) (t : list Event) : nat :=
  length (filter (fun i => i = id) (latches t)).

Definition sendCount (id : Z) (t : list Event) : nat :=
  length (filter (fun hz => ID (snd hz) = id) (sends t)).

(** The two tests of [handleArm] on [lower]. *)
Definition isTestSoftName (lower : string) : bool :=
  String.eqb lower "testsoft" || String.eqb lower "test soft".

Definition isTestWiringName (lower : string) : bool :=
  String.eqb lower "testwiring" || String.eqb lower "test wiring".

Section Channels.
Context {G : strings.Lib}.


End Channels.

(** The pins of the zones that are enabled. *)
Definition enabledPins (cfg : Config) : list Z :=
  map Pin (filter (fun z => Enabled z = true) (Zones cfg)).


(** ** Relations between the state before and after a piece of trace *)
Section Relations.
Context {World : Type}.

(** The fields a poll tick and a manual trigger leave alone. *)
Definition same_setup (s s' : State World) : Prop :=
  cfgMgr s' = cfgMgr s /\ currentMode s' = currentMode s /\
  testMode s' = testMode s /\ alerts s' = alerts s.

(** What one zone of a tick, or one manual trigger, can do: nothing to the
    latches, or the fresh latch of one configured zone, followed by the
    dispatch unless [quiet]. *)
Inductive Outcome (quiet : bool) (s : State World) (t : list Event) (s' : State World)
  : Prop :=
| Idle :
    same_setup s s' -> triggered s' = triggered s ->
    latches t = [] -> sends t = [] -> failures t = smtpFailures t ->
    Outcome quiet s t s'
| Fresh (zone : Zone) :
    same_setup s s' ->
    findZone (Zones (cfgMgr s)) (ID zone) = Some zone ->
    latched s (ID zone) = false ->
    triggered s' = <[ID zone := true]> (triggered s) ->
    latches t = [ID zone] ->
    sends t = (if quiet then [] else map (fun h => (h, zone)) (alerts s)) ->
    failures t = smtpFailures t ->
    Outcome quiet s t s'.

(** The edge-triggering of the latch of one zone ID, over a piece of trace. *)
Definition edge_step (id : Z) (s : State World) (t : list Event) (s' : State World)
  : Prop :=
  alerts s' = alerts s /\
  (latched s id = true ->
     latched s' id = true /\ latchCount id t = 0 /\ sendCount id t = 0)%nat /\
  (latchCount id t <= 1)%nat /\
  (sendCount id t <= length (alerts s))%nat /\
  (0 < latchCount id t + sendCount id t -> latched s' id = true)%nat.

(** The channels that a latch of [id] calls, in the order of [s.alerts]. *)
Definition channelsFor (s : State World) (id : Z) : list (AlertHandler * Zone) :=
  match findZone (Zones (cfgMgr s)) id with
  | Some zone => map (fun h => (h, zone)) (alerts s)
  | None => []
  end.

(** Every latch of the trace is followed by its dispatch, unless [quiet]. *)
Definition dispatch_step (quiet : bool) (s : State World) (t : list Event)
  (s' : State World) : Prop :=
  same_setup s s' /\
  sends t = (if quiet then [] else flat_map (channelsFor s) (latches t)) /\
  (forall id, latched s id = true -> latched s' id = true) /\
  (forall id, In id (latches t) -> latched s' id = true) /\
  failures t = smtpFailures t.

End Relations.

(** ** Test doubles for the outside world *)

(** hal.go: the stub [readPin] always returns false. *)
Definition stub_readPin (pin : Z) (w : unit) : bool * unit := (false, w).

(** Sensors whose level flips after every second read; the world counts the
    reads made so far. *)
Definition oscillating_readPin (pin : Z) (w : nat) : bool * nat :=
  (Nat.even (Nat.div2 w), S w).

(** A sensor that is always high. *)
Definition high_readPin (pin : Z) (w : nat) : bool * nat := (true, S w).

(** An SMTP server that refuses every message. *)
Definition failing_SendMail {W : Type} (addr user password host from to msg : string) (w : W)
  : option string * W := (Some "connection refused", w).

(** ** A household, for the worked examples

    The zones of the README's sample configuration, with a third zone that
    is switched off, two profiles with zone lists, one profile stored
    without a zone list, an e-mail channel and the log channel. *)

Definition admin : User :=
  {| Username := "admin"; PasswordHash := ""; Admin := true |}.

Definition frontDoor : Zone :=
  {| ID := 1; Name := "Front Door"; Type_ := "contact"; Pin := 17;
     Enabled := true; Mode := "NC" |}.

Definition loungePIR : Zone :=
  {| ID := 2; Name := "Lounge PIR"; Type_ := "pir"; Pin := 27;
     Enabled := true; Mode := "NO" |}.

Definition garage : Zone :=
  {| ID := 3; Name := "Garage"; Type_ := "contact"; Pin := 22;
     Enabled := false; Mode := "NO" |}.

Definition mailChannel : AlertConfig :=
  {| ac_Type := "email"; ac_SMTPServer := "smtp.example.org"; ac_SMTPPort := 587;
     ac_Username := "minder"; ac_Password := "secret";
     ac_From := "minder@example.org"; ac_To := "owner@example.org";
     ac_Subject := "" |}.

Definition logChannel : AlertConfig :=
  {| ac_Type := "log"; ac_SMTPServer := ""; ac_SMTPPort := 0; ac_Username := "";
     ac_Password := ""; ac_From := ""; ac_To := ""; ac_Subject := "" |}.

Definition house : Config :=
  {| Zones := [frontDoor; loungePIR; garage];
     ArmModes := [ {| am_Name := "Away"; ActiveZones := Some [1; 2; 3]%Z |};
                   {| am_Name := "Home"; ActiveZones := Some [1]%Z |};
                   {| am_Name := "Night"; ActiveZones := None |} ];
     Alerts := [mailChannel; logChannel] |}.

(** The same house with a profile that is called "Disarmed". *)
Definition houseWithDisarmedProfile : Config :=
  {| Zones := Zones house;
     ArmModes := [ {| am_Name := "Disarmed"; ActiveZones := Some [1; 2]%Z |} ];
     Alerts := Alerts house |}.

Section HouseholdStates.
Context {G : strings.Lib}.

(** Armed in "Away", the lounge already latched. *)
Definition awayLoungeLatched {World : Type} (w : World) : State World :=
  mkState house "Away" {[ 2%Z := true ]} 0%Z (initAlertHandlers house) w.

(** In TestSoft and in TestWiring, nothing latched. *)
Definition inTestSoft {World : Type} (w : World) : State World :=
  mkState house "TestSoft" ∅ 1%Z (initAlertHandlers house) w.


End HouseholdStates.

(** A disarm request and a status request, served by two goroutines: the
    first takes one step, the second runs to its end, the first finishes. *)
Definition disarmThenStatusPool (s : State unit) : Pool :=
  mkPool s false [handleDisarm "POST" admin; handleStatus admin].

Definition statusInsideDisarm : list nat :=
  [0; 1; 1; 1; 1; 1; 1; 0; 0; 0; 0; 0; 0]%nat.

(** The two schedules in which one request is served after the other. *)
Definition statusBeforeDisarm : list nat :=
  [1; 1; 1; 1; 1; 1; 0; 0; 0; 0; 0; 0; 0]%nat.

Definition statusAfterDisarm : list nat :=
  [0; 0; 0; 0; 0; 0; 0; 1; 1; 1; 1; 1; 1]%nat.

(** The goroutine that [NewServer] starts runs [pollSensors].  It answers
    no request: in a pool, one iteration of its loop ends in
    [endOfIteration], a response that nobody reads. *)
Definition endOfIteration : Response := WriteHeader 0.

Section PollGoroutine.
Context {G : strings.Lib}.

Definition pollThread : Prog Response :=
  pollSensors_tick ;; Ret endOfIteration.

(** A disarm request, served while the poll goroutine is in an iteration. *)
Definition disarmDuringTickPool (s : State nat) : Pool :=
  mkPool s false [handleDisarm "POST" admin; pollThread].

(** Armed in "Away", nothing latched. *)
Definition armedAway {World : Type} (w : World) : State World :=
  mkState house "Away" ∅ 0%Z (initAlertHandlers house) w.

End PollGoroutine.

(** The poll goroutine tests the mode, gets the configuration and finds the
    zone list of "Away" (five steps); [handleDisarm] writes the mode and the
    test mode and resets the latches under [triggerMu] (five steps); the
    poll goroutine reads the two pins, latches the lounge and calls the
    channels (fourteen steps); [handleDisarm] writes its two log lines and
    returns. *)
Definition tickAroundDisarm : list nat :=
  [1; 1; 1; 1; 1;
   0; 0; 0; 0; 0;
   1; 1; 1; 1; 1; 1; 1; 1; 1; 1; 1; 1; 1; 1;
   0; 0]%nat.

(** ** Two sentences of the specification, as they are worded *)
Section Worded.
Context {World : Type}.
Context {G : strings.Lib}.
Variable readPin : Z -> World -> bool * World.
Variable SendMail :
  string -> string -> string -> string -> string -> string -> string ->
  World -> option string * World.



End Worded.

(** ** More of server.go: what the poll loop ranges over *)

Section Polled.
Context {G : strings.Lib}.

(** The IDs that one iteration of [pollSensors] ranges over: none when it
    skips the iteration. *)
Definition activeIDs {World : Type} (s : State World) : list Z :=
  if String.eqb (currentMode s) "Disarmed" || (testMode s =? 1)%Z then []
  else if (testMode s =? 2)%Z then map ID (Zones (cfgMgr s))
  else default [] (armActiveZones (ArmModes (cfgMgr s)) (currentMode s)).

End Polled.

(** The pin that [pollSensors] reads for one active ID, if it reads one. *)
Definition polledPin (cfg : Config) (id : Z) : option Z :=
  match findZone (Zones cfg) id with
  | Some zone => if Enabled zone then Some (Pin zone) else None
  | None => None
  end.

(** Sensors whose level does not depend on when they are read. *)
Definition steadyLevels {World : Type} (readPin : Z -> World -> bool * World)
  (level : Z -> bool) : Prop :=
  forall pin (w : World), fst (readPin pin w) = level pin.

(** ** config.go: the configuration manager *)

(** The whole of [Config] that the handlers touch: the fields of the alarm
    logic and [Users]. *)
Record Stored := mkStored {
  engine : Config;
  Users : list User
}.

(** [ConfigManager]: the configuration and whether [mu] is held. *)
Record ConfigManager := mkCM {
  cfg : Stored;
  muHeld : bool
}.

(** How a call ends: it returns, it panics, or it waits for a lock that is
    never released. *)
Inductive Call (A : Type) : Type :=
| Returned (a : A)
| Panicked
| Blocked.
Arguments Returned {A} a.
Arguments Panicked {A}.
Arguments Blocked {A}.

Definition Call_map {A B : Type} (f : A -> B) (c : Call A) : Call B :=
  match c with
  | Returned a => Returned (f a)
  | Panicked => Panicked
  | Blocked => Blocked
  end.

(** [Get]: a read lock, released by [defer]. *)
Definition cm_Get (cm : ConfigManager) : Call Stored :=
  if muHeld cm then Blocked else Returned (cfg cm).

(** [Update(fn)]: [mu.Lock()], then [fn(&cm.cfg)]; [fn] returns an error or
    nil together with the configuration as it left it, or panics ([None]).
    [mu.Unlock()] is called on the two return paths only, so a panic leaves
    [mu] held.  When [fn] returned nil the result is the one of [Save],
    given as [saveErr]. *)
Definition cm_Update (fn : Stored -> option (option string * Stored))
  (saveErr : option string) (cm : ConfigManager) : Call (option string) * ConfigManager :=
  if muHeld cm then (Blocked, cm)
  else
    match fn (cfg cm) with
    | None => (Panicked, mkCM (cfg cm) true)
    | Some (Some e, c) => (Returned (Some e), mkCM c false)
    | Some (None, c) => (Returned saveErr, mkCM c false)
    end.

Definition noUser : User := {| Username := ""; PasswordHash := ""; Admin := false |}.

(** The loop of [FindUser]; the index is -1 when no user has the name. *)
Fixpoint findUserFrom (users : list User) (username : string) (i : Z) : User * Z :=
  match users with
  | [] => (noUser, (-1)%Z)
  | u :: rest =>
      if String.eqb (Username u) username then (u, i)
      else findUserFrom rest username (i + 1)%Z
  end.

Definition cm_FindUser (username : string) (cm : ConfigManager) : Call (User * Z) :=
  if muHeld cm then Blocked else Returned (findUserFrom (Users (cfg cm)) username 0%Z).

(** ** The poll goroutine and the lock of the configuration

    [Update] runs its closure with [cm.mu] held and has no deferred unlock:
    when the closure panics, [cm.mu] stays held ([cm_Update]).  The poll
    goroutine calls [Get] in every iteration that it does not skip; with
    [cm.mu] held the call never returns.  [exec held] is the run of a
    program with [cm.mu] held or free: what it did up to the call of [Get]
    that blocks, or all of it. *)
Section Held.
Context {World : Type}.
Variable readPin : Z -> World -> bool * World.
Variable SendMail :
  string -> string -> string -> string -> string -> string -> string ->
  World -> option string * World.

Definition isCfgGet {B : Type} (act : Action B) : bool :=
  match act with CfgGet => true | _ => false end.

Fixpoint exec {A : Type} (held : bool) (p : Prog A) (s : State World)
  : Call A * State World * list Event :=
  match p with
  | Ret a => (Returned a, s, [])
  | Act act k =>
      if held && isCfgGet act then (Blocked, s, [])
      else
        let '(b, s1, t1) := do_action readPin SendMail act s in
        let '(r, s2, t2) := exec held (k b) s1 in
        (r, s2, t1 ++ t2)
  end.

End Held.

(** ** auth.go: sessions *)

Record Session := mkSession {
  sess_Username : string;
  Expires : Z                (* a time, in nanoseconds *)
}.

(** [Create]: [rand] is what [randomString(32)] returned, [None] for an
    error; [now] is [time.Now()]. *)
Definition sm_Create (rand : option string) (username : string) (ttl now : Z)
  (sm : gmap string Session) : option (string * Session) * gmap string Session :=
  match rand with
  | None => (None, sm)
  | Some id =>
      let s := mkSession username (now + ttl)%Z in
      (Some (id, s), <[id := s]> sm)
  end.

(** [Get]: [None] is the result [(Session{}, false)]. *)
Definition sm_Get (id : string) (now : Z) (sm : gmap string Session) : option Session :=
  match sm !! id with
  | None => None
  | Some s => if (now >? Expires s)%Z then None else Some s
  end.

Definition sm_Delete (id : string) (sm : gmap string Session) : bool * gmap string Session :=
  match sm !! id with
  | Some _ => (true, delete id sm)
  | None => (false, sm)
  end.

(** [Purge]: every session with [now.After(s.Expires)] is deleted. *)
Definition sm_Purge (now : Z) (sm : gmap string Session) : gmap string Session :=
  filter (fun p : string * Session => ~ (now > Expires (snd p))%Z) sm.

(** ** server.go: the requests on zones, profiles, accounts and the log *)

Definition StatusOK : Z := 200.
Definition StatusCreated : Z := 201.
Definition StatusUnauthorized : Z := 401.
Definition StatusForbidden : Z := 403.
Definition StatusInternalServerError : Z := 500.

(** One constructor per format string that these handlers log. *)
Inductive AdminLog :=
| LogCreateZone (name : string) (id : Z) (by_ : string)  (* "create zone %s (id=%d) by %s" *)
| LogUpdateZone (id : Z) (by_ : string)                  (* "update zone id=%d by %s" *)
| LogDeleteZone (id : Z) (by_ : string)                  (* "delete zone id=%d by %s" *)
| LogCreateUser (name by_ : string)                      (* "create user %s by %s" *)
| LogUpdateUser (name by_ : string)                      (* "update user %s by %s" *)
| LogDeleteUser (name by_ : string)                      (* "delete user %s by %s" *)
| LogUpdateArmMode (name by_ : string)                   (* "update arm mode %s by %s" *)
| LogLogin (name : string)                               (* "login %s" *)
| LogLogout.                                             (* "logout" *)

(** What is encoded into the body of an answer. *)
Inductive Body :=
| BodyZones (zones : list Zone)
| BodyZone (zone : Zone)
| BodyArmModes (modes : list ArmMode)
| BodyUsers (views : list (string * bool))   (* userView: username, admin *)
| BodyLines (lines : list string)
| BodyStatusOk.                              (* {"status":"ok"} *)

Inductive Reply :=
| ReplyJson (code : Z) (body : Body)
| ReplyHeader (code : Z)                 (* w.WriteHeader(code) *)
| ReplyError (msg : string) (code : Z).  (* http.Error(w, msg, code) *)

(** [http.NotFound] *)
Definition ReplyNotFound : Reply := ReplyError "404 page not found" StatusNotFound.

(** Go's [int] of [bits] bits: the sum wraps around. *)
Definition wrapInt (bits : Z) (x : Z) : Z :=
  ((x + 2 ^ (bits - 1)) mod 2 ^ bits - 2 ^ (bits - 1))%Z.

Definition withID (id : Z) (z : Zone) : Zone :=
  {| ID := id; Name := Name z; Type_ := Type_ z; Pin := Pin z;
     Enabled := Enabled z; Mode := Mode z |}.

Definition withZones (zones : list Zone) (c : Stored) : Stored :=
  mkStored {| Zones := zones; ArmModes := ArmModes (engine c); Alerts := Alerts (engine c) |}
           (Users c).

Definition withArmModes (modes : list ArmMode) (c : Stored) : Stored :=
  mkStored {| Zones := Zones (engine c); ArmModes := modes; Alerts := Alerts (engine c) |}
           (Users c).

Definition withUsers (users : list User) (c : Stored) : Stored :=
  mkStored (engine c) users.

(** [maxID := 0; for _, existing := range c.Zones { if existing.ID > maxID { maxID = existing.ID } }] *)
Fixpoint maxZoneIDFrom (zones : list Zone) (maxID : Z) : Z :=
  match zones with
  | [] => maxID
  | existing :: rest =>
      maxZoneIDFrom rest (if (ID existing >? maxID)%Z then ID existing else maxID)
  end.

Definition nextZoneID (bits : Z) (zones : list Zone) : Z :=
  wrapInt bits (maxZoneIDFrom zones 0 + 1).

(** The closures given to [Update] by [handleZoneByID]; [None] is the
    error "not found". *)
Fixpoint putZone (zones : list Zone) (id : Z) (z : Zone) : option (list Zone) :=
  match zones with
  | [] => None
  | existing :: rest =>
      if (ID existing =? id)%Z then Some (withID id z :: rest)
      else match putZone rest id z with
           | Some rest' => Some (existing :: rest')
           | None => None
           end
  end.

Fixpoint removeZone (zones : list Zone) (id : Z) : option (list Zone) :=
  match zones with
  | [] => None
  | existing :: rest =>
      if (ID existing =? id)%Z then Some rest
      else match removeZone rest id with
           | Some rest' => Some (existing :: rest')
           | None => None
           end
  end.

(** A handler's call of [Update], followed by what it does with a returned
    error. *)
Definition afterUpdate {A : Type} (r : Call (option string) * ConfigManager)
  (k : option string -> A) : Call A * ConfigManager :=
  (Call_map k (fst r), snd r).

(** How [handleZoneByID] and [handleUserByID] answer the error of [Update]. *)
Definition notFoundOr500 (err : string) : Reply :=
  if String.eqb err "not found" then ReplyError "not found" StatusNotFound
  else ReplyError "internal error" StatusInternalServerError.

(** [handleZones]; the error that [Update] returns for a POST is dropped. *)
Definition handleZones (bits : Z) (method : string) (body : option Zone) (user : User)
  (saveErr : option string) (cm : ConfigManager)
  : Call (Reply * list AdminLog) * ConfigManager :=
  if String.eqb method "GET" then
    (Call_map (fun c => (ReplyJson StatusOK (BodyZones (Zones (engine c))), []))
              (cm_Get cm), cm)
  else if String.eqb method "POST" then
    if negb (Admin user) then (Returned (ReplyError "forbidden" StatusForbidden, []), cm)
    else
      match body with
      | None => (Returned (ReplyError "invalid JSON" StatusBadRequest, []), cm)
      | Some z =>
          if String.eqb (Name z) "" || (Pin z =? 0)%Z then
            (Returned (ReplyError "missing name or pin" StatusBadRequest, []), cm)
          else
            let z' := withID (nextZoneID bits (Zones (engine (cfg cm)))) z in
            afterUpdate
              (cm_Update (fun c =>
                 Some (None,
                       withZones (Zones (engine c)
                                  ++ [withID (nextZoneID bits (Zones (engine c))) z]) c))
                 saveErr cm)
              (fun _ => (ReplyJson StatusCreated (BodyZone z'),
                         [LogCreateZone (Name z') (ID z') (Username user)]))
      end
  else (Returned (ReplyError "method not allowed" StatusMethodNotAllowed, []), cm).

(** The third part of the path of a request on /api/zones/{id}:
    [PathShort] when the path has fewer than three parts, [PathBad] when
    [strconv.Atoi] rejects the part. *)
Inductive PathPart : Type :=
| PathShort
| PathBad
| PathIs (id : Z).

(** [handleZoneByID] *)
Definition handleZoneByID (method : string) (path : PathPart) (body : option Zone)
  (user : User) (saveErr : option string) (cm : ConfigManager)
  : Call (Reply * list AdminLog) * ConfigManager :=
  if negb (Admin user) then (Returned (ReplyError "forbidden" StatusForbidden, []), cm)
  else
    match path with
    | PathShort => (Returned (ReplyNotFound, []), cm)
    | PathBad => (Returned (ReplyError "invalid id" StatusBadRequest, []), cm)
    | PathIs id =>
        if String.eqb method "PUT" then
          match body with
          | None => (Returned (ReplyError "invalid JSON" StatusBadRequest, []), cm)
          | Some z =>
              afterUpdate
                (cm_Update (fun c =>
                   match putZone (Zones (engine c)) id z with
                   | Some zones => Some (None, withZones zones c)
                   | None => Some (Some "not found", c)
                   end) saveErr cm)
                (fun err =>
                   match err with
                   | Some e => (notFoundOr500 e, [])
                   | None => (ReplyHeader StatusNoContent,
                              [LogUpdateZone id (Username user)])
                   end)
          end
        else if String.eqb method "DELETE" then
          afterUpdate
            (cm_Update (fun c =>
               match removeZone (Zones (engine c)) id with
               | Some zones => Some (None, withZones zones c)
               | None => Some (Some "not found", c)
               end) saveErr cm)
            (fun err =>
               match err with
               | Some e => (notFoundOr500 e, [])
               | None => (ReplyHeader StatusNoContent, [LogDeleteZone id (Username user)])
               end)
        else (Returned (ReplyError "method not allowed" StatusMethodNotAllowed, []), cm)
    end.

Section ArmModeRequests.
Context {G : strings.Lib}.

(** The closure of [handleArmModes]: replace the first profile whose name
    folds to the same, or append. *)
Fixpoint upsertArmMode (modes : list ArmMode) (req : ArmMode) : list ArmMode :=
  match modes with
  | [] => [req]
  | am :: rest =>
      if strings.EqualFold (am_Name am) (am_Name req) then req :: rest
      else am :: upsertArmMode rest req
  end.

(** [handleArmModes] *)
Definition handleArmModes (method : string) (body : option ArmMode) (user : User)
  (saveErr : option string) (cm : ConfigManager)
  : Call (Reply * list AdminLog) * ConfigManager :=
  if String.eqb method "GET" then
    (Call_map (fun c => (ReplyJson StatusOK (BodyArmModes (ArmModes (engine c))), []))
              (cm_Get cm), cm)
  else if String.eqb method "POST" then
    if negb (Admin user) then (Returned (ReplyError "forbidden" StatusForbidden, []), cm)
    else
      match body with
      | None => (Returned (ReplyError "invalid JSON" StatusBadRequest, []), cm)
      | Some req =>
          if String.eqb (am_Name req) "" then
            (Returned (ReplyError "missing name" StatusBadRequest, []), cm)
          else
            afterUpdate
              (cm_Update (fun c =>
                 Some (None, withArmModes (upsertArmMode (ArmModes (engine c)) req) c))
                 saveErr cm)
              (fun err =>
                 match err with
                 | Some _ => (ReplyError "internal error" StatusInternalServerError, [])
                 | None => (ReplyHeader StatusCreated,
                            [LogUpdateArmMode (am_Name req) (Username user)])
                 end)
      end
  else (Returned (ReplyError "method not allowed" StatusMethodNotAllowed, []), cm).

End ArmModeRequests.

(** The body of a POST on /api/users and of a PUT on /api/users/{username};
    in the second, a field that is absent is [None]. *)
Record UserReq := {
  ur_Username : string;
  ur_Password : string;
  ur_Admin : bool
}.

Record UserPatch := {
  up_Password : option string;
  up_Admin : option bool
}.

Definition hasUser (users : list User) (username : string) : bool :=
  existsb (fun u => String.eqb (Username u) username) users.

(** What the closure of a PUT on /api/users/{username} makes of the record:
    the fields that the body gives are overwritten; [hashed] is what
    [bcrypt.GenerateFromPassword] makes of the new password. *)
Definition patched (u : User) (patch : UserPatch) (hashed : option string) : User :=
  {| Username := Username u;
     PasswordHash := match up_Password patch, hashed with
                     | Some _, Some h => h
                     | _, _ => PasswordHash u
                     end;
     Admin := match up_Admin patch with
              | Some a => a
              | None => Admin u
              end |}.

(** The closures given to [Update] by [handleUserByID].  The outer [None]
    is the panic of [hashPassword] when hashing fails ([hashed] is [None]),
    the inner one the error "not found". *)
Fixpoint patchUser (users : list User) (username : string) (patch : UserPatch)
  (hashed : option string) : option (option (list User)) :=
  match users with
  | [] => Some None
  | u :: rest =>
      if String.eqb (Username u) username then
        match up_Password patch, hashed with
        | Some _, None => None
        | _, _ => Some (Some (patched u patch hashed :: rest))
        end
      else match patchUser rest username patch hashed with
           | Some (Some rest') => Some (Some (u :: rest'))
           | other => other
           end
  end.

Fixpoint removeUser (users : list User) (username : string) : option (list User) :=
  match users with
  | [] => None
  | u :: rest =>
      if String.eqb (Username u) username then Some rest
      else match removeUser rest username with
           | Some rest' => Some (u :: rest')
           | None => None
           end
  end.

(** [handleUsers]; [hashed] is what bcrypt makes of the password of the
    body, [None] when it fails. *)
Definition handleUsers (method : string) (body : option UserReq) (hashed : option string)
  (user : User) (saveErr : option string) (cm : ConfigManager)
  : Call (Reply * list AdminLog) * ConfigManager :=
  if negb (Admin user) then (Returned (ReplyError "forbidden" StatusForbidden, []), cm)
  else if String.eqb method "GET" then
    (Call_map (fun c => (ReplyJson StatusOK
                           (BodyUsers (map (fun u => (Username u, Admin u)) (Users c))), []))
              (cm_Get cm), cm)
  else if String.eqb method "POST" then
    match body with
    | None => (Returned (ReplyError "invalid JSON" StatusBadRequest, []), cm)
    | Some req =>
        if String.eqb (ur_Username req) "" || String.eqb (ur_Password req) "" then
          (Returned (ReplyError "missing username or password" StatusBadRequest, []), cm)
        else
          afterUpdate
            (cm_Update (fun c =>
               if hasUser (Users c) (ur_Username req) then Some (Some "exists", c)
               else match hashed with
                    | None => None
                    | Some h =>
                        Some (None,
                              withUsers (Users c ++ [{| Username := ur_Username req;
                                                        PasswordHash := h;
                                                        Admin := ur_Admin req |}]) c)
                    end) saveErr cm)
            (fun err =>
               match err with
               | Some e =>
                   if String.eqb e "exists" then
                     (ReplyError "user exists" StatusBadRequest, [])
                   else (ReplyError "internal error" StatusInternalServerError, [])
               | None => (ReplyHeader StatusCreated,
                          [LogCreateUser (ur_Username req) (Username user)])
               end)
    end
  else (Returned (ReplyError "method not allowed" StatusMethodNotAllowed, []), cm).

(** [handleUserByID]; [path] is the third part of the path, the user name,
    [None] when the path has fewer than three parts. *)
Definition handleUserByID (method : string) (path : option string)
  (body : option UserPatch) (hashed : option string)
  (user : User) (saveErr : option string) (cm : ConfigManager)
  : Call (Reply * list AdminLog) * ConfigManager :=
  if negb (Admin user) then (Returned (ReplyError "forbidden" StatusForbidden, []), cm)
  else
    match path with
    | None => (Returned (ReplyNotFound, []), cm)
    | Some username =>
        if String.eqb method "PUT" then
          match body with
          | None => (Returned (ReplyError "invalid JSON" StatusBadRequest, []), cm)
          | Some patch =>
              afterUpdate
                (cm_Update (fun c =>
                   match patchUser (Users c) username patch hashed with
                   | None => None
                   | Some (Some users) => Some (None, withUsers users c)
                   | Some None => Some (Some "not found", c)
                   end) saveErr cm)
                (fun err =>
                   match err with
                   | Some e => (notFoundOr500 e, [])
                   | None => (ReplyHeader StatusNoContent,
                              [LogUpdateUser username (Username user)])
                   end)
          end
        else if String.eqb method "DELETE" then
          if String.eqb username "admin" then
            (Returned (ReplyError "cannot delete default admin" StatusBadRequest, []), cm)
          else
            afterUpdate
              (cm_Update (fun c =>
                 match removeUser (Users c) username with
                 | Some users => Some (None, withUsers users c)
                 | None => Some (Some "not found", c)
                 end) saveErr cm)
              (fun err =>
                 match err with
                 | Some e => (notFoundOr500 e, [])
                 | None => (ReplyHeader StatusNoContent,
                            [LogDeleteUser username (Username user)])
                 end)
        else (Returned (ReplyError "method not allowed" StatusMethodNotAllowed, []), cm)
    end.

(** [withAuth], up to the call of the handler: the answer 401 it writes, or
    the user it passes to the handler.  [cookie] is the value of the
    "session" cookie, if the request has one. *)
Definition withAuth (cookie : option string) (now : Z) (sm : gmap string Session)
  (cm : ConfigManager) : Call (Reply + User) :=
  match cookie with
  | None => Returned (inl (ReplyError "unauthenticated" StatusUnauthorized))
  | Some value =>
      match sm_Get value now sm with
      | None => Returned (inl (ReplyError "session expired" StatusUnauthorized))
      | Some sess =>
          Call_map (fun found : User * Z =>
                      if String.eqb (Username (fst found)) "" then
                        inl (ReplyError "unknown user" StatusUnauthorized)
                      else inr (fst found))
                   (cm_FindUser (sess_Username sess) cm)
      end
  end.

(** [handleLogout]: the answer, the log record and the sessions left. *)
Definition handleLogout (method : string) (cookie : option string)
  (sm : gmap string Session) : Reply * list AdminLog * gmap string Session :=
  if negb (String.eqb method "POST") then
    (ReplyError "method not allowed" StatusMethodNotAllowed, [], sm)
  else
    let sm' := match cookie with
               | Some value => snd (sm_Delete value sm)
               | None => sm
               end in
    (ReplyHeader StatusNoContent, [LogLogout], sm').

(** The time that [handleLogin] gives a session: [24*time.Hour]. *)
Definition day : Z := 24 * 3600 * 1000000000.

Section Accounts.

(** auth.go: [checkPasswordHash password hash] is [true] when
    [bcrypt.CompareHashAndPassword] returns nil. *)
Variable checkPasswordHash : string -> string -> bool.

(** [Authenticate]: [None] is the error "invalid credentials". *)
Definition cm_Authenticate (username password : string) (cm : ConfigManager)
  : Call (option User) :=
  Call_map (fun found : User * Z =>
              let user := fst found in
              if String.eqb (Username user) "" then None
              else if negb (checkPasswordHash password (PasswordHash user)) then None
              else Some user)
           (cm_FindUser username cm).

(** [handleLogin]: the answer, the value of the session cookie it sets, the
    log record, and the sessions. *)
Definition handleLogin (method : string) (body : option (string * string))
  (rand : option string) (now : Z) (sm : gmap string Session) (cm : ConfigManager)
  : Call (Reply * option string * list AdminLog) * gmap string Session :=
  if negb (String.eqb method "POST") then
    (Returned (ReplyError "method not allowed" StatusMethodNotAllowed, None, []), sm)
  else
    match body with
    | None => (Returned (ReplyError "invalid JSON" StatusBadRequest, None, []), sm)
    | Some (username, password) =>
        match cm_Authenticate username password cm with
        | Blocked => (Blocked, sm)
        | Panicked => (Panicked, sm)
        | Returned None =>
            (Returned (ReplyError "invalid credentials" StatusUnauthorized, None, []), sm)
        | Returned (Some user) =>
            match sm_Create rand (Username user) day now sm with
            | (None, sm') =>
                (Returned (ReplyError "failed to create session"
                             StatusInternalServerError, None, []), sm')
            | (Some (sessID, _), sm') =>
                (Returned (ReplyJson StatusOK BodyStatusOk, Some sessID,
                           [LogLogin (Username user)]), sm')
            end
        end
    end.

End Accounts.

(** ** logger.go and [handleLogs] *)

Definition newline : ascii := ascii_of_N 10.

(** [strings.Split(s, "\n")] *)
Fixpoint splitLines (s : string) : list string :=
  match s with
  | EmptyString => [EmptyString]
  | String c r =>
      if Ascii.eqb c newline then EmptyString :: splitLines r
      else match splitLines r with
           | first :: others => String c first :: others
           | [] => [String c EmptyString]
           end
  end.

(** [EventLogger.Log]: the line appended to the file; [ts] is the time
    stamp, [msg] the formatted message. *)
Definition Log_append (ts msg : string) (file : string) : string :=
  file +:+ ts +:+ " - " +:+ msg +:+ String newline EmptyString.

(** The last lines of the file, as [handleLogs] cuts them out. *)
Definition lastLines (limit : Z) (data : string) : list string :=
  let allLines := splitLines data in
  let allLines :=
    if (0 <? length allLines)%nat && String.eqb (List.last allLines "x") "" then
      firstn (length allLines - 1) allLines
    else allLines in
  let start := if (Z.of_nat (length allLines) >? limit)%Z
               then (Z.of_nat (length allLines) - limit)%Z else 0%Z in
  skipn (Z.to_nat start) allLines.

(** [handleLogs]: [lines] is the value of the "lines" parameter when it is
    present and [strconv.Atoi] accepts it; [file] is what [os.ReadFile]
    returns, [None] for an error. *)
Definition handleLogs (user : User) (lines : option Z) (file : option string)
  (cm : ConfigManager) : Call Reply :=
  if negb (Admin user) then Returned (ReplyError "forbidden" StatusForbidden)
  else
    let limit := match lines with
                 | Some n => if (n >? 0)%Z then n else 200%Z
                 | None => 200%Z
                 end in
    Call_map (fun _ =>
                match file with
                | None => ReplyError "log not found" StatusNotFound
                | Some data => ReplyJson StatusOK (BodyLines (lastLines limit data))
                end)
             (cm_Get cm).

(** ** Notions that the statements below use *)

Section FoldDistinct.
Context {G : strings.Lib}.

(** Names that are pairwise different, also when letter case is ignored. *)
Fixpoint foldDistinct (names : list string) : Prop :=
  match names with
  | [] => True
  | n :: rest => (forall m, In m rest -> strings.EqualFold n m = false) /\ foldDistinct rest
  end.

End FoldDistinct.

(** The line that [Log] writes, without the line feed that ends it. *)
Definition logLine (entry : string * string) : string :=
  fst entry +:+ " - " +:+ snd entry.

(** The log file after one call of [Log] per entry (time stamp, message),
    starting with no file. *)
Definition logFile (entries : list (string * string)) : string :=
  fold_left (fun file entry => Log_append (fst entry) (snd entry) file) entries "".

(** Whether a text holds a line feed. *)
Fixpoint hasNewline (s : string) : bool :=
  match s with
  | EmptyString => false
  | String c r => Ascii.eqb c newline || hasNewline r
  end.

(** A file made of complete lines. *)
Definition unlines (ls : list string) : string :=
  fold_right (fun l file => l +:+ String newline file) "" ls.

(** Whether a name starts, or ends, with a white-space character. *)
Definition headSpace (s : string) : bool :=
  match s with
  | EmptyString => false
  | String c _ => strings.isSpace c
  end.

Fixpoint lastSpace (s : string) : bool :=
  match s with
  | EmptyString => false
  | String c EmptyString => strings.isSpace c
  | String _ r => lastSpace r
  end.

(** ** More of the household, for the worked examples *)

Definition guest : User :=
  {| Username := "guest"; PasswordHash := "hash:guest"; Admin := false |}.

(** The configuration manager of the house, its lock free. *)
Definition houseManager : ConfigManager := mkCM (mkStored house [admin; guest]) false.

(** A zone as a client posts it, without an ID. *)
Definition shed : Zone :=
  {| ID := 0; Name := "Shed"; Type_ := "contact"; Pin := 5; Enabled := true; Mode := "NC" |}.

(** A stand-in for bcrypt: the hash of a password is the password after
    "hash:". *)
Definition plain_checkPasswordHash (password hash : string) : bool :=
  String.eqb hash ("hash:" +:+ password).

Section MoreHouseholdStates.
Context {G : strings.Lib}.

(** Armed in "Away", the garage latched. *)
Definition awayGarageLatched {World : Type} (w : World) : State World :=
  mkState house "Away" {[ 3%Z := true ]} 0%Z (initAlertHandlers house) w.

End MoreHouseholdStates.

(** * Properties *)

Section Properties.
Context {World : Type}.
Context {G : strings.Lib}.
Variable readPin : Z -> World -> bool * World.
Variable SendMail :
  string -> string -> string -> string -> string -> string -> string ->
  World -> option string * World.

Local Abbreviation run := (run readPin SendMail).
Local Abbreviation do_action := (do_action readPin SendMail).


Lemma run_bind {A B : Type} (p : Prog A) (f : A -> Prog B) (s : State World) :
  run (bind p f) s =
    let '(a, s1, t1) := run p s in
    let '(b, s2, t2) := run (f a) s1 in
    (b, s2, t1 ++ t2).
Proof.
  revert s. induction p as [a | C act k IH]; intros s; simpl.
  - destruct (run (f a) s) as [[b s2] t2]. reflexivity.
  - destruct (do_action act s) as [[c s1] t1].
    rewrite IH.
    destruct (run (k c) s1) as [[a s2] t2].
    destruct (run (f a) s2) as [[b s3] t3].
    rewrite app_assoc. reflexivity.
Qed.

Lemma run_zoneTriggered (z : Zone) (s : State World) :
  run (zoneTriggered z) s =
    let '(level, w) := readPin (Pin z) (world s) in
    (spec_activated level (wiringMode (Mode z)), set_world w s, [EvReadPin (Pin z) level]).
Proof.
  unfold zoneTriggered, wiringMode. simpl.
  destruct (readPin (Pin z) (world s)) as [level w].
  destruct (String.eqb (strings.ToUpper (Mode z)) "NC"); [reflexivity|].
  destruct (String.eqb (strings.ToUpper (Mode z)) "NO"); [reflexivity|].
  destruct (String.eqb (strings.ToUpper (Mode z)) "EOL"); reflexivity.
Qed.

Lemma set_world_id (s : State World) : set_world (world s) s = s.
Proof. destruct s; reflexivity. Qed.

Lemma findZone_find (zones : list Zone) (id : Z) :
  findZone zones id = List.find (fun z => (ID z =? id)%Z) zones.
Proof.
  induction zones as [|z rest IH]; simpl; [reflexivity|].
  destruct (ID z =? id)%Z; [reflexivity | exact IH].
Qed.

Lemma findZone_Some (zones : list Zone) (id : Z) (z : Zone) :
  findZone zones id = Some z -> ID z = id /\ In z zones.
Proof.
  induction zones as [|z0 rest IH]; simpl; [discriminate|].
  destruct (ID z0 =? id)%Z eqn:E.
  - intros [= <-]. split; [lia | left; reflexivity].
  - intros H. destruct (IH H) as [H1 H2]. split; [exact H1 | right; exact H2].
Qed.

Lemma armActiveZones_find (ams : list ArmMode) (mode : string) :
  armActiveZones ams mode =
    match List.find (fun am => strings.EqualFold (am_Name am) mode) ams with
    | Some am => ActiveZones am
    | None => None
    end.
Proof.
  induction ams as [|am rest IH]; simpl; [reflexivity|].
  destruct (strings.EqualFold (am_Name am) mode); [reflexivity | exact IH].
Qed.

Lemma run_pollActiveIDs (ams : list ArmMode) (s : State World) :
  run (pollActiveIDs ams) s = (armActiveZones ams (currentMode s), s, []).
Proof.
  induction ams as [|am rest IH]; simpl; [reflexivity|].
  destruct (strings.EqualFold (am_Name am) (currentMode s)); simpl; [reflexivity|].
  rewrite IH. reflexivity.
Qed.

Lemma run_forRange_alerts (zone : Zone) (hs : list AlertHandler) (s : State World) :
  run (forRange hs (fun h =>
         err <- AlertHandler_Send h zone ;;
         match err with
         | Some e => perform (LoggerLog (LogAlertError (AlertHandler_Name h) e))
         | None => Ret tt
         end)) s =
    let '(w, t) := spec_dispatch readPin SendMail hs zone (world s) in
    (tt, set_world w s, t).
Proof.
  revert s. induction hs as [|h rest IH]; intros s.
  - simpl. rewrite set_world_id. reflexivity.
  - cbn [forRange spec_dispatch]. rewrite run_bind.
    destruct h as [|server port user pw from to subj].
    + simpl. rewrite IH. simpl.
      destruct (spec_dispatch readPin SendMail rest zone (world s)) as [w2 t2].
      reflexivity.
    + unfold spec_send. simpl.
      destruct (SendMail _ _ _ _ _ _ _ (world s)) as [res w1].
      destruct res as [e|]; simpl; rewrite IH; simpl;
      destruct (spec_dispatch readPin SendMail rest zone w1) as [w2 t2];
      reflexivity.
Qed.

Lemma run_rangeAlerts (zone : Zone) (s : State World) :
  run (rangeAlerts zone) s =
    let '(w, t) := spec_dispatch readPin SendMail (alerts s) zone (world s) in
    (tt, set_world w s, t).
Proof.
  unfold rangeAlerts. rewrite run_bind.
  cbn [run perform do_action app].
  rewrite run_forRange_alerts.
  destruct (spec_dispatch readPin SendMail (alerts s) zone (world s)) as [w t].
  reflexivity.
Qed.

Opaque zoneTriggered rangeAlerts.

Lemma run_pollZone (id : Z) (s : State World) :
  run (pollZone (cfgMgr s) id) s =
    let '(s', t) := spec_poll_zone readPin (SendMail) (negb (testMode s =? 0)%Z) id s in
    (tt, s', t).
Proof.
  unfold pollZone, spec_poll_zone. rewrite <- findZone_find.
  destruct (findZone (Zones (cfgMgr s)) id) as [zone|]; [|reflexivity].
  destruct (Enabled zone); simpl; [|reflexivity].
  rewrite run_bind, run_zoneTriggered.
  destruct (readPin (Pin zone) (world s)) as [level w].
  destruct (spec_activated level (wiringMode (Mode zone))); simpl; [|reflexivity].
  unfold latched.
  destruct (default false (triggered s !! ID zone)); simpl; [reflexivity|].
  destruct (testMode s =? 0)%Z; simpl; [|reflexivity].
  rewrite run_rangeAlerts. simpl.
  destruct (spec_dispatch readPin SendMail (alerts s) zone w) as [w' t].
  reflexivity.
Qed.

Lemma same_setup_refl (s : State World) : same_setup s s.
Proof. repeat split. Qed.

Lemma same_setup_trans (s1 s2 s3 : State World) :
  same_setup s1 s2 -> same_setup s2 s3 -> same_setup s1 s3.
Proof.
  unfold same_setup. intros (?&?&?&?) (?&?&?&?).
  repeat split; congruence.
Qed.

Lemma spec_poll_zone_setup quiet id s :
  same_setup s (fst (spec_poll_zone readPin SendMail quiet id s)).
Proof.
  unfold spec_poll_zone.
  destruct (List.find _ _) as [zone|]; [|apply same_setup_refl].
  destruct (Enabled zone); cbn [negb]; [|apply same_setup_refl].
  destruct (readPin (Pin zone) (world s)) as [level w].
  destruct (_ && _).
  - destruct (if quiet then _ else _) as [w' t]. repeat split.
  - repeat split.
Qed.

Lemma spec_poll_zones_setup quiet ids s :
  same_setup s (fst (spec_poll_zones readPin SendMail quiet ids s)).
Proof.
  revert s. induction ids as [|id rest IH]; intros s; cbn [spec_poll_zones].
  - apply same_setup_refl.
  - pose proof (spec_poll_zone_setup quiet id s) as H1.
    destruct (spec_poll_zone readPin SendMail quiet id s) as [s1 t1].
    pose proof (IH s1) as H2.
    destruct (spec_poll_zones readPin SendMail quiet rest s1) as [s2 t2].
    eapply same_setup_trans; eassumption.
Qed.

Lemma run_forRange_pollZone (ids : list Z) (s : State World) :
  run (forRange ids (pollZone (cfgMgr s))) s =
    let '(s', t) := spec_poll_zones readPin SendMail (negb (testMode s =? 0)%Z) ids s in
    (tt, s', t).
Proof.
  revert s. induction ids as [|id rest IH]; intros s; [reflexivity|].
  cbn [forRange spec_poll_zones]. rewrite run_bind, run_pollZone.
  pose proof (spec_poll_zone_setup (negb (testMode s =? 0)%Z) id s) as (Hc & _ & Ht & _).
  destruct (spec_poll_zone readPin SendMail _ id s) as [s1 t1].
  cbn [fst] in Hc, Ht. rewrite <- Hc, <- Ht, IH.
  destruct (spec_poll_zones readPin SendMail _ rest s1) as [s2 t2].
  reflexivity.
Qed.

Opaque pollZone pollActiveIDs.

Lemma run_pollSensors_tick (s : State World) :
  run pollSensors_tick s =
    if String.eqb (currentMode s) "Disarmed" || (testMode s =? 1)%Z then (tt, s, [])
    else
      let ids := if (testMode s =? 2)%Z then map ID (Zones (cfgMgr s))
                 else default [] (armActiveZones (ArmModes (cfgMgr s)) (currentMode s)) in
      let '(s', t) := spec_poll_zones readPin SendMail (negb (testMode s =? 0)%Z) ids s in
      (tt, s', t).
Proof.
  unfold pollSensors_tick. cbn [bind perform run do_action app].
  destruct (String.eqb (currentMode s) "Disarmed"); cbn [orb bind].
  - reflexivity.
  - cbn [run do_action app bind].
    destruct (testMode s =? 1)%Z; [reflexivity|].
    cbn [run do_action app bind].
    destruct (testMode s =? 2)%Z.
    + cbn [bind]. rewrite run_forRange_pollZone.
      destruct (spec_poll_zones _ _ _ _ _) as [s' t]. reflexivity.
    + rewrite run_bind, run_pollActiveIDs, run_forRange_pollZone.
      destruct (spec_poll_zones _ _ _ _ _) as [s' t]. reflexivity.
Qed.

Lemma run_handleTestTrigger method body user (s : State World) :
  run (handleTestTrigger method body user) s =
    if negb (String.eqb method "POST") then
      (HttpError "method not allowed" StatusMethodNotAllowed, s, [])
    else if negb (testMode s =? 1)%Z then (NotInTestSoftMode, s, [])
    else
      match body with
      | None => (HttpError "invalid JSON" StatusBadRequest, s, [])
      | Some zoneID =>
          match findZone (Zones (cfgMgr s)) zoneID with
          | None => (UnknownZone, s, [])
          | Some zone =>
              if latched s (ID zone) then (Success, s, [])
              else
                let '(w, t) := spec_dispatch readPin SendMail (alerts s) zone (world s) in
                (Success,
                 set_world w (set_triggered (<[ID zone := true]> (triggered s)) s),
                 EvLog (LogTestTrigger (ID zone) (Name zone) (Username user)) :: t)
          end
      end.
Proof.
  unfold handleTestTrigger.
  destruct (negb (String.eqb method "POST")); [reflexivity|].
  cbn [bind perform run do_action app].
  destruct (negb (testMode s =? 1)%Z); [reflexivity|].
  destruct body as [zoneID|]; [|reflexivity].
  cbn [bind perform run do_action app].
  destruct (findZone (Zones (cfgMgr s)) zoneID) as [zone|]; [|reflexivity].
  cbn [bind perform run do_action app]. unfold latched.
  destruct (default false (triggered s !! ID zone)); cbn [negb bind perform].
  - reflexivity.
  - cbn [run do_action app]. rewrite run_bind, run_rangeAlerts. cbn [world set_triggered].
    destruct (spec_dispatch _ _ _ _ _) as [w t].
    cbn [run app]. rewrite app_nil_r. reflexivity.
Qed.

Lemma run_handleDisarm user (s : State World) :
  run (handleDisarm "POST" user) s =
    (Success,
     set_triggered ∅ (set_testMode 0 (set_currentMode "Disarmed" s)),
     [EvPrint "System disarmed"; EvLog (LogDisarm (Username user))]).
Proof. reflexivity. Qed.

Lemma run_handleArm reqMode user (s : State World) :
  run (handleArm "POST" (Some reqMode) user) s =
    let mode := strings.TrimSpace reqMode in
    if isTestSoftName (strings.ToLower mode) then
      (Success, set_triggered ∅ (set_testMode 1 (set_currentMode "TestSoft" s)),
       [EvLog (LogArm "TestSoft" (Username user))])
    else if isTestWiringName (strings.ToLower mode) then
      (Success, set_triggered ∅ (set_testMode 2 (set_currentMode "TestWiring" s)),
       [EvLog (LogArm "TestWiring" (Username user))])
    else
      match armActiveZones (ArmModes (cfgMgr s)) mode with
      | None => (UnknownProfile, s, [])
      | Some zs =>
          (Success, set_triggered ∅ (set_testMode 0 (set_currentMode mode s)),
           [EvPrint ("System armed in " +:+ mode +:+ " mode (active zones: "
                     +:+ fmtSlice (Some zs) +:+ ")");
            EvLog (LogArm mode (Username user))])
      end.
Proof.
  unfold handleArm, isTestSoftName, isTestWiringName.
  cbn [negb String.eqb Ascii.eqb Bool.eqb bind perform run do_action app].
  destruct (_ || _); [reflexivity|].
  destruct (_ || _); [reflexivity|].
  destruct (armActiveZones _ _) as [zs|]; reflexivity.
Qed.

Lemma run_statusZones (zones : list Zone) (s : State World) :
  run (statusZones zones) s =
    (map (fun z => {| zi_ID := ID z; zi_Name := Name z; zi_Type := Type_ z;
                      zi_Pin := Pin z; zi_Enabled := Enabled z;
                      zi_Active := latched s (ID z) |}) zones, s, []).
Proof.
  induction zones as [|z rest IH]; [reflexivity|].
  cbn [statusZones bind perform run do_action app].
  rewrite run_bind, IH. reflexivity.
Qed.

Lemma run_handleStatus user (s : State World) :
  run (handleStatus user) s =
    (Json {| st_Mode := currentMode s;
             st_Triggered := map fst (filter (fun e => snd e = true)
                                        (map_to_list (triggered s)));
             st_Zones := map (fun z => {| zi_ID := ID z; zi_Name := Name z;
                                          zi_Type := Type_ z; zi_Pin := Pin z;
                                          zi_Enabled := Enabled z;
                                          zi_Active := latched s (ID z) |})
                             (Zones (cfgMgr s)) |}, s, []).
Proof.
  unfold handleStatus. cbn [bind perform run do_action app].
  rewrite run_bind, run_statusZones. reflexivity.
Qed.

Lemma sends_app t1 t2 : sends (t1 ++ t2) = sends t1 ++ sends t2.
Proof. apply omap_app. Qed.
Lemma latches_app t1 t2 : latches (t1 ++ t2) = latches t1 ++ latches t2.
Proof. apply omap_app. Qed.
Lemma pinsRead_app t1 t2 : pinsRead (t1 ++ t2) = pinsRead t1 ++ pinsRead t2.
Proof. apply omap_app. Qed.
Lemma failures_app t1 t2 : failures (t1 ++ t2) = failures t1 ++ failures t2.
Proof. apply omap_app. Qed.
Lemma smtpFailures_app t1 t2 : smtpFailures (t1 ++ t2) = smtpFailures t1 ++ smtpFailures t2.
Proof. apply omap_app. Qed.

Lemma spec_send_trace h zone w :
  let t := snd (spec_send readPin SendMail h zone w) in
  sends t = [(h, zone)] /\ latches t = [] /\ pinsRead t = [] /\
  failures t = smtpFailures t.
Proof.
  unfold spec_send. destruct h as [|server port user pw from to subj]; cbn.
  - repeat split.
  - destruct (SendMail _ _ _ _ _ _ _ w) as [[e|] w1]; cbn; repeat split.
Qed.

Lemma spec_dispatch_trace hs zone w :
  let t := snd (spec_dispatch readPin SendMail hs zone w) in
  sends t = map (fun h => (h, zone)) hs /\ latches t = [] /\ pinsRead t = [] /\
  failures t = smtpFailures t.
Proof.
  revert w. induction hs as [|h rest IH]; intros w; cbn [spec_dispatch].
  - repeat split.
  - pose proof (spec_send_trace h zone w) as (H1 & H2 & H3 & H4).
    destruct (spec_send readPin SendMail h zone w) as [w1 t1].
    pose proof (IH w1) as (I1 & I2 & I3 & I4).
    destruct (spec_dispatch readPin SendMail rest zone w1) as [w2 t2].
    cbn [snd] in *.
    rewrite sends_app, latches_app, pinsRead_app, failures_app, smtpFailures_app.
    rewrite H1, H2, H3, H4, I1, I2, I3, I4. repeat split.
Qed.

Lemma findZone_ID zones id zone :
  findZone zones id = Some zone -> findZone zones (ID zone) = Some zone.
Proof.
  intros H. destruct (findZone_Some _ _ _ H) as [-> _]. exact H.
Qed.

Lemma spec_poll_zone_outcome quiet id s :
  let '(s', t) := spec_poll_zone readPin SendMail quiet id s in
  Outcome quiet s t s'.
Proof.
  pose proof (spec_poll_zone_setup quiet id s) as Hsetup.
  unfold spec_poll_zone in *. rewrite <- findZone_find in *.
  destruct (findZone (Zones (cfgMgr s)) id) as [zone|] eqn:Hfind;
    [|apply Idle; auto using same_setup_refl].
  destruct (Enabled zone); cbn [negb] in *; [|apply Idle; auto using same_setup_refl].
  destruct (readPin (Pin zone) (world s)) as [level w].
  destruct (spec_activated level (wiringMode (Mode zone))); cbn [andb] in *.
  - destruct (latched s (ID zone)) eqn:Hl; cbn [negb] in *.
    + apply Idle; auto.
    + destruct quiet.
      * apply (Fresh _ _ _ _ zone); auto. eapply findZone_ID; eauto.
      * pose proof (spec_dispatch_trace (alerts s) zone w) as (H1 & H2 & H3 & H4).
        destruct (spec_dispatch readPin SendMail (alerts s) zone w) as [w' t].
        cbn [snd fst] in *.
        apply (Fresh _ _ _ _ zone); auto.
        all: try (eapply findZone_ID; eassumption).
        all: try (rewrite latches_app, H2; reflexivity).
        all: try (rewrite sends_app, H1; reflexivity).
        all: try (rewrite failures_app, smtpFailures_app, H4; reflexivity).
  - apply Idle; auto.
Qed.

Lemma handleTestTrigger_outcome method body user s :
  let '(_, s', t) := run (handleTestTrigger method body user) s in
  Outcome false s t s'.
Proof.
  rewrite run_handleTestTrigger.
  destruct (negb _); [apply Idle; auto using same_setup_refl|].
  destruct (negb _); [apply Idle; auto using same_setup_refl|].
  destruct body as [zoneID|]; [|apply Idle; auto using same_setup_refl].
  destruct (findZone _ _) as [zone|] eqn:Hfind; [|apply Idle; auto using same_setup_refl].
  destruct (latched s (ID zone)) eqn:Hl; [apply Idle; auto using same_setup_refl|].
  pose proof (spec_dispatch_trace (alerts s) zone (world s)) as (H1 & H2 & H3 & H4).
  destruct (spec_dispatch readPin SendMail (alerts s) zone (world s)) as [w t].
  cbn [snd] in *.
  apply (Fresh _ _ _ _ zone); auto.
  all: try (eapply findZone_ID; eassumption).
  all: try (repeat split; fail).
  all: try (change (latches (EvLog (LogTestTrigger (ID zone) (Name zone) (Username user)) :: t))
      with (ID zone :: latches t); rewrite H2; reflexivity).
Qed.

Lemma latchCount_app id t1 t2 :
  latchCount id (t1 ++ t2) = (latchCount id t1 + latchCount id t2)%nat.
Proof. unfold latchCount. rewrite latches_app, filter_app, length_app. reflexivity. Qed.

Lemma sendCount_app id t1 t2 :
  sendCount id (t1 ++ t2) = (sendCount id t1 + sendCount id t2)%nat.
Proof. unfold sendCount. rewrite sends_app, filter_app, length_app. reflexivity. Qed.

Lemma edge_step_refl id (s : State World) : edge_step id s [] s.
Proof. unfold edge_step, latchCount, sendCount. cbn. repeat split; auto; lia. Qed.

Lemma edge_step_app id (s : State World) t1 s1 t2 s2 :
  edge_step id s t1 s1 -> edge_step id s1 t2 s2 -> edge_step id s (t1 ++ t2) s2.
Proof.
  unfold edge_step. intros (Ha & H1 & H2 & H3 & H4) (Ha' & H1' & H2' & H3' & H4').
  rewrite latchCount_app, sendCount_app, Ha in *.
  split; [congruence|].
  split.
  { intros Hl. destruct (H1 Hl) as (Hl1 & -> & ->).
    destruct (H1' Hl1) as (Hl2 & -> & ->). auto. }
  destruct (Nat.eq_dec (latchCount id t1 + sendCount id t1) 0) as [Hz|Hnz].
  - repeat split; try lia.
    intros Hpos. apply H4'. lia.
  - assert (Hl1 : latched s1 id = true) by (apply H4; lia).
    destruct (H1' Hl1) as (Hl2 & -> & ->).
    repeat split; try lia. auto.
Qed.

Lemma sendCount_channels id zone (hs : list AlertHandler) t :
  sends t = map (fun h => (h, zone)) hs ->
  sendCount id t = if decide (ID zone = id) then length hs else 0%nat.
Proof.
  unfold sendCount. intros ->.
  induction hs as [|h rest IH]; cbn [map].
  - destruct (decide _); reflexivity.
  - rewrite filter_cons. cbn [snd].
    destruct (decide (ID zone = id)); cbn [length]; rewrite IH; reflexivity.
Qed.

Lemma latched_insert_eq (s s' : State World) id :
  triggered s' = <[id := true]> (triggered s) -> latched s' id = true.
Proof. unfold latched. intros ->. rewrite lookup_insert_eq. reflexivity. Qed.

Lemma latched_insert_ne (s s' : State World) id id' :
  id' <> id ->
  triggered s' = <[id' := true]> (triggered s) -> latched s' id = latched s id.
Proof. unfold latched. intros Hne ->. rewrite lookup_insert_ne by exact Hne. reflexivity. Qed.

Lemma Outcome_edge_step quiet id (s : State World) t s' :
  Outcome quiet s t s' -> edge_step id s t s'.
Proof.
  intros [Hs Ht Hl Hsd _ | zone Hs Hf Hun Ht Hl Hsd _];
    destruct Hs as (_ & _ & _ & Ha); unfold edge_step.
  - unfold latchCount, sendCount, latched. rewrite Hl, Hsd, Ht. cbn.
    repeat split; auto; lia.
  - assert (Hsc : sendCount id t =
                  if quiet then 0%nat
                  else if decide (ID zone = id) then length (alerts s) else 0%nat).
    { destruct quiet.
      - unfold sendCount. rewrite Hsd. reflexivity.
      - apply sendCount_channels. exact Hsd. }
    unfold latchCount. rewrite Hl, Hsc, filter_cons, filter_nil.
    destruct (decide (ID zone = id)) as [Heq|Hne].
    + subst id. pose proof (latched_insert_eq _ _ _ Ht) as Hl'.
      cbn [length]. split; [exact Ha|].
      split; [intros Hl0; rewrite Hun in Hl0; discriminate|].
      destruct quiet; repeat split; auto; lia.
    + pose proof (latched_insert_ne _ _ id _ Hne Ht) as Hl'.
      cbn [length]. rewrite Hl'. split; [exact Ha|].
      destruct quiet; repeat split; auto; lia.
Qed.

Lemma spec_poll_zones_edge_step quiet id ids s :
  let '(s', t) := spec_poll_zones readPin SendMail quiet ids s in
  edge_step id s t s'.
Proof.
  revert s. induction ids as [|i rest IH]; intros s; cbn [spec_poll_zones].
  - apply edge_step_refl.
  - pose proof (spec_poll_zone_outcome quiet i s) as H1.
    destruct (spec_poll_zone readPin SendMail quiet i s) as [s1 t1].
    pose proof (IH s1) as H2.
    destruct (spec_poll_zones readPin SendMail quiet rest s1) as [s2 t2].
    eapply edge_step_app; [eapply Outcome_edge_step; exact H1 | exact H2].
Qed.

Lemma run_op_edge_step id o s :
  let '(s', t) := run_op readPin SendMail o s in edge_step id s t s'.
Proof.
  destruct o as [|method body user|user|cfg]; cbn [run_op].
  - rewrite run_pollSensors_tick.
    destruct (_ || _); [apply edge_step_refl|].
    cbv zeta.
    match goal with |- context [spec_poll_zones _ _ ?q ?ids s] =>
      pose proof (spec_poll_zones_edge_step q id ids s) as H;
      destruct (spec_poll_zones readPin SendMail q ids s) as [s' t] end.
    exact H.
  - pose proof (handleTestTrigger_outcome method body user s) as H.
    destruct (run (handleTestTrigger method body user) s) as [[r s'] t].
    eapply Outcome_edge_step; exact H.
  - rewrite run_handleStatus. apply edge_step_refl.
  - unfold edge_step, latchCount, sendCount. cbn. repeat split; auto; lia.
Qed.

Lemma run_ops_edge_step id ops s :
  let '(s', t) := run_ops readPin SendMail ops s in edge_step id s t s'.
Proof.
  revert s. induction ops as [|o rest IH]; intros s; cbn [run_ops].
  - apply edge_step_refl.
  - pose proof (run_op_edge_step id o s) as H1.
    destruct (run_op readPin SendMail o s) as [s1 t1].
    pose proof (IH s1) as H2.
    destruct (run_ops readPin SendMail rest s1) as [s2 t2].
    eapply edge_step_app; eassumption.
Qed.

Lemma channelsFor_setup (s s' : State World) :
  same_setup s s' -> channelsFor s' = channelsFor s.
Proof.
  intros (Hc & _ & _ & Ha). unfold channelsFor. rewrite Hc, Ha. reflexivity.
Qed.

Lemma dispatch_step_refl quiet (s : State World) : dispatch_step quiet s [] s.
Proof.
  unfold dispatch_step. destruct quiet; repeat split; auto; intros id [].
Qed.

Lemma dispatch_step_app quiet (s : State World) t1 s1 t2 s2 :
  dispatch_step quiet s t1 s1 -> dispatch_step quiet s1 t2 s2 ->
  dispatch_step quiet s (t1 ++ t2) s2.
Proof.
  intros (Hs & Hd & Hm & Hl & Hf) (Hs' & Hd' & Hm' & Hl' & Hf').
  unfold dispatch_step.
  rewrite sends_app, latches_app, failures_app, smtpFailures_app, Hd, Hd', Hf, Hf'.
  rewrite (channelsFor_setup _ _ Hs).
  split; [eapply same_setup_trans; eassumption|].
  split; [destruct quiet; [reflexivity | rewrite flat_map_app; reflexivity]|].
  split; [auto|].
  split; [|reflexivity].
  intros id Hin. apply in_app_or in Hin. destruct Hin as [Hin|Hin]; auto.
Qed.

Lemma Outcome_dispatch_step quiet (s : State World) t s' :
  Outcome quiet s t s' -> dispatch_step quiet s t s'.
Proof.
  intros [Hs Ht Hl Hsd Hf | zone Hs Hfz Hun Ht Hl Hsd Hf]; unfold dispatch_step.
  - rewrite Hl, Hsd. unfold latched. rewrite Ht.
    destruct quiet; repeat split; auto; try apply Hs; intros id [].
  - rewrite Hl, Hsd. cbn [flat_map]. unfold channelsFor. rewrite Hfz, app_nil_r.
    repeat split; auto; try apply Hs.
    + intros id Hid. destruct (decide (ID zone = id)) as [<-|Hne].
      * eapply latched_insert_eq; eassumption.
      * rewrite (latched_insert_ne _ _ id _ Hne Ht). exact Hid.
    + intros id [<-|[]]. eapply latched_insert_eq; eassumption.
Qed.

Lemma spec_poll_zones_dispatch_step quiet ids s :
  let '(s', t) := spec_poll_zones readPin SendMail quiet ids s in
  dispatch_step quiet s t s'.
Proof.
  revert s. induction ids as [|i rest IH]; intros s; cbn [spec_poll_zones].
  - apply dispatch_step_refl.
  - pose proof (spec_poll_zone_outcome quiet i s) as H1.
    destruct (spec_poll_zone readPin SendMail quiet i s) as [s1 t1].
    pose proof (IH s1) as H2.
    destruct (spec_poll_zones readPin SendMail quiet rest s1) as [s2 t2].
    eapply dispatch_step_app; [eapply Outcome_dispatch_step; exact H1 | exact H2].
Qed.

Lemma pollSensors_tick_dispatch_step s :
  let '(_, s', t) := run pollSensors_tick s in
  dispatch_step (negb (testMode s =? 0)%Z) s t s'.
Proof.
  rewrite run_pollSensors_tick.
  destruct (_ || _); [apply dispatch_step_refl|].
  cbv zeta.
  match goal with |- context [spec_poll_zones _ _ ?q ?ids s] =>
    pose proof (spec_poll_zones_dispatch_step q ids s) as H;
    destruct (spec_poll_zones readPin SendMail q ids s) as [s' t] end.
  exact H.
Qed.

Lemma spec_poll_zone_disabled quiet i s :
  let '(s', t) := spec_poll_zone readPin SendMail quiet i s in
  (forall pin, In pin (pinsRead t) -> In pin (enabledPins (cfgMgr s))) /\
  (forall id zone, findZone (Zones (cfgMgr s)) id = Some zone -> Enabled zone = false ->
     triggered s' !! id = triggered s !! id /\ ~ In id (latches t)).
Proof.
  unfold spec_poll_zone. rewrite <- findZone_find.
  destruct (findZone (Zones (cfgMgr s)) i) as [zone|] eqn:Hfind;
    [|split; [intros pin [] | intros; split; [reflexivity | intros []]]].
  destruct (Enabled zone) eqn:Hen; cbn [negb];
    [|split; [intros pin [] | intros; split; [reflexivity | intros []]]].
  destruct (findZone_Some _ _ _ Hfind) as [Hid Hin].
  assert (Hpin : In (Pin zone) (enabledPins (cfgMgr s))).
  { unfold enabledPins. apply in_map. apply list_elem_of_In.
    apply list_elem_of_filter. split; [exact Hen | apply list_elem_of_In; exact Hin]. }
  destruct (readPin (Pin zone) (world s)) as [level w].
  destruct (_ && _).
  - pose proof (spec_dispatch_trace (alerts s) zone w) as (H1 & H2 & H3 & H4).
    assert (Hq : forall wt : World * list Event,
               (wt = (w, []) \/ wt = spec_dispatch readPin SendMail (alerts s) zone w) ->
               pinsRead (snd wt) = [] /\ latches (snd wt) = []).
    { intros wt [->| ->]; [split; reflexivity | split; assumption]. }
    destruct (if quiet then (w, []) else spec_dispatch readPin SendMail (alerts s) zone w)
      as [w' t] eqn:Hd.
    assert (Ht : pinsRead t = [] /\ latches t = []).
    { apply (Hq (w', t)). destruct quiet; [left | right]; congruence. }
    destruct Ht as [Hp Hl].
    split.
    + intros pin. rewrite pinsRead_app, Hp. cbn. intros [<-|[]]. exact Hpin.
    + intros id zone' Hf' Hen'. rewrite latches_app, Hl. cbn.
      assert (Hne : ID zone <> id).
      { intros Heq. subst id. rewrite Hid in Hf'. rewrite <- Hid in Hfind.
        rewrite Hid in Hfind. congruence. }
      split; [apply lookup_insert_ne; exact Hne | intros [H|[]]; congruence].
  - split.
    + cbn. intros pin [<-|[]]. exact Hpin.
    + intros; split; [reflexivity | intros []].
Qed.

Lemma consistent_cases (s : State World) :
  consistent s ->
  (testMode s = 0%Z /\ opState s = (if String.eqb (currentMode s) "Disarmed" then Disarmed else Armed (currentMode s)))
  \/ (testMode s = 1%Z /\ currentMode s = "TestSoft" /\ opState s = TestSoft)
  \/ (testMode s = 2%Z /\ currentMode s = "TestWiring" /\ opState s = TestWiring).
Proof.
  unfold consistent, opState. intros [H|[[H1 H2]|[H1 H2]]].
  - left. rewrite H. auto.
  - right; left. rewrite H1. auto.
  - right; right. rewrite H1. auto.
Qed.

Lemma spec_poll_zones_quiet ids s :
  sends (snd (spec_poll_zones readPin SendMail true ids s)) = [].
Proof.
  pose proof (spec_poll_zones_dispatch_step true ids s) as H.
  destruct (spec_poll_zones readPin SendMail true ids s) as [s' t].
  destruct H as (_ & H & _). exact H.
Qed.

(** What one iteration of [pollSensors] does when it runs alone, with the
    lock of the configuration free, in a state that [NewServer],
    [handleArm] and [handleDisarm] can write, where [opState] reads the
    mode "Disarmed" as Disarmed: in Disarmed and TestSoft nothing is read, latched or logged;
    otherwise the active zone set is every configured zone in TestWiring
    and the zone IDs of the current profile in Armed; IDs without a zone
    and zones that are not enabled are skipped; a zone that the
    interpreter reports and whose latch is unset is latched and logged,
    and the channels are called, except in TestWiring, where no [Send] is
    entered. *)
Theorem pollSensors_tick_follows_spec (s : State World) :
  consistent s ->
  let '(s', t) := spec_poll_tick readPin SendMail s in
  run pollSensors_tick s = (tt, s', t) /\
  (opState s = Disarmed \/ opState s = TestSoft -> s' = s /\ t = []) /\
  (opState s = TestWiring -> sends t = []).
Proof.
  intros Hc. rewrite run_pollSensors_tick. unfold spec_poll_tick, spec_active_zones.
  destruct (consistent_cases s Hc) as [[Ht Ho]|[(Ht & Hm & Ho)|(Ht & Hm & Ho)]];
    rewrite Ho, Ht.
  - destruct (String.eqb (currentMode s) "Disarmed") eqn:Hd; cbn [orb Z.eqb negb].
    + split; [reflexivity|]. split; [auto | discriminate].
    + cbv beta iota zeta. rewrite armActiveZones_find.
      replace (default [] match List.find (fun am => strings.EqualFold (am_Name am) (currentMode s))
                                  (ArmModes (cfgMgr s)) with
                          | Some am => ActiveZones am
                          | None => None
                          end)
        with (match List.find (fun am => strings.EqualFold (am_Name am) (currentMode s))
                      (ArmModes (cfgMgr s)) with
              | Some am => default [] (ActiveZones am)
              | None => []
              end) by (destruct (List.find _ _); reflexivity).
      destruct (spec_poll_zones _ _ _ _ _) as [s' t].
      split; [reflexivity|]. split; [intros [H|H]; discriminate | discriminate].
  - rewrite Hm. cbn. split; [reflexivity|]. split; [auto | discriminate].
  - rewrite Hm. cbn [String.eqb Ascii.eqb Bool.eqb orb Z.eqb negb Pos.eqb].
    pose proof (spec_poll_zones_quiet (map ID (Zones (cfgMgr s))) s) as Hq.
    destruct (spec_poll_zones _ _ _ _ _) as [s' t].
    split; [reflexivity|]. split; [intros [H|H]; discriminate | intros _; exact Hq].
Qed.

(** C8.  [zoneTriggered] reads the pin of the zone once and returns the
    entry of the reference table for the level it read and the wiring
    mode of the zone: NormallyClosed is activated exactly when the level
    is low, NormallyOpen and EndOfLine exactly when it is high, and every
    other mode string, the empty one included, behaves as NormallyOpen.
    Nothing of the engine's state is read or written. *)
Theorem zoneTriggered_reference_table (z : Zone) (s : State World) :
  let '(level, w) := readPin (Pin z) (world s) in
  run (zoneTriggered z) s =
    (spec_activated level (wiringMode (Mode z)), set_world w s, [EvReadPin (Pin z) level]).
Proof. rewrite run_zoneTriggered. destruct (readPin _ _); reflexivity. Qed.

(** C1.  Over every sequence of poll ticks, manual trigger requests,
    status requests and configuration edits (no arm, no disarm), for every
    zone ID: once its latch is set it stays set, no further latch is
    recorded for it and no channel is called for it, whatever the sensors
    return; and in any case its latch is set at most once and each
    channel is called at most once for it. *)
Theorem latch_is_edge_triggered (ops : list Op) (s : State World) (id : Z) :
  let '(s', t) := run_ops readPin SendMail ops s in
  (latched s id = true ->
     latched s' id = true /\ latchCount id t = 0%nat /\ sendCount id t = 0%nat) /\
  (latchCount id t <= 1)%nat /\
  (sendCount id t <= length (alerts s))%nat.
Proof.
  pose proof (run_ops_edge_step id ops s) as H.
  destruct (run_ops readPin SendMail ops s) as [s' t].
  destruct H as (_ & H1 & H2 & H3 & _). auto.
Qed.

Lemma findZone_None (zones : list Zone) (id : Z) :
  findZone zones id = None <-> (forall z, In z zones -> ID z <> id).
Proof.
  induction zones as [|z rest IH]; cbn [findZone].
  - split; [intros _ z [] | reflexivity].
  - destruct (Z.eqb_spec (ID z) id) as [He|Hne].
    + split; [discriminate | intros H; exfalso; apply (H z); [left; reflexivity | exact He]].
    + rewrite IH. split.
      * intros H z' [<-|Hin]; auto.
      * intros H z' Hin. apply H. right. exact Hin.
Qed.

Lemma opState_TestSoft (s : State World) : opState s = TestSoft <-> testMode s = 1%Z.
Proof.
  unfold opState. destruct (Z.eqb_spec (testMode s) 1) as [H|H].
  - tauto.
  - split; [|contradiction].
    destruct (testMode s =? 2)%Z; [discriminate|].
    destruct (String.eqb _ _); discriminate.
Qed.

(** C4.  [triggerManually] fails with NotInTestSoftMode in every state
    other than TestSoft and with UnknownZone in TestSoft when no
    configured zone has the ID, changing nothing in either case; it is a
    silent no-op when the latch of the zone is already set; otherwise it
    sets the latch, records it, and calls every channel of the server, in
    order, for that zone. *)
Theorem triggerManually_contract (s : State World) (zoneID : Z) (user : User) :
  let '(resp, s', t) := run (triggerManually zoneID user) s in
  (opState s <> TestSoft -> resp = NotInTestSoftMode /\ s' = s /\ t = []) /\
  (opState s = TestSoft -> (forall z, In z (Zones (cfgMgr s)) -> ID z <> zoneID) ->
     resp = UnknownZone /\ s' = s /\ t = []) /\
  (forall zone, opState s = TestSoft -> findZone (Zones (cfgMgr s)) zoneID = Some zone ->
     latched s zoneID = true -> resp = Success /\ s' = s /\ t = []) /\
  (forall zone, opState s = TestSoft -> findZone (Zones (cfgMgr s)) zoneID = Some zone ->
     latched s zoneID = false ->
     resp = Success /\ same_setup s s' /\
     triggered s' = <[zoneID := true]> (triggered s) /\
     latches t = [zoneID] /\
     sends t = map (fun h => (h, zone)) (alerts s)).
Proof.
  unfold triggerManually. rewrite run_handleTestTrigger.
  cbn [String.eqb Ascii.eqb Bool.eqb negb].
  pose proof (opState_TestSoft s) as Hso.
  destruct (Z.eqb_spec (testMode s) 1) as [Ht|Ht]; cbn [negb].
  2:{ assert (Hn : opState s <> TestSoft) by tauto.
      repeat split; auto; intros; contradiction. }
  assert (Hy : opState s = TestSoft) by tauto. clear Hso.
  destruct (findZone (Zones (cfgMgr s)) zoneID) as [zone|] eqn:Hf.
  - destruct (findZone_Some _ _ _ Hf) as [Hid Hin].
    rewrite Hid.
    destruct (latched s zoneID) eqn:Hl.
    + split; [intros; contradiction|].
      split; [intros _ H; exfalso; eapply H; eassumption|].
      split; [auto | intros; discriminate].
    + pose proof (spec_dispatch_trace (alerts s) zone (world s)) as (H1 & H2 & _).
      destruct (spec_dispatch readPin SendMail (alerts s) zone (world s)) as [w t].
      cbn [snd] in *.
      split; [intros; contradiction|].
      split; [intros _ H; exfalso; eapply H; eassumption|].
      split; [intros; discriminate|].
      intros zone' _ [= <-] _.
      split; [reflexivity|]. split; [repeat split|]. split; [reflexivity|].
      split; [|exact H1].
      change (latches (EvLog (LogTestTrigger zoneID (Name zone) (Username user)) :: t))
        with (zoneID :: latches t). rewrite H2. reflexivity.
  - split; [intros; contradiction|].
    split; [auto|].
    split; intros; discriminate.
Qed.

(** The transitions, run alone: from every state, [disarm] succeeds, moves
    to Disarmed and leaves the latch set empty; and every [arm] call that
    succeeds, to a profile or to a test mode, leaves the latch set empty. *)
Theorem transitions_clear_latches (s : State World) (user : User) :
  (let '(resp, s', _) := run (disarm user) s in
   resp = Success /\ opState s' = Disarmed /\ triggered s' = ∅) /\
  (forall name : string,
     let '(resp, s', _) := run (arm name user) s in
     resp = Success -> triggered s' = ∅).
Proof.
  split.
  - unfold disarm. rewrite run_handleDisarm. repeat split.
  - intros name. unfold arm. rewrite run_handleArm. cbv zeta.
    destruct (isTestSoftName _); [reflexivity|].
    destruct (isTestWiringName _); [reflexivity|].
    destruct (armActiveZones _ _); [reflexivity | discriminate].
Qed.




Lemma spec_poll_zones_disabled quiet ids s :
  let '(s', t) := spec_poll_zones readPin SendMail quiet ids s in
  (forall pin, In pin (pinsRead t) -> In pin (enabledPins (cfgMgr s))) /\
  (forall id zone, findZone (Zones (cfgMgr s)) id = Some zone -> Enabled zone = false ->
     triggered s' !! id = triggered s !! id /\ ~ In id (latches t)).
Proof.
  revert s. induction ids as [|i rest IH]; intros s; cbn [spec_poll_zones].
  - split; [intros pin [] | intros; split; [reflexivity | intros []]].
  - pose proof (spec_poll_zone_disabled quiet i s) as H1.
    pose proof (spec_poll_zone_setup quiet i s) as (Hc & _).
    destruct (spec_poll_zone readPin SendMail quiet i s) as [s1 t1].
    destruct H1 as [P1 D1].
    pose proof (IH s1) as H2.
    destruct (spec_poll_zones readPin SendMail quiet rest s1) as [s2 t2].
    destruct H2 as [P2 D2].
    cbn [fst] in Hc. rewrite Hc in P2, D2.
    split.
    + intros pin. rewrite pinsRead_app. intros Hin.
      apply in_app_or in Hin. destruct Hin; auto.
    + intros id zone Hf Hen.
      destruct (D1 id zone Hf Hen) as [E1 N1].
      destruct (D2 id zone Hf Hen) as [E2 N2].
      split; [congruence|].
      rewrite latches_app. intros Hin.
      apply in_app_or in Hin. destruct Hin; auto.
Qed.

(** The poll loop reads only pins of enabled zones and never sets or
    records the latch of an ID whose configured zone is not enabled. *)
Lemma pollSensors_tick_ignores_disabled (s : State World) :
  let '(_, s', t) := run pollSensors_tick s in
  (forall pin, In pin (pinsRead t) -> In pin (enabledPins (cfgMgr s))) /\
  (forall id zone, findZone (Zones (cfgMgr s)) id = Some zone -> Enabled zone = false ->
     triggered s' !! id = triggered s !! id /\ ~ In id (latches t)).
Proof.
  rewrite run_pollSensors_tick.
  destruct (_ || _);
    [split; [intros pin [] | intros; split; [reflexivity | intros []]]|].
  cbv zeta.
  match goal with |- context [spec_poll_zones _ _ ?q ?ids s] =>
    pose proof (spec_poll_zones_disabled q ids s) as H;
    destruct (spec_poll_zones readPin SendMail q ids s) as [s' t] end.
  exact H.
Qed.


Lemma armActiveZones_None ams mode :
  (forall am, In am ams -> strings.EqualFold (am_Name am) mode = false) ->
  armActiveZones ams mode = None.
Proof.
  induction ams as [|am rest IH]; intros H; cbn [armActiveZones]; [reflexivity|].
  rewrite (H am) by (left; reflexivity). apply IH. intros am' Hin. apply H. right. exact Hin.
Qed.

(** [arm] with a name that is no test mode: rejected without any change
    when no profile matches the trimmed name; accepted when the first
    matching profile has a zone list. *)
Lemma arm_profile (s : State World) (name : string) (user : User) :
  let mode := strings.TrimSpace name in
  isTestSoftName (strings.ToLower mode) = false ->
  isTestWiringName (strings.ToLower mode) = false ->
  let '(resp, s', t) := run (arm name user) s in
  ((forall am, In am (ArmModes (cfgMgr s)) -> strings.EqualFold (am_Name am) mode = false) ->
     resp = UnknownProfile /\ s' = s /\ t = []) /\
  (forall zs, armActiveZones (ArmModes (cfgMgr s)) mode = Some zs ->
     resp = Success /\ currentMode s' = mode /\ testMode s' = 0%Z /\ triggered s' = ∅ /\
     (mode <> "Disarmed" -> opState s' = Armed mode)) /\
  (resp <> Success -> s' = s /\ t = []).
Proof.
  cbv zeta. intros H1 H2. unfold arm. rewrite run_handleArm. cbv zeta.
  rewrite H1, H2.
  destruct (armActiveZones (ArmModes (cfgMgr s)) (strings.TrimSpace name)) as [zs|] eqn:Ha.
  - split; [intros H; rewrite (armActiveZones_None _ _ H) in Ha; discriminate|].
    split; [|intros H; contradiction].
    intros zs' _. repeat split.
    intros Hne. unfold opState. cbn.
    destruct (String.eqb_spec (strings.TrimSpace name) "Disarmed"); [contradiction | reflexivity].
  - split; [auto|]. split; [intros zs; discriminate | auto].
Qed.
(** *** The pairs [testMode], [currentMode] stay consistent *)

Lemma consistent_NewServer (cfg : Config) (w : World) : consistent (NewServer cfg w).
Proof. left. reflexivity. Qed.

Lemma same_setup_consistent (s s' : State World) :
  same_setup s s' -> consistent s -> consistent s'.
Proof.
  unfold consistent. intros (_ & Hm & Ht & _). rewrite Hm, Ht. auto.
Qed.

Lemma handleArm_consistent method body user (s : State World) :
  consistent s -> consistent (snd (fst (run (handleArm method body user) s))).
Proof.
  intros Hc. destruct (String.eqb_spec method "POST") as [->|Hne].
  - destruct body as [reqMode|]; [|exact Hc].
    rewrite run_handleArm. cbv zeta.
    destruct (isTestSoftName _); [right; left; split; reflexivity|].
    destruct (isTestWiringName _); [right; right; split; reflexivity|].
    destruct (armActiveZones _ _); [left; reflexivity | exact Hc].
  - unfold handleArm. apply String.eqb_neq in Hne. rewrite Hne. exact Hc.
Qed.

Lemma handleDisarm_consistent method user (s : State World) :
  consistent s -> consistent (snd (fst (run (handleDisarm method user) s))).
Proof.
  intros Hc. destruct (String.eqb_spec method "POST") as [->|Hne].
  - left. reflexivity.
  - unfold handleDisarm. apply String.eqb_neq in Hne. rewrite Hne. exact Hc.
Qed.

Lemma run_op_consistent o (s : State World) :
  consistent s -> consistent (fst (run_op readPin SendMail o s)).
Proof.
  intros Hc. destruct o as [|method body user|user|cfg]; cbn [run_op].
  - pose proof (pollSensors_tick_dispatch_step s) as H.
    destruct (run pollSensors_tick s) as [[u s'] t].
    destruct H as (Hs & _). eapply same_setup_consistent; eassumption.
  - pose proof (handleTestTrigger_outcome method body user s) as H.
    destruct (run (handleTestTrigger method body user) s) as [[r s'] t].
    apply Outcome_dispatch_step in H. destruct H as (Hs & _).
    eapply same_setup_consistent; eassumption.
  - rewrite run_handleStatus. exact Hc.
  - exact Hc.
Qed.

Lemma reachable_consistent (s : State World) :
  reachable readPin SendMail s -> consistent s.
Proof.
  induction 1 as [cfg w | s method body user _ IH | s method user _ IH | s o _ IH].
  - apply consistent_NewServer.
  - apply handleArm_consistent. exact IH.
  - apply handleDisarm_consistent. exact IH.
  - apply run_op_consistent. exact IH.
Qed.

Transparent zoneTriggered rangeAlerts pollZone pollActiveIDs.

End Properties.

(** * More of the poll loop and of the transitions *)

Section FoldLaws.
Context {G : strings.Lib}.

Lemma EqualFold_refl (s : string) : strings.EqualFold s s = true.
Proof. apply strings.EqualFold_reflexive. Qed.

Lemma EqualFold_sym (s t : string) : strings.EqualFold s t = strings.EqualFold t s.
Proof. apply strings.EqualFold_symmetric. Qed.

Lemma EqualFold_congr (s t u : string) :
  strings.EqualFold s t = true -> strings.EqualFold s u = strings.EqualFold t u.
Proof.
  intros H.
  destruct (strings.EqualFold s u) eqn:E1, (strings.EqualFold t u) eqn:E2; try reflexivity.
  - rewrite EqualFold_sym in H.
    rewrite (strings.EqualFold_transitive t s u H E1) in E2. discriminate.
  - rewrite (strings.EqualFold_transitive s t u H E2) in E1. discriminate.
Qed.

Lemma untrimmed_never_matches (n name : string) :
  strings.TrimSpace n <> n -> strings.EqualFold n (strings.TrimSpace name) = false.
Proof. apply strings.EqualFold_trimmed. Qed.

End FoldLaws.


Section Lock.
Context {World : Type}.
Context {G : strings.Lib}.
Variable readPin : Z -> World -> bool * World.
Variable SendMail :
  string -> string -> string -> string -> string -> string -> string ->
  World -> option string * World.

Lemma exec_free {A : Type} (p : Prog A) (s : State World) :
  exec readPin SendMail false p s = let '(a, s', t) := run readPin SendMail p s in (Returned a, s', t).
Proof.
  revert s. induction p as [a|B act k IH]; intros s; [reflexivity|].
  cbn [exec run andb].
  destruct (do_action readPin SendMail act s) as [[b s1] t1].
  rewrite IH. destruct (run readPin SendMail (k b) s1) as [[a s2] t2].
  reflexivity.
Qed.

Lemma exec_tick_held (s : State World) :
  exec readPin SendMail true pollSensors_tick s =
    if String.eqb (currentMode s) "Disarmed" || (testMode s =? 1)%Z
    then (Returned tt, s, []) else (Blocked, s, []).
Proof.
  unfold pollSensors_tick. cbn [bind perform exec isCfgGet andb do_action app].
  destruct (String.eqb (currentMode s) "Disarmed"); cbn [orb bind exec]; [reflexivity|].
  cbn [isCfgGet andb do_action app bind perform exec].
  destruct (testMode s =? 1)%Z; reflexivity.
Qed.

End Lock.

Section MoreEngine.
Context {World : Type}.
Context {G : strings.Lib}.
Variable readPin : Z -> World -> bool * World.
Variable SendMail :
  string -> string -> string -> string -> string -> string -> string ->
  World -> option string * World.

Local Abbreviation run := (run readPin SendMail).

Lemma run_tick_activeIDs (s : State World) :
  run pollSensors_tick s =
    let '(s', t) := spec_poll_zones readPin SendMail (negb (testMode s =? 0)%Z) (activeIDs s) s in
    (tt, s', t).
Proof.
  rewrite run_pollSensors_tick. unfold activeIDs.
  destruct (String.eqb (currentMode s) "Disarmed" || (testMode s =? 1)%Z); reflexivity.
Qed.

Lemma spec_poll_zone_pins quiet id (s : State World) :
  pinsRead (snd (spec_poll_zone readPin SendMail quiet id s)) =
    match polledPin (cfgMgr s) id with Some pin => [pin] | None => [] end.
Proof.
  unfold spec_poll_zone, polledPin. rewrite <- findZone_find.
  destruct (findZone (Zones (cfgMgr s)) id) as [zone|]; [|reflexivity].
  destruct (Enabled zone); cbn [negb]; [|reflexivity].
  destruct (readPin (Pin zone) (world s)) as [level w].
  destruct (_ && _); [|reflexivity].
  pose proof (spec_dispatch_trace readPin SendMail (alerts s) zone w) as (_ & _ & H3 & _).
  destruct quiet.
  - reflexivity.
  - destruct (spec_dispatch readPin SendMail (alerts s) zone w) as [w' t].
    cbn [snd] in *. rewrite pinsRead_app, H3. reflexivity.
Qed.

Lemma spec_poll_zones_pins quiet ids (s : State World) :
  pinsRead (snd (spec_poll_zones readPin SendMail quiet ids s)) =
    omap (polledPin (cfgMgr s)) ids.
Proof.
  revert s. induction ids as [|id rest IH]; intros s; [reflexivity|].
  cbn [spec_poll_zones].
  pose proof (spec_poll_zone_pins quiet id s) as H1.
  pose proof (spec_poll_zone_setup readPin SendMail quiet id s) as (Hc & _).
  destruct (spec_poll_zone readPin SendMail quiet id s) as [s1 t1].
  pose proof (IH s1) as H2.
  destruct (spec_poll_zones readPin SendMail quiet rest s1) as [s2 t2].
  cbn [snd fst] in *. rewrite pinsRead_app, H1, H2, Hc.
  change (omap (polledPin (cfgMgr s)) (id :: rest))
    with (match polledPin (cfgMgr s) id with
          | Some y => y :: omap (polledPin (cfgMgr s)) rest
          | None => omap (polledPin (cfgMgr s)) rest
          end).
  destruct (polledPin (cfgMgr s) id); reflexivity.
Qed.

(** How one iteration ends, with [cm.mu] held or free. *)
Lemma exec_tick (held : bool) (s : State World) :
  exec readPin SendMail held pollSensors_tick s =
    if held then
      if String.eqb (currentMode s) "Disarmed" || (testMode s =? 1)%Z
      then (Returned tt, s, []) else (Blocked, s, [])
    else
      let '(s', t) :=
        spec_poll_zones readPin SendMail (negb (testMode s =? 0)%Z) (activeIDs s) s in
      (Returned tt, s', t).
Proof.
  destruct held; [apply exec_tick_held|].
  rewrite exec_free, run_tick_activeIDs.
  destruct (spec_poll_zones _ _ _ _ _) as [s' t]. reflexivity.
Qed.

(** X1.  One iteration of [pollSensors], run with the lock of the
    configuration free, comes to its end and reads exactly the pins of the
    zones that are configured and enabled among the IDs it ranges over
    ([activeIDs]), in the order of that list and once per entry; an ID
    without a zone, or whose zone is disabled, is passed over.  With the
    lock held, the iteration reads no pin: it is skipped as it would be
    with the lock free, or it waits in [Get] for ever. *)
Theorem pollSensors_tick_reads (held : bool) (s : State World) :
  let '(r, s', t) := exec readPin SendMail held pollSensors_tick s in
  if held then
    pinsRead t = [] /\ s' = s /\
    r = (if String.eqb (currentMode s) "Disarmed" || (testMode s =? 1)%Z
         then Returned tt else Blocked)
  else
    pinsRead t = omap (polledPin (cfgMgr s)) (activeIDs s) /\ r = Returned tt.
Proof.
  rewrite exec_tick. destruct held.
  - destruct (_ || _); repeat split.
  - pose proof (spec_poll_zones_pins (negb (testMode s =? 0)%Z) (activeIDs s) s) as H.
    destruct (spec_poll_zones _ _ _ _ _) as [s' t]. split; [exact H | reflexivity].
Qed.

Lemma spec_poll_zone_latches quiet i (s : State World) :
  let '(s', t) := spec_poll_zone readPin SendMail quiet i s in
  forall id, In id (latches t) ->
    id = i /\ latched s id = false /\ latched s' id = true /\
    exists zone, findZone (Zones (cfgMgr s)) id = Some zone /\ Enabled zone = true.
Proof.
  unfold spec_poll_zone. rewrite <- findZone_find.
  destruct (findZone (Zones (cfgMgr s)) i) as [zone|] eqn:Hf; [|intros id []].
  destruct (Enabled zone) eqn:He; cbn [negb]; [|intros id []].
  destruct (findZone_Some _ _ _ Hf) as [Hid _].
  destruct (readPin (Pin zone) (world s)) as [level w].
  destruct (spec_activated level (wiringMode (Mode zone))); cbn [andb];
    [|intros id []].
  destruct (latched s (ID zone)) eqn:Hl; cbn [negb]; [intros id []|].
  assert (Hq : latches (snd (if quiet then (w, [])
                             else spec_dispatch readPin SendMail (alerts s) zone w)) = []).
  { destruct quiet; [reflexivity|].
    apply (spec_dispatch_trace readPin SendMail (alerts s) zone w). }
  destruct (if quiet then (w, []) else spec_dispatch readPin SendMail (alerts s) zone w)
    as [w' t].
  cbn [snd] in Hq. rewrite latches_app, Hq. cbn.
  intros id [<-|[]]. rewrite Hid in *.
  repeat split; auto.
  - unfold latched. cbn. rewrite lookup_insert_eq. reflexivity.
  - exists zone. auto.
Qed.

Lemma spec_poll_zones_latches quiet ids (s : State World) :
  let '(s', t) := spec_poll_zones readPin SendMail quiet ids s in
  forall id, In id (latches t) ->
    In id ids /\ latched s id = false /\ latched s' id = true /\
    exists zone, findZone (Zones (cfgMgr s)) id = Some zone /\ Enabled zone = true.
Proof.
  revert s. induction ids as [|i rest IH]; intros s; cbn [spec_poll_zones];
    [intros id []|].
  pose proof (spec_poll_zone_latches quiet i s) as H1.
  pose proof (spec_poll_zone_outcome readPin SendMail quiet i s) as Ho1.
  destruct (spec_poll_zone readPin SendMail quiet i s) as [s1 t1].
  pose proof (IH s1) as H2.
  pose proof (spec_poll_zones_dispatch_step readPin SendMail quiet rest s1) as Hd2.
  destruct (spec_poll_zones readPin SendMail quiet rest s1) as [s2 t2].
  apply Outcome_dispatch_step in Ho1.
  destruct Ho1 as ((Hc & _) & _ & Hm1 & _).
  destruct Hd2 as (_ & _ & Hm2 & _).
  intros id Hin. rewrite latches_app in Hin. apply in_app_or in Hin.
  destruct Hin as [Hin|Hin].
  - destruct (H1 id Hin) as (-> & Hu & Hl & Hz).
    split; [left; reflexivity|]. split; [exact Hu|]. split; [auto | exact Hz].
  - destruct (H2 id Hin) as (Hi & Hu & Hl & Hz). rewrite Hc in Hz.
    split; [right; exact Hi|]. split; [|split; [exact Hl | exact Hz]].
    destruct (latched s id) eqn:E; [|reflexivity].
    rewrite (Hm1 id E) in Hu. discriminate.
Qed.

(** X2.  Every latch that one iteration of [pollSensors] records, with the
    lock of the configuration held or free, is for an ID of the list it
    ranges over whose zone is configured and enabled; the ID was not
    latched before the iteration and is latched after it; and the lock was
    free. *)
Theorem pollSensors_tick_latches_only_active (held : bool) (s : State World) :
  let '(_, s', t) := exec readPin SendMail held pollSensors_tick s in
  forall id, In id (latches t) ->
    held = false /\
    In id (activeIDs s) /\ latched s id = false /\ latched s' id = true /\
    exists zone, findZone (Zones (cfgMgr s)) id = Some zone /\ Enabled zone = true.
Proof.
  rewrite exec_tick. destruct held.
  - destruct (_ || _); intros id [].
  - pose proof (spec_poll_zones_latches (negb (testMode s =? 0)%Z) (activeIDs s) s) as H.
    destruct (spec_poll_zones _ _ _ _ _) as [s' t].
    intros id Hin. split; [reflexivity | exact (H id Hin)].
Qed.

Lemma spec_poll_zones_detects quiet (level : Z -> bool) ids (s : State World) :
  steadyLevels readPin level ->
  let '(s', _) := spec_poll_zones readPin SendMail quiet ids s in
  forall id zone, In id ids ->
    findZone (Zones (cfgMgr s)) id = Some zone -> Enabled zone = true ->
    spec_activated (level (Pin zone)) (wiringMode (Mode zone)) = true ->
    latched s' id = true.
Proof.
  intros Hsteady. revert s. induction ids as [|i rest IH]; intros s; cbn [spec_poll_zones].
  - intros id zone [].
  - pose proof (spec_poll_zone_setup readPin SendMail quiet i s) as (Hc & _).
    pose proof (spec_poll_zones_dispatch_step readPin SendMail quiet rest
                  (fst (spec_poll_zone readPin SendMail quiet i s))) as Hd2.
    assert (Hhere : forall zone, findZone (Zones (cfgMgr s)) i = Some zone ->
              Enabled zone = true ->
              spec_activated (level (Pin zone)) (wiringMode (Mode zone)) = true ->
              latched (fst (spec_poll_zone readPin SendMail quiet i s)) i = true).
    { intros zone Hf He Ha. unfold spec_poll_zone. rewrite <- findZone_find, Hf, He.
      cbn [negb]. pose proof (Hsteady (Pin zone) (world s)) as Hlv.
      destruct (findZone_Some _ _ _ Hf) as [Hid _].
      destruct (readPin (Pin zone) (world s)) as [lv w]. cbn [fst] in Hlv. subst lv.
      rewrite Ha. cbn [andb]. rewrite Hid.
      destruct (latched s i) eqn:Hl; cbn [negb].
      - exact Hl.
      - destruct (if quiet then _ else _) as [w' t]. cbn [fst].
        unfold latched. cbn. rewrite lookup_insert_eq. reflexivity. }
    destruct (spec_poll_zone readPin SendMail quiet i s) as [s1 t1].
    cbn [fst] in *.
    pose proof (IH s1) as H2.
    destruct (spec_poll_zones readPin SendMail quiet rest s1) as [s2 t2].
    destruct Hd2 as (_ & _ & Hm2 & _).
    intros id zone [<-|Hin] Hf He Ha.
    + apply Hm2. eapply Hhere; eassumption.
    + eapply H2; try eassumption. rewrite Hc. exact Hf.
Qed.

(** X3.  With the lock of the configuration free and sensors whose level
    does not change while they are polled, one iteration of [pollSensors]
    comes to its end, and every enabled zone on the list it ranges over
    whose level counts as activated under its wiring mode is latched then.
    (With the lock held the iteration latches nothing, see X2.) *)
Theorem pollSensors_tick_detects (level : Z -> bool) (held : bool) (s : State World) :
  steadyLevels readPin level -> held = false ->
  let '(r, s', _) := exec readPin SendMail held pollSensors_tick s in
  r = Returned tt /\
  forall id zone, In id (activeIDs s) ->
    findZone (Zones (cfgMgr s)) id = Some zone -> Enabled zone = true ->
    spec_activated (level (Pin zone)) (wiringMode (Mode zone)) = true ->
    latched s' id = true.
Proof.
  intros Hs ->. rewrite exec_tick.
  pose proof (spec_poll_zones_detects (negb (testMode s =? 0)%Z) level (activeIDs s) s Hs) as H.
  destruct (spec_poll_zones _ _ _ _ _) as [s' t]. split; [reflexivity | exact H].
Qed.

Lemma status_triggered_spec (m : gmap Z bool) :
  let l := map fst (filter (fun e : Z * bool => snd e = true) (map_to_list m)) in
  NoDup l /\ forall id, In id l <-> default false (m !! id) = true.
Proof.
  cbv zeta. split.
  - assert (Hsub : sublist (map fst (filter (fun e : Z * bool => snd e = true) (map_to_list m)))
                            ((map_to_list m).*1))
      by (apply (fmap_sublist fst), sublist_filter).
    exact (sublist_NoDup _ _ (NoDup_fst_map_to_list m) Hsub).
  - intros id. rewrite <- list_elem_of_In. change (map fst) with (fmap (M:=list) (@fst Z bool)).
    rewrite list_elem_of_fmap. split.
    + intros [[k b] [-> Hin]]. apply list_elem_of_filter in Hin. destruct Hin as [Hb Hin].
      cbn in Hb. subst b. apply elem_of_map_to_list in Hin. cbn. rewrite Hin. reflexivity.
    + intros H. destruct (m !! id) as [b|] eqn:E; cbn in H; [|discriminate]. subst b.
      exists (id, true). split; [reflexivity|].
      apply list_elem_of_filter. split; [reflexivity|]. apply elem_of_map_to_list. exact E.
Qed.

(** X4.  [handleStatus] changes nothing and does nothing to the outside.
    Its answer holds the current mode, the latched IDs without repetition,
    and one entry per configured zone, in the order of the configuration,
    marked active exactly when the ID of the zone is latched. *)
Theorem handleStatus_reports_state (user : User) (s : State World) :
  let '(resp, s', t) := run (handleStatus user) s in
  s' = s /\ t = [] /\
  exists st, resp = Json st /\
    st_Mode st = currentMode s /\
    NoDup (st_Triggered st) /\
    (forall id, In id (st_Triggered st) <-> latched s id = true) /\
    map zi_ID (st_Zones st) = map ID (Zones (cfgMgr s)) /\
    (forall zi, In zi (st_Zones st) -> zi_Active zi = latched s (zi_ID zi)).
Proof.
  rewrite run_handleStatus. split; [reflexivity|]. split; [reflexivity|].
  eexists. split; [reflexivity|]. cbn [st_Mode st_Triggered st_Zones].
  pose proof (status_triggered_spec (triggered s)) as [Hn Hi].
  split; [reflexivity|]. split; [exact Hn|]. split; [exact Hi|].
  split.
  - rewrite map_map. reflexivity.
  - intros zi Hin. apply in_map_iff in Hin. destruct Hin as [z [<- _]]. reflexivity.
Qed.

Ltac absurd_refusal :=
  try (intros; exfalso;
       match goal with H : ?x <> ?x |- _ => apply H; reflexivity end).

Lemma run_handleArm_any method body user (s : State World) :
  let '(resp, s', t) := run (handleArm method body user) s in
  (resp <> Success -> s' = s /\ t = []) /\
  cfgMgr s' = cfgMgr s /\ alerts s' = alerts s /\ world s' = world s /\
  pinsRead t = [] /\ sends t = [] /\ latches t = [].
Proof.
  destruct (String.eqb_spec method "POST") as [->|Hne].
  - destruct body as [reqMode|]; [|cbn; repeat split; auto].
    rewrite run_handleArm. cbv zeta.
    destruct (isTestSoftName _);
      [repeat split; auto; absurd_refusal|].
    destruct (isTestWiringName _);
      [repeat split; auto; absurd_refusal|].
    destruct (armActiveZones _ _); repeat split; auto;
      absurd_refusal.
  - unfold handleArm. apply String.eqb_neq in Hne. rewrite Hne. cbn. repeat split; auto.
Qed.

Lemma run_handleDisarm_any method user (s : State World) :
  let '(resp, s', t) := run (handleDisarm method user) s in
  (resp <> Success -> s' = s /\ t = []) /\
  cfgMgr s' = cfgMgr s /\ alerts s' = alerts s /\ world s' = world s /\
  pinsRead t = [] /\ sends t = [] /\ latches t = [].
Proof.
  destruct (String.eqb_spec method "POST") as [->|Hne].
  - rewrite run_handleDisarm. repeat split; auto.
    all: absurd_refusal.
  - unfold handleDisarm. apply String.eqb_neq in Hne. rewrite Hne. cbn. repeat split; auto.
Qed.

(** X5.  For every method and body, a request to [handleArm],
    [handleDisarm] or [handleTestTrigger] that is not answered 204 leaves
    the state as it was and produces no event.  Whatever the answer, arm
    and disarm requests leave the configuration, the channels and the
    outside world alone, read no pin, call no channel and record no latch;
    a trigger request leaves configuration, mode and channels alone and
    reads no pin. *)
Theorem refused_requests_change_nothing (s : State World) (user : User) :
  (forall method body,
     let '(resp, s', t) := run (handleArm method body user) s in
     (resp <> Success -> s' = s /\ t = []) /\
     cfgMgr s' = cfgMgr s /\ alerts s' = alerts s /\ world s' = world s /\
     pinsRead t = [] /\ sends t = [] /\ latches t = []) /\
  (forall method,
     let '(resp, s', t) := run (handleDisarm method user) s in
     (resp <> Success -> s' = s /\ t = []) /\
     cfgMgr s' = cfgMgr s /\ alerts s' = alerts s /\ world s' = world s /\
     pinsRead t = [] /\ sends t = [] /\ latches t = []) /\
  (forall method body,
     let '(resp, s', t) := run (handleTestTrigger method body user) s in
     (resp <> Success -> s' = s /\ t = []) /\
     same_setup s s' /\ pinsRead t = []).
Proof.
  split; [|split].
  - intros method body. apply run_handleArm_any.
  - intros method. apply run_handleDisarm_any.
  - intros method body. rewrite run_handleTestTrigger.
    destruct (negb (String.eqb method "POST")); [repeat split; auto|].
    destruct (negb (testMode s =? 1)%Z); [repeat split; auto|].
    destruct body as [zoneID|]; [|repeat split; auto].
    destruct (findZone _ _) as [zone|]; [|repeat split; auto].
    destruct (latched s (ID zone));
      [repeat split; auto; absurd_refusal|].
    pose proof (spec_dispatch_trace readPin SendMail (alerts s) zone (world s)) as (_ & _ & H3 & _).
    destruct (spec_dispatch _ _ _ _ _) as [w t]. cbn [snd] in H3.
    split; [absurd_refusal|]. split; [repeat split|].
    change (pinsRead (EvLog (LogTestTrigger (ID zone) (Name zone) (Username user)) :: t))
      with (pinsRead t). exact H3.
Qed.

(** X6.  After an arm request that is answered 204, the IDs that the next
    iteration of [pollSensors] ranges over are: none in TestSoft, the IDs of
    all configured zones in TestWiring, none when the trimmed name is
    spelled Disarmed, and otherwise the zone list of the first profile
    whose name matches. *)
Theorem arm_selects_polled_zones (s : State World) (name : string) (user : User) :
  let mode := strings.TrimSpace name in
  let '(resp, s', _) := run (arm name user) s in
  resp = Success ->
  activeIDs s' =
    if isTestSoftName (strings.ToLower mode) then []
    else if isTestWiringName (strings.ToLower mode) then map ID (Zones (cfgMgr s))
    else if String.eqb mode "Disarmed" then []
    else default [] (armActiveZones (ArmModes (cfgMgr s)) mode).
Proof.
  cbv zeta. unfold arm. rewrite run_handleArm. cbv zeta.
  destruct (isTestSoftName _); [reflexivity|].
  destruct (isTestWiringName _); [reflexivity|].
  destruct (armActiveZones (ArmModes (cfgMgr s)) (strings.TrimSpace name)) as [zs|] eqn:E;
    [|discriminate].
  intros _. unfold activeIDs. cbn [currentMode testMode cfgMgr set_triggered set_testMode
                                  set_currentMode Z.eqb orb].
  destruct (String.eqb (strings.TrimSpace name) "Disarmed"); cbn [orb]; [reflexivity|].
  rewrite E. reflexivity.
Qed.

Lemma armActiveZones_fold ams (m m' : string) :
  strings.EqualFold m m' = true -> armActiveZones ams m = armActiveZones ams m'.
Proof.
  intros H. induction ams as [|am rest IH]; [reflexivity|]. cbn [armActiveZones].
  rewrite (EqualFold_sym (am_Name am) m), (EqualFold_sym (am_Name am) m').
  rewrite (EqualFold_congr m m' (am_Name am) H), IH. reflexivity.
Qed.

(** X7.  Two arm requests whose trimmed names [EqualFold] takes for equal,
    neither spelled Disarmed, and which the two tests for the test modes
    treat alike, are answered alike and leave the same latches, the same
    test mode and the same list of polled IDs.  (The tests for the test
    modes go through [ToLower], which [EqualFold] does not determine: the
    long s folds to s and is its own lower case.) *)
Theorem arm_ignores_letter_case (s : State World) (name name' : string) (user : User) :
  strings.EqualFold (strings.TrimSpace name) (strings.TrimSpace name') = true ->
  strings.TrimSpace name <> "Disarmed" -> strings.TrimSpace name' <> "Disarmed" ->
  isTestSoftName (strings.ToLower (strings.TrimSpace name)) =
    isTestSoftName (strings.ToLower (strings.TrimSpace name')) ->
  isTestWiringName (strings.ToLower (strings.TrimSpace name)) =
    isTestWiringName (strings.ToLower (strings.TrimSpace name')) ->
  let '(resp, s1, _) := run (arm name user) s in
  let '(resp', s2, _) := run (arm name' user) s in
  resp = resp' /\
  triggered s1 = triggered s2 /\ testMode s1 = testMode s2 /\
  activeIDs s1 = activeIDs s2.
Proof.
  intros Hf Hn Hn' Hsoft Hwiring. unfold arm. rewrite !run_handleArm. cbv zeta.
  rewrite <- Hsoft, <- Hwiring.
  rewrite <- (armActiveZones_fold (ArmModes (cfgMgr s)) _ _ Hf).
  apply String.eqb_neq in Hn, Hn'.
  destruct (isTestSoftName _); [repeat split|].
  destruct (isTestWiringName _); [repeat split|].
  destruct (armActiveZones (ArmModes (cfgMgr s)) (strings.TrimSpace name)) as [zs|] eqn:E.
  - split; [reflexivity|].
    split; [reflexivity|]. split; [reflexivity|].
    unfold activeIDs. cbn [currentMode testMode cfgMgr set_triggered set_testMode
                           set_currentMode Z.eqb orb].
    rewrite Hn, Hn'. cbn [orb].
    rewrite <- (armActiveZones_fold (ArmModes (cfgMgr s)) _ _ Hf). reflexivity.
  - repeat split.
Qed.
End MoreEngine.

(** * The configuration requests *)

Lemma cm_eta (cm : ConfigManager) : muHeld cm = false -> mkCM (cfg cm) false = cm.
Proof. destruct cm as [c h]. cbn. intros ->. reflexivity. Qed.

Lemma wrapInt_fits (bits x : Z) :
  (0 < bits)%Z -> (- 2 ^ (bits - 1) <= x < 2 ^ (bits - 1))%Z -> wrapInt bits x = x.
Proof.
  intros Hb Hx. unfold wrapInt.
  assert (H2 : (2 ^ bits = 2 * 2 ^ (bits - 1))%Z).
  { replace bits with (Z.succ (bits - 1)) at 1 by lia. apply Z.pow_succ_r. lia. }
  rewrite Z.mod_small by lia. lia.
Qed.

Lemma maxZoneIDFrom_ge (zones : list Zone) (m : Z) :
  (m <= maxZoneIDFrom zones m)%Z /\
  (forall e, In e zones -> (ID e <= maxZoneIDFrom zones m)%Z).
Proof.
  revert m. induction zones as [|z rest IH]; intros m; cbn [maxZoneIDFrom].
  - split; [lia | intros e []].
  - destruct (IH (if (ID z >? m)%Z then ID z else m)) as [H1 H2].
    destruct (Z.gtb_spec (ID z) m); split; try lia.
    + intros e [<-|Hin]; [lia | auto].
    + intros e [<-|Hin]; [lia | auto].
Qed.

Lemma maxZoneIDFrom_lt (zones : list Zone) (m bound : Z) :
  (m < bound)%Z -> (forall e, In e zones -> (ID e < bound)%Z) ->
  (maxZoneIDFrom zones m < bound)%Z.
Proof.
  revert m. induction zones as [|z rest IH]; intros m Hm H; cbn [maxZoneIDFrom]; [exact Hm|].
  apply IH.
  - destruct (ID z >? m)%Z; [apply H; left; reflexivity | exact Hm].
  - intros e Hin. apply H. right. exact Hin.
Qed.

(** The maximum is 0 or the ID of a zone. *)
Lemma maxZoneIDFrom_in (zones : list Zone) (m : Z) :
  maxZoneIDFrom zones m = m \/ In (maxZoneIDFrom zones m) (map ID zones).
Proof.
  revert m. induction zones as [|z rest IH]; intros m; cbn [maxZoneIDFrom]; [left; reflexivity|].
  destruct (IH (if (ID z >? m)%Z then ID z else m)) as [H|H].
  - rewrite H. destruct (ID z >? m)%Z; [right; left; reflexivity | left; reflexivity].
  - right. right. exact H.
Qed.

Lemma nextZoneID_fresh (bits : Z) (zones : list Zone) :
  (1 < bits)%Z -> (forall e, In e zones -> (ID e < 2 ^ (bits - 1) - 1)%Z) ->
  nextZoneID bits zones = (maxZoneIDFrom zones 0 + 1)%Z /\
  (0 < nextZoneID bits zones)%Z /\
  (forall e, In e zones -> (ID e < nextZoneID bits zones)%Z).
Proof.
  intros Hb Hz.
  assert (Hpow : (2 <= 2 ^ (bits - 1))%Z).
  { change 2%Z with (2 ^ 1)%Z at 1. apply Z.pow_le_mono_r; lia. }
  destruct (maxZoneIDFrom_ge zones 0) as [H0 Hall].
  assert (Hlt : (maxZoneIDFrom zones 0 < 2 ^ (bits - 1) - 1)%Z)
    by (apply maxZoneIDFrom_lt; [lia | exact Hz]).
  unfold nextZoneID. rewrite wrapInt_fits by lia.
  split; [reflexivity|]. split; [lia|].
  intros e Hin. specialize (Hall e Hin). lia.
Qed.

Lemma findZone_app (zones more : list Zone) (id : Z) :
  findZone (zones ++ more) id =
    match findZone zones id with
    | Some z => Some z
    | None => findZone more id
    end.
Proof.
  induction zones as [|z rest IH]; cbn [findZone app]; [reflexivity|].
  destruct (ID z =? id)%Z; [reflexivity | exact IH].
Qed.

Lemma withID_ID (id : Z) (z : Zone) : ID (withID id z) = id.
Proof. reflexivity. Qed.

Lemma putZone_spec (zones : list Zone) (id : Z) (z : Zone) :
  match putZone zones id z with
  | None => findZone zones id = None
  | Some zones' =>
      findZone zones id <> None /\
      map ID zones' = map ID zones /\
      findZone zones' id = Some (withID id z) /\
      (forall id', id' <> id -> findZone zones' id' = findZone zones id')
  end.
Proof.
  induction zones as [|e rest IH]; cbn [putZone findZone]; [reflexivity|].
  destruct (Z.eqb_spec (ID e) id) as [He|He].
  - split; [discriminate|]. cbn [map findZone withID ID]. rewrite Z.eqb_refl.
    split; [f_equal; symmetry; exact He|]. split; [reflexivity|].
    intros id' Hne. rewrite He.
    destruct (Z.eqb_spec id id'); [congruence | reflexivity].
  - destruct (putZone rest id z) as [rest'|]; [|exact IH].
    destruct IH as (H1 & H2 & H3 & H4). split; [exact H1|].
    cbn [map findZone]. split; [f_equal; exact H2|].
    destruct (Z.eqb_spec (ID e) id) as [|_]; [contradiction|]. split; [exact H3|].
    intros id' Hne. rewrite (H4 id' Hne). reflexivity.
Qed.

Lemma removeZone_spec (zones : list Zone) (id : Z) :
  match removeZone zones id with
  | None => findZone zones id = None
  | Some zones' =>
      findZone zones id <> None /\
      sublist zones' zones /\
      length zones = S (length zones') /\
      (forall id', id' <> id -> findZone zones' id' = findZone zones id') /\
      (NoDup (map ID zones) -> findZone zones' id = None)
  end.
Proof.
  induction zones as [|e rest IH]; cbn [removeZone findZone]; [reflexivity|].
  destruct (Z.eqb_spec (ID e) id) as [He|He].
  - split; [discriminate|]. split; [apply sublist_cons; reflexivity|].
    split; [reflexivity|]. split.
    + intros id' Hne. destruct (Z.eqb_spec (ID e) id'); [congruence | reflexivity].
    + cbn [map]. intros Hnd. apply NoDup_cons in Hnd. destruct Hnd as [Hnotin _].
      apply findZone_None. intros z' Hin Hid. apply Hnotin.
      rewrite He, <- Hid. apply list_elem_of_In, in_map, Hin.
  - destruct (removeZone rest id) as [rest'|]; [|exact IH].
    destruct IH as (H1 & H2 & H3 & H4 & H5). split; [exact H1|].
    split; [apply sublist_skip; exact H2|].
    split; [cbn [length]; f_equal; exact H3|]. split.
    + intros id' Hne. cbn [findZone]. rewrite (H4 id' Hne). reflexivity.
    + cbn [map findZone]. intros Hnd. apply NoDup_cons in Hnd. destruct Hnd as [_ Hnd].
      destruct (Z.eqb_spec (ID e) id); [contradiction|]. apply H5. exact Hnd.
Qed.

(** X8.  A POST on /api/zones by an administrator with a name and a pin,
    while the IDs in use are below the largest [int]: the zone is appended
    with an ID that is positive and greater than every ID in use, the
    answer is 201 with that zone (also when saving to disk failed, the
    error of [Update] being dropped), the new ID looks up the new zone and
    every other ID looks up what it did. *)
Theorem handleZones_post_appends (bits : Z) (z : Zone) (user : User)
  (saveErr : option string) (cm : ConfigManager) :
  (1 < bits)%Z ->
  (forall e, In e (Zones (engine (cfg cm))) -> (ID e < 2 ^ (bits - 1) - 1)%Z) ->
  muHeld cm = false -> Admin user = true -> Name z <> "" -> Pin z <> 0%Z ->
  let zones := Zones (engine (cfg cm)) in
  exists id,
    handleZones bits "POST" (Some z) user saveErr cm =
      (Returned (ReplyJson StatusCreated (BodyZone (withID id z)),
                 [LogCreateZone (Name z) id (Username user)]),
       mkCM (withZones (zones ++ [withID id z]) (cfg cm)) false) /\
    (0 < id)%Z /\
    (forall e, In e zones -> (ID e < id)%Z) /\
    findZone (zones ++ [withID id z]) id = Some (withID id z) /\
    (forall id', id' <> id -> findZone (zones ++ [withID id z]) id' = findZone zones id').
Proof.
  intros Hb Hz Hfree Hadmin Hname Hpin zones.
  destruct (nextZoneID_fresh bits zones Hb Hz) as (_ & Hpos & Hfresh).
  exists (nextZoneID bits zones).
  assert (Hnone : findZone zones (nextZoneID bits zones) = None).
  { apply findZone_None. intros e Hin. specialize (Hfresh e Hin). lia. }
  split; [|split; [exact Hpos|split; [exact Hfresh|split]]].
  - unfold handleZones, afterUpdate, cm_Update. cbn [String.eqb Ascii.eqb Bool.eqb].
    rewrite Hadmin, Hfree. cbn [negb].
    destruct (String.eqb_spec (Name z) "") as [|_]; [contradiction|].
    destruct (Z.eqb_spec (Pin z) 0) as [|_]; [contradiction|].
    reflexivity.
  - rewrite findZone_app, Hnone. cbn [findZone withID ID]. rewrite Z.eqb_refl. reflexivity.
  - intros id' Hne. rewrite findZone_app.
    destruct (findZone zones id') as [e|]; [reflexivity|].
    cbn [findZone withID ID]. destruct (Z.eqb_spec (nextZoneID bits zones) id'); [congruence|reflexivity].
Qed.

Lemma cm_Update_cfg fn saveErr cm :
  cfg (snd (cm_Update fn saveErr cm)) = cfg cm \/
  exists e c, fn (cfg cm) = Some (e, c) /\ cfg (snd (cm_Update fn saveErr cm)) = c.
Proof.
  unfold cm_Update. destruct (muHeld cm); [left; reflexivity|].
  destruct (fn (cfg cm)) as [[[e|] c]|]; cbn; eauto.
Qed.

(** X9.  Zone IDs that are pairwise distinct stay so under every request to
    [handleZones] and [handleZoneByID], while the IDs in use are below the
    largest [int]. *)
Theorem zone_requests_keep_ids_distinct (bits : Z) (method : string) (path : PathPart)
  (body : option Zone) (user : User) (saveErr : option string) (cm : ConfigManager) :
  (1 < bits)%Z ->
  (forall e, In e (Zones (engine (cfg cm))) -> (ID e < 2 ^ (bits - 1) - 1)%Z) ->
  NoDup (map ID (Zones (engine (cfg cm)))) ->
  NoDup (map ID (Zones (engine (cfg (snd (handleZones bits method body user saveErr cm)))))) /\
  NoDup (map ID (Zones (engine (cfg (snd (handleZoneByID method path body user saveErr cm)))))).
Proof.
  intros Hb Hz Hnd. split.
  - unfold handleZones.
    destruct (String.eqb method "GET"); [exact Hnd|].
    destruct (String.eqb method "POST"); [|exact Hnd].
    destruct (negb (Admin user)); [exact Hnd|].
    destruct body as [z|]; [|exact Hnd].
    destruct (String.eqb (Name z) "" || (Pin z =? 0)%Z); [exact Hnd|].
    unfold afterUpdate. cbn [snd].
    match goal with |- context [cm_Update ?fn _ _] =>
      destruct (cm_Update_cfg fn saveErr cm) as [->|(e & c & Hfn & ->)] end; [exact Hnd|].
    injection Hfn as _ <-. cbn [withZones engine Zones].
    rewrite map_app. cbn [map withID ID].
    destruct (nextZoneID_fresh bits _ Hb Hz) as (_ & _ & Hfresh).
    apply NoDup_app. split; [exact Hnd|]. split; [|apply NoDup_singleton].
    intros x Hx Hx'. apply list_elem_of_In in Hx. apply in_map_iff in Hx.
    destruct Hx as (e' & <- & Hin). apply list_elem_of_In in Hx'.
    destruct Hx' as [Heq|[]]. specialize (Hfresh e' Hin). lia.
  - unfold handleZoneByID.
    destruct (negb (Admin user)); [exact Hnd|].
    destruct path as [| |id]; [exact Hnd | exact Hnd |].
    destruct (String.eqb method "PUT").
    + destruct body as [z|]; [|exact Hnd].
      unfold afterUpdate. cbn [snd].
      match goal with |- context [cm_Update ?fn _ _] =>
        destruct (cm_Update_cfg fn saveErr cm) as [->|(e & c & Hfn & ->)] end; [exact Hnd|].
      pose proof (putZone_spec (Zones (engine (cfg cm))) id z) as Hput.
      destruct (putZone (Zones (engine (cfg cm))) id z) as [zones'|].
      * injection Hfn as _ <-. cbn [withZones engine Zones].
        destruct Hput as (_ & -> & _). exact Hnd.
      * injection Hfn as _ <-. exact Hnd.
    + destruct (String.eqb method "DELETE"); [|exact Hnd].
      unfold afterUpdate. cbn [snd].
      match goal with |- context [cm_Update ?fn _ _] =>
        destruct (cm_Update_cfg fn saveErr cm) as [->|(e & c & Hfn & ->)] end; [exact Hnd|].
      pose proof (removeZone_spec (Zones (engine (cfg cm))) id) as Hrm.
      destruct (removeZone (Zones (engine (cfg cm))) id) as [zones'|].
      * injection Hfn as _ <-. cbn [withZones engine Zones].
        destruct Hrm as (_ & Hsub & _).
        exact (sublist_NoDup _ _ Hnd (fmap_sublist ID _ _ Hsub)).
      * injection Hfn as _ <-. exact Hnd.
Qed.

(** X10.  A PUT on /api/zones/{id} by an administrator: when no zone has
    the ID the answer is 404 and nothing changes; otherwise the first zone
    with the ID is replaced by the body, which is not validated, under the
    same ID, the IDs and the other zones are as before, and the answer is
    204, or an error when saving failed although the zone is replaced in
    memory. *)
Theorem handleZoneByID_put_replaces (id : Z) (z : Zone) (user : User)
  (saveErr : option string) (cm : ConfigManager) :
  muHeld cm = false -> Admin user = true ->
  let zones := Zones (engine (cfg cm)) in
  let '(res, cm') := handleZoneByID "PUT" (PathIs id) (Some z) user saveErr cm in
  let zones' := Zones (engine (cfg cm')) in
  match findZone zones id with
  | None => res = Returned (ReplyError "not found" StatusNotFound, []) /\ cm' = cm
  | Some _ =>
      res = Returned match saveErr with
                     | None => (ReplyHeader StatusNoContent, [LogUpdateZone id (Username user)])
                     | Some e => (notFoundOr500 e, [])
                     end /\
      map ID zones' = map ID zones /\
      findZone zones' id = Some (withID id z) /\
      (forall id', id' <> id -> findZone zones' id' = findZone zones id') /\
      cm' = mkCM (withZones zones' (cfg cm)) false
  end.
Proof.
  intros Hfree Hadmin zones.
  unfold handleZoneByID, afterUpdate, cm_Update. rewrite Hadmin, Hfree.
  cbn [negb String.eqb Ascii.eqb Bool.eqb fst snd].
  pose proof (putZone_spec zones id z) as Hput. fold zones.
  destruct (putZone zones id z) as [zones'|].
  - destruct Hput as (H1 & H2 & H3 & H4).
    destruct (findZone zones id); [|contradiction].
    cbn [cfg withZones engine Zones Call_map].
    repeat split; assumption.
  - rewrite Hput. cbn [Call_map]. split; [reflexivity|]. apply cm_eta. exact Hfree.
Qed.

(** X11.  A DELETE on /api/zones/{id} by an administrator: when no zone has
    the ID the answer is 404 and nothing changes; otherwise one zone is
    taken out, every other ID looks up what it did, with distinct IDs the
    ID looks up nothing any more, and the answer is 204, or an error when
    saving failed although the zone is gone from memory. *)
Theorem handleZoneByID_delete_removes (id : Z) (body : option Zone) (user : User)
  (saveErr : option string) (cm : ConfigManager) :
  muHeld cm = false -> Admin user = true ->
  let zones := Zones (engine (cfg cm)) in
  let '(res, cm') := handleZoneByID "DELETE" (PathIs id) body user saveErr cm in
  let zones' := Zones (engine (cfg cm')) in
  match findZone zones id with
  | None => res = Returned (ReplyError "not found" StatusNotFound, []) /\ cm' = cm
  | Some _ =>
      res = Returned match saveErr with
                     | None => (ReplyHeader StatusNoContent, [LogDeleteZone id (Username user)])
                     | Some e => (notFoundOr500 e, [])
                     end /\
      length zones = S (length zones') /\
      (forall id', id' <> id -> findZone zones' id' = findZone zones id') /\
      (NoDup (map ID zones) -> findZone zones' id = None) /\
      cm' = mkCM (withZones zones' (cfg cm)) false
  end.
Proof.
  intros Hfree Hadmin zones.
  unfold handleZoneByID, afterUpdate, cm_Update. rewrite Hadmin, Hfree.
  cbn [negb String.eqb Ascii.eqb Bool.eqb fst snd].
  pose proof (removeZone_spec zones id) as Hrm. fold zones.
  destruct (removeZone zones id) as [zones'|].
  - destruct Hrm as (H1 & H2 & H3 & H4 & H5).
    destruct (findZone zones id); [|contradiction].
    cbn [cfg withZones engine Zones Call_map].
    repeat split; assumption.
  - rewrite Hrm. cbn [Call_map]. split; [reflexivity|]. apply cm_eta. exact Hfree.
Qed.

Lemma maxZoneIDFrom_is (zones : list Zone) (m M : Z) :
  (m <= M)%Z -> (forall e, In e zones -> (ID e <= M)%Z) ->
  (M = m \/ In M (map ID zones)) ->
  maxZoneIDFrom zones m = M.
Proof.
  intros Hm Hall HM.
  destruct (maxZoneIDFrom_ge zones m) as [H1 H2].
  assert (Hle : (maxZoneIDFrom zones m <= M)%Z).
  { destruct (maxZoneIDFrom_in zones m) as [->|Hin]; [exact Hm|].
    apply in_map_iff in Hin. destruct Hin as (e & <- & Hin). apply Hall. exact Hin. }
  assert (Hge : (M <= maxZoneIDFrom zones m)%Z).
  { destruct HM as [->|Hin]; [exact H1|].
    apply in_map_iff in Hin. destruct Hin as (e & <- & Hin). apply H2. exact Hin. }
  lia.
Qed.

Lemma findZone_In (zones : list Zone) (id : Z) :
  In id (map ID zones) <-> findZone zones id <> None.
Proof.
  split.
  - intros Hin Hnone. apply in_map_iff in Hin. destruct Hin as (e & He & Hin).
    exact (proj1 (findZone_None zones id) Hnone e Hin He).
  - intros H. destruct (findZone zones id) as [e|] eqn:E; [|contradiction].
    destruct (findZone_Some _ _ _ E) as [<- Hin]. apply in_map. exact Hin.
Qed.

Section ZoneIDs.
Context {World : Type}.
Context {G : strings.Lib}.
Variable readPin : Z -> World -> bool * World.
Variable SendMail : string -> string -> string -> string -> string -> string -> string ->
                    World -> option string * World.

(** X12.  Zone IDs are handed out again.  When the zone with the highest
    ID is deleted while the ID below it is in use (or the ID is 1), the
    next zone that is created gets the ID of the deleted one.  The profiles
    are as before, so they list the new zone where they listed the old one,
    and a latch of the old zone counts for the new one: the poll loop
    neither latches the new zone nor calls a channel for it. *)
Theorem deleted_zone_id_is_reused (bits id : Z) (z : Zone) (user user' : User)
  (saveErr saveErr' : option string) (cm : ConfigManager) (s : State World) :
  (1 < bits)%Z -> muHeld cm = false -> Admin user = true -> Admin user' = true ->
  Name z <> "" -> Pin z <> 0%Z ->
  let zones := Zones (engine (cfg cm)) in
  NoDup (map ID zones) ->
  (forall e, In e zones -> (ID e <= id)%Z) ->
  (0 < id < 2 ^ (bits - 1) - 1)%Z ->
  In id (map ID zones) ->
  id = 1%Z \/ In (id - 1)%Z (map ID zones) ->
  latched s id = true ->
  let '(_, cm1) := handleZoneByID "DELETE" (PathIs id) None user saveErr cm in
  let '(res, cm2) := handleZones bits "POST" (Some z) user' saveErr' cm1 in
  res = Returned (ReplyJson StatusCreated (BodyZone (withID id z)),
                  [LogCreateZone (Name z) id (Username user')]) /\
  ArmModes (engine (cfg cm2)) = ArmModes (engine (cfg cm)) /\
  let s2 := set_cfgMgr (engine (cfg cm2)) s in
  findZone (Zones (cfgMgr s2)) id = Some (withID id z) /\
  let '(_, s3, t) := run readPin SendMail pollSensors_tick s2 in
  latched s3 id = true /\ latchCount id t = 0%nat /\ sendCount id t = 0%nat.
Proof.
  intros Hb Hfree Hadmin Hadmin' Hname Hpin zones Hnd Hmax Hid Hin Hprev Hlatched.
  unfold handleZoneByID, afterUpdate, cm_Update. rewrite Hadmin, Hfree.
  cbn [negb String.eqb Ascii.eqb Bool.eqb fst snd]. fold zones.
  pose proof (removeZone_spec zones id) as Hrm.
  apply findZone_In in Hin.
  destruct (removeZone zones id) as [zones1|]; [|contradiction].
  destruct Hrm as (_ & _ & _ & Hothers & Hgone). specialize (Hgone Hnd).
  assert (Hle1 : forall e, In e zones1 -> (ID e <= id - 1)%Z).
  { intros e Hine.
    assert (Hne : ID e <> id) by (exact (proj1 (findZone_None zones1 id) Hgone e Hine)).
    assert (Hfe : findZone zones1 (ID e) <> None)
      by (apply findZone_In, in_map; exact Hine).
    rewrite (Hothers _ Hne) in Hfe. apply findZone_In, in_map_iff in Hfe.
    destruct Hfe as (e' & He' & Hine'). specialize (Hmax e' Hine'). lia. }
  assert (Hmax1 : maxZoneIDFrom zones1 0 = (id - 1)%Z).
  { apply maxZoneIDFrom_is; [lia | exact Hle1 |].
    destruct Hprev as [->|Hp]; [left; reflexivity|]. right.
    apply findZone_In. rewrite (Hothers (id - 1)%Z) by lia. apply findZone_In. exact Hp. }
  assert (Hz1 : forall e, In e zones1 -> (ID e < 2 ^ (bits - 1) - 1)%Z).
  { intros e Hine. specialize (Hle1 e Hine). lia. }
  destruct (nextZoneID_fresh bits zones1 Hb Hz1) as (Hnext & _ & _).
  rewrite Hmax1 in Hnext. replace (id - 1 + 1)%Z with id in Hnext by lia.
  unfold handleZones, afterUpdate, cm_Update. rewrite Hadmin'.
  cbn [negb String.eqb Ascii.eqb Bool.eqb muHeld cfg withZones engine Zones].
  destruct (String.eqb_spec (Name z) "") as [|_]; [contradiction|].
  destruct (Z.eqb_spec (Pin z) 0) as [|_]; [contradiction|].
  cbn [orb fst snd Call_map muHeld cfg withZones engine Zones ArmModes].
  rewrite Hnext. cbn [withID Name ID].
  split; [reflexivity|]. split; [reflexivity|].
  cbv zeta. cbn [cfgMgr set_cfgMgr Zones]. split.
  { rewrite findZone_app, Hgone. cbn [findZone withID ID]. rewrite Z.eqb_refl. reflexivity. }
  match goal with |- context [run readPin SendMail pollSensors_tick ?s2] =>
    pose proof (run_op_edge_step readPin SendMail id OpTick s2) as Hedge end.
  cbn [run_op] in Hedge.
  destruct (run readPin SendMail pollSensors_tick _) as [[u s3] t].
  destruct Hedge as (_ & Hstay & _). exact (Hstay Hlatched).
Qed.

End ZoneIDs.

(** * Profiles *)

Section ProfileRequests.
Context {G : strings.Lib}.

Lemma EqualFold_trans_false (a b n : string) :
  strings.EqualFold a b = true -> strings.EqualFold b n = false ->
  strings.EqualFold a n = false.
Proof. intros H1 H2. rewrite (EqualFold_congr a b n H1). exact H2. Qed.

Lemma upsertArmMode_lookup (modes : list ArmMode) (req : ArmMode) (n : string) :
  armActiveZones (upsertArmMode modes req) n =
    if strings.EqualFold (am_Name req) n then ActiveZones req
    else armActiveZones modes n.
Proof.
  induction modes as [|am rest IH]; cbn [upsertArmMode armActiveZones]; [reflexivity|].
  destruct (strings.EqualFold (am_Name am) (am_Name req)) eqn:E; cbn [armActiveZones].
  - destruct (strings.EqualFold (am_Name req) n) eqn:En; [reflexivity|].
    rewrite (EqualFold_trans_false _ _ _ E En). reflexivity.
  - rewrite IH.
    destruct (strings.EqualFold (am_Name am) n) eqn:Ea; [|reflexivity].
    destruct (strings.EqualFold (am_Name req) n) eqn:En; [|reflexivity].
    exfalso. rewrite (EqualFold_congr _ _ _ Ea), EqualFold_sym, En in E. discriminate.
Qed.

Lemma upsertArmMode_names (modes : list ArmMode) (req : ArmMode) :
  (forall am, In am (upsertArmMode modes req) -> am = req \/ In am modes) /\
  In req (upsertArmMode modes req) /\
  (length modes <= length (upsertArmMode modes req) <= S (length modes))%nat.
Proof.
  induction modes as [|am rest IH]; cbn [upsertArmMode].
  - split; [intros am [<-|[]]; left; reflexivity|]. split; [left; reflexivity | cbn; lia].
  - destruct (strings.EqualFold (am_Name am) (am_Name req)).
    + split; [intros am' [<-|Hin]; [left; reflexivity | right; right; exact Hin]|].
      split; [left; reflexivity | cbn; lia].
    + destruct IH as (H1 & H2 & H3). split.
      * intros am' [<-|Hin]; [right; left; reflexivity|].
        destruct (H1 am' Hin) as [->|Hin']; [left; reflexivity | right; right; exact Hin'].
      * split; [right; exact H2 | cbn [length]; lia].
Qed.

Section Profiles.
Context {World : Type}.
Variable readPin : Z -> World -> bool * World.
Variable SendMail : string -> string -> string -> string -> string -> string -> string ->
                    World -> option string * World.

(** X13.  A POST on /api/arm_modes by an administrator stores the profile
    in the place of the first one whose name differs in letter case at
    most, or at the end: afterwards a name that matches the posted one
    looks up the posted zone list, and every other name looks up what it
    did.  An arm request for a matching name that is no test mode then
    succeeds, and the posted zones are the polled ones, with two
    exceptions: when the trimmed name of the request is spelled Disarmed
    the request succeeds and nothing is polled, and when the profile was
    posted without a zone list the request is answered as an unknown
    profile and nothing changes. *)
Theorem handleArmModes_post_then_arm (req : ArmMode) (user armer : User)
  (saveErr : option string) (cm : ConfigManager) (s : State World) (name : string) :
  muHeld cm = false -> Admin user = true -> am_Name req <> "" ->
  let '(res, cm') := handleArmModes "POST" (Some req) user saveErr cm in
  res = Returned match saveErr with
                 | None => (ReplyHeader StatusCreated,
                            [LogUpdateArmMode (am_Name req) (Username user)])
                 | Some _ => (ReplyError "internal error" StatusInternalServerError, [])
                 end /\
  (forall n, armActiveZones (ArmModes (engine (cfg cm'))) n =
             if strings.EqualFold (am_Name req) n then ActiveZones req
             else armActiveZones (ArmModes (engine (cfg cm))) n) /\
  let mode := strings.TrimSpace name in
  (strings.EqualFold (am_Name req) mode = true ->
   isTestSoftName (strings.ToLower mode) = false ->
   isTestWiringName (strings.ToLower mode) = false ->
   let s1 := set_cfgMgr (engine (cfg cm')) s in
   let '(resp, s', _) := run readPin SendMail (arm name armer) s1 in
   match ActiveZones req with
   | None => resp = UnknownProfile /\ s' = s1
   | Some zs => resp = Success /\ currentMode s' = mode /\
                activeIDs s' = if String.eqb mode "Disarmed" then [] else zs
   end).
Proof.
  intros Hfree Hadmin Hname.
  unfold handleArmModes, afterUpdate, cm_Update. rewrite Hadmin, Hfree.
  cbn [negb String.eqb Ascii.eqb Bool.eqb fst snd].
  destruct (String.eqb_spec (am_Name req) "") as [|_]; [contradiction|].
  cbn [Call_map cfg withArmModes engine ArmModes].
  split; [destruct saveErr; reflexivity|].
  split; [intros n; apply upsertArmMode_lookup|].
  cbv zeta. intros Hfold Hsoft Hwiring. unfold arm. rewrite run_handleArm. cbv zeta.
  rewrite Hsoft, Hwiring. cbn [cfgMgr set_cfgMgr ArmModes].
  rewrite upsertArmMode_lookup, Hfold.
  destruct (ActiveZones req) as [zs|] eqn:Ezs; [|split; reflexivity].
  split; [reflexivity|]. split; [reflexivity|].
  unfold activeIDs.
  cbn [currentMode testMode cfgMgr set_triggered set_testMode set_currentMode set_cfgMgr
       ArmModes Z.eqb orb].
  destruct (String.eqb (strings.TrimSpace name) "Disarmed"); cbn [orb]; [reflexivity|].
  rewrite upsertArmMode_lookup, Hfold, Ezs. reflexivity.
Qed.

End Profiles.

(** X14.  Profile names that are pairwise different, also when letter case
    is ignored, stay so under every request to [handleArmModes]. *)
Theorem arm_mode_names_stay_distinct (method : string) (body : option ArmMode) (user : User)
  (saveErr : option string) (cm : ConfigManager) :
  foldDistinct (map am_Name (ArmModes (engine (cfg cm)))) ->
  foldDistinct
    (map am_Name (ArmModes (engine (cfg (snd (handleArmModes method body user saveErr cm)))))).
Proof.
  intros Hd. unfold handleArmModes.
  destruct (String.eqb method "GET"); [exact Hd|].
  destruct (String.eqb method "POST"); [|exact Hd].
  destruct (negb (Admin user)); [exact Hd|].
  destruct body as [req|]; [|exact Hd].
  destruct (String.eqb (am_Name req) ""); [exact Hd|].
  unfold afterUpdate. cbn [snd].
  match goal with |- context [cm_Update ?fn _ _] =>
    destruct (cm_Update_cfg fn saveErr cm) as [->|(e & c & Hfn & ->)] end; [exact Hd|].
  injection Hfn as _ <-. cbn [withArmModes engine ArmModes].
  revert Hd. generalize (ArmModes (engine (cfg cm))) as modes.
  induction modes as [|am rest IH]; cbn [upsertArmMode map foldDistinct].
  - intros _. split; [intros m []|exact I].
  - intros [Hhd Htl].
    destruct (strings.EqualFold (am_Name am) (am_Name req)) eqn:E; cbn [map foldDistinct].
    + split; [|exact Htl]. intros m Hin.
      rewrite <- (EqualFold_congr _ _ m E). apply Hhd. exact Hin.
    + split; [|apply IH; exact Htl]. intros m Hin.
      apply in_map_iff in Hin. destruct Hin as (am' & <- & Hin).
      destruct (proj1 (upsertArmMode_names rest req) am' Hin) as [->|Hin']; [exact E|].
      apply Hhd. apply in_map. exact Hin'.
Qed.

End ProfileRequests.

(** * Names with white space around them *)

Section Untrimmed.
Context {World : Type}.
Context {G : strings.Lib}.
Variable readPin : Z -> World -> bool * World.
Variable SendMail : string -> string -> string -> string -> string -> string -> string ->
                    World -> option string * World.

(** X15.  [handleArmModes] stores the name as it is posted, [handleArm]
    trims the name it is asked for: a profile posted with white space at
    the start or the end of its name is stored, but every arm request is
    answered, and leaves the state, as it would without that profile. *)
Theorem untrimmed_profile_is_never_armed (req : ArmMode) (user : User)
  (saveErr : option string) (cm : ConfigManager) :
  muHeld cm = false -> Admin user = true -> am_Name req <> "" ->
  strings.TrimSpace (am_Name req) <> am_Name req ->
  let '(res, cm') := handleArmModes "POST" (Some req) user saveErr cm in
  res = Returned match saveErr with
                 | None => (ReplyHeader StatusCreated,
                            [LogUpdateArmMode (am_Name req) (Username user)])
                 | Some _ => (ReplyError "internal error" StatusInternalServerError, [])
                 end /\
  In req (ArmModes (engine (cfg cm'))) /\
  forall (name : string) (armer : User) (s : State World),
    let '(resp1, s1, t1) :=
      run readPin SendMail (arm name armer) (set_cfgMgr (engine (cfg cm)) s) in
    let '(resp2, s2, t2) :=
      run readPin SendMail (arm name armer) (set_cfgMgr (engine (cfg cm')) s) in
    resp2 = resp1 /\ t2 = t1 /\ currentMode s2 = currentMode s1 /\
    testMode s2 = testMode s1 /\ triggered s2 = triggered s1 /\
    (resp1 = Success -> activeIDs s2 = activeIDs s1).
Proof.
  intros Hfree Hadmin Hname Hspace.
  unfold handleArmModes, afterUpdate, cm_Update. rewrite Hadmin, Hfree.
  cbn [negb String.eqb Ascii.eqb Bool.eqb fst snd].
  destruct (String.eqb_spec (am_Name req) "") as [|_]; [contradiction|].
  cbn [Call_map cfg withArmModes engine ArmModes].
  split; [destruct saveErr; reflexivity|].
  split; [apply upsertArmMode_names|].
  intros name armer s. unfold arm. rewrite !run_handleArm. cbv zeta.
  cbn [cfgMgr set_cfgMgr ArmModes Zones].
  destruct (isTestSoftName _); [repeat split|].
  destruct (isTestWiringName _); [repeat split|].
  rewrite upsertArmMode_lookup, (untrimmed_never_matches _ name Hspace).
  destruct (armActiveZones (ArmModes (engine (cfg cm))) (strings.TrimSpace name)) as [zs|] eqn:E.
  - repeat split. intros _. unfold activeIDs.
    cbn [currentMode testMode cfgMgr set_triggered set_testMode set_currentMode set_cfgMgr
         ArmModes Z.eqb orb].
    rewrite upsertArmMode_lookup, (untrimmed_never_matches _ name Hspace). reflexivity.
  - repeat split. intros H. discriminate H.
Qed.

End Untrimmed.


(** * Accounts *)

Section AccountRequests.
Context {G : strings.Lib}.

Lemma hasUser_In (users : list User) (n : string) :
  hasUser users n = true <-> In n (map Username users).
Proof.
  unfold hasUser. rewrite existsb_exists, in_map_iff. split.
  - intros (u & Hin & He). apply String.eqb_eq in He. eauto.
  - intros (u & He & Hin). exists u. split; [exact Hin | apply String.eqb_eq; exact He].
Qed.

Lemma hasUser_app (users more : list User) (n : string) :
  hasUser (users ++ more) n = hasUser users n || hasUser more n.
Proof. apply existsb_app. Qed.

Lemma findUserFrom_spec (users : list User) (n : string) (i : Z) :
  (hasUser users n = false /\ findUserFrom users n i = (noUser, (-1)%Z)) \/
  (hasUser users n = true /\ In (fst (findUserFrom users n i)) users /\
   Username (fst (findUserFrom users n i)) = n).
Proof.
  revert i. induction users as [|u rest IH]; intros i; cbn [findUserFrom hasUser existsb].
  - left. split; reflexivity.
  - destruct (String.eqb_spec (Username u) n) as [He|He]; cbn [orb fst].
    + right. split; [reflexivity|]. split; [left; reflexivity | exact He].
    + destruct (IH (i + 1)%Z) as [[H1 H2]|(H1 & H2 & H3)].
      * left. split; [exact H1 | exact H2].
      * right. split; [exact H1|]. split; [right; exact H2 | exact H3].
Qed.

Lemma findUserFrom_shift (users : list User) (n : string) (i j : Z) :
  fst (findUserFrom users n i) = fst (findUserFrom users n j).
Proof.
  revert i j. induction users as [|u rest IH]; intros i j; cbn [findUserFrom]; [reflexivity|].
  destruct (String.eqb (Username u) n); [reflexivity | apply IH].
Qed.

Lemma findUserFrom_app (users more : list User) (n : string) (i : Z) :
  fst (findUserFrom (users ++ more) n i) =
    if hasUser users n then fst (findUserFrom users n i)
    else fst (findUserFrom more n i).
Proof.
  revert i. induction users as [|u rest IH]; intros i; cbn [findUserFrom hasUser existsb app].
  - reflexivity.
  - destruct (String.eqb (Username u) n); cbn [orb]; [reflexivity|].
    rewrite IH. fold (hasUser rest n). destruct (hasUser rest n); [reflexivity|].
    apply findUserFrom_shift.
Qed.

Lemma patchUser_spec (users : list User) (n : string) (patch : UserPatch)
  (hashed : option string) :
  match patchUser users n patch hashed with
  | None => hasUser users n = true /\ up_Password patch <> None /\ hashed = None
  | Some None => hasUser users n = false
  | Some (Some users') =>
      hasUser users n = true /\
      map Username users' = map Username users /\
      (forall i, fst (findUserFrom users' n i) =
                 patched (fst (findUserFrom users n i)) patch hashed) /\
      (forall n' i, n' <> n -> fst (findUserFrom users' n' i) = fst (findUserFrom users n' i))
  end.
Proof.
  destruct patch as [pw adm].
  induction users as [|u rest IH]; cbn [patchUser hasUser existsb]; [reflexivity|].
  fold (hasUser rest n). set (patch := {| up_Password := pw; up_Admin := adm |}) in *.
  destruct (String.eqb_spec (Username u) n) as [He|He]; cbn [orb].
  - assert (Hok : forall users',
      users' = patched u patch hashed :: rest ->
      true = true /\ map Username users' = map Username (u :: rest) /\
      (forall i, fst (findUserFrom users' n i) =
                 patched (fst (findUserFrom (u :: rest) n i)) patch hashed) /\
      (forall n' i, n' <> n ->
         fst (findUserFrom users' n' i) = fst (findUserFrom (u :: rest) n' i))).
    { intros users' ->. split; [reflexivity|]. split; [reflexivity|]. split.
      - intros i. cbn [findUserFrom patched Username].
        destruct (String.eqb_spec (Username u) n); [reflexivity | contradiction].
      - intros n' i Hne. cbn [findUserFrom patched Username].
        destruct (String.eqb_spec (Username u) n'); [congruence | reflexivity]. }
    subst patch. cbn [up_Password up_Admin] in *.
    destruct pw as [pw|], hashed as [h|]; try (apply Hok; reflexivity).
    split; [reflexivity|]. split; [discriminate | reflexivity].
  - destruct (patchUser rest n patch hashed) as [[rest'|]|]; [|exact IH|exact IH].
    destruct IH as (H1 & H2 & H3 & H4). split; [exact H1|].
    split; [cbn [map]; f_equal; exact H2|]. split.
    + intros i. cbn [findUserFrom].
      destruct (String.eqb_spec (Username u) n); [contradiction|]. apply H3.
    + intros n' i Hne. cbn [findUserFrom].
      destruct (String.eqb (Username u) n'); [reflexivity|]. apply H4. exact Hne.
Qed.

Lemma removeUser_spec (users : list User) (n : string) :
  match removeUser users n with
  | None => hasUser users n = false
  | Some users' =>
      hasUser users n = true /\
      sublist users' users /\
      (forall n' i, n' <> n -> fst (findUserFrom users' n' i) = fst (findUserFrom users n' i)) /\
      (forall n', n' <> n -> hasUser users' n' = hasUser users n') /\
      (NoDup (map Username users) -> hasUser users' n = false)
  end.
Proof.
  induction users as [|u rest IH]; cbn [removeUser hasUser existsb]; [reflexivity|].
  fold (hasUser rest n).
  destruct (String.eqb_spec (Username u) n) as [He|He]; cbn [orb].
  - split; [reflexivity|]. split; [apply sublist_cons; reflexivity|]. split; [|split].
    + intros n' i Hne. cbn [findUserFrom].
      destruct (String.eqb_spec (Username u) n'); [congruence|]. apply findUserFrom_shift.
    + intros n' Hne. cbn [hasUser existsb].
      destruct (String.eqb_spec (Username u) n'); [congruence | reflexivity].
    + cbn [map]. intros Hnd. apply NoDup_cons in Hnd. destruct Hnd as [Hnotin _].
      destruct (hasUser rest n) eqn:E; [|reflexivity].
      exfalso. apply Hnotin. rewrite He. apply list_elem_of_In, hasUser_In. exact E.
  - destruct (removeUser rest n) as [rest'|]; [|exact IH].
    destruct IH as (H1 & H2 & H3 & H4 & H5). split; [exact H1|].
    split; [apply sublist_skip; exact H2|]. split; [|split].
    + intros n' i Hne. cbn [findUserFrom].
      destruct (String.eqb (Username u) n'); [reflexivity|]. apply H3. exact Hne.
    + intros n' Hne. cbn [hasUser existsb]. fold (hasUser rest' n') (hasUser rest n').
      rewrite (H4 n' Hne). reflexivity.
    + cbn [map]. intros Hnd. apply NoDup_cons in Hnd. destruct Hnd as [_ Hnd].
      cbn [hasUser existsb]. fold (hasUser rest' n).
      destruct (String.eqb_spec (Username u) n); [contradiction|]. apply H5. exact Hnd.
Qed.

(** X16.  Under every request to [handleUsers] and [handleUserByID], user
    names that are pairwise distinct stay so, and an account named admin
    stays in the configuration. *)
Theorem account_requests_keep_names (method : string) (path : option string)
  (body : option UserReq) (patch : option UserPatch) (hashed : option string)
  (user : User) (saveErr : option string) (cm : ConfigManager) :
  let after1 := Users (cfg (snd (handleUsers method body hashed user saveErr cm))) in
  let after2 := Users (cfg (snd (handleUserByID method path patch hashed user saveErr cm))) in
  (NoDup (map Username (Users (cfg cm))) ->
     NoDup (map Username after1) /\ NoDup (map Username after2)) /\
  (hasUser (Users (cfg cm)) "admin" = true ->
     hasUser after1 "admin" = true /\ hasUser after2 "admin" = true).
Proof.
  cbv zeta.
  assert (H1 : forall P : list User -> Prop,
    P (Users (cfg cm)) ->
    (forall req h, hasUser (Users (cfg cm)) (ur_Username req) = false ->
       P (Users (cfg cm) ++ [{| Username := ur_Username req; PasswordHash := h;
                                Admin := ur_Admin req |}])) ->
    P (Users (cfg (snd (handleUsers method body hashed user saveErr cm))))).
  { intros P Hsame Hadd. unfold handleUsers.
    destruct (negb (Admin user)); [exact Hsame|].
    destruct (String.eqb method "GET"); [exact Hsame|].
    destruct (String.eqb method "POST"); [|exact Hsame].
    destruct body as [req|]; [|exact Hsame].
    destruct (_ || _); [exact Hsame|].
    unfold afterUpdate. cbn [snd].
    match goal with |- context [cm_Update ?fn _ _] =>
      destruct (cm_Update_cfg fn saveErr cm) as [->|(e & c & Hfn & ->)] end; [exact Hsame|].
    destruct (hasUser (Users (cfg cm)) (ur_Username req)) eqn:E.
    - injection Hfn as _ <-. exact Hsame.
    - destruct hashed as [h|]; [|discriminate]. injection Hfn as _ <-.
      cbn [withUsers Users]. apply Hadd. exact E. }
  assert (H2 : forall P : list User -> Prop,
    P (Users (cfg cm)) ->
    (forall n p users', patchUser (Users (cfg cm)) n p hashed = Some (Some users') -> P users') ->
    (forall n users', n <> "admin" -> removeUser (Users (cfg cm)) n = Some users' -> P users') ->
    P (Users (cfg (snd (handleUserByID method path patch hashed user saveErr cm))))).
  { intros P Hsame Hput Hdel. unfold handleUserByID.
    destruct (negb (Admin user)); [exact Hsame|].
    destruct path as [n|]; [|exact Hsame].
    destruct (String.eqb method "PUT").
    - destruct patch as [p|]; [|exact Hsame].
      unfold afterUpdate. cbn [snd].
      match goal with |- context [cm_Update ?fn _ _] =>
        destruct (cm_Update_cfg fn saveErr cm) as [->|(e & c & Hfn & ->)] end; [exact Hsame|].
      destruct (patchUser (Users (cfg cm)) n p hashed) as [[users'|]|] eqn:E;
        [| |discriminate]; injection Hfn as _ <-; [|exact Hsame].
      cbn [withUsers Users]. exact (Hput n p users' E).
    - destruct (String.eqb method "DELETE"); [|exact Hsame].
      destruct (String.eqb_spec n "admin") as [|Hne]; [exact Hsame|].
      unfold afterUpdate. cbn [snd].
      match goal with |- context [cm_Update ?fn _ _] =>
        destruct (cm_Update_cfg fn saveErr cm) as [->|(e & c & Hfn & ->)] end; [exact Hsame|].
      destruct (removeUser (Users (cfg cm)) n) as [users'|] eqn:E;
        injection Hfn as _ <-; [|exact Hsame].
      cbn [withUsers Users]. exact (Hdel n users' Hne E). }
  split.
  - intros Hnd. split.
    + apply H1; [exact Hnd|]. intros req h Hnew.
      rewrite map_app. cbn [map Username]. apply NoDup_app.
      split; [exact Hnd|]. split; [|apply NoDup_singleton].
      intros x Hx Hx'. apply list_elem_of_In in Hx, Hx'. destruct Hx' as [<-|[]].
      apply hasUser_In in Hx. congruence.
    + apply H2; [exact Hnd | |].
      * intros n p users' E. pose proof (patchUser_spec (Users (cfg cm)) n p hashed) as Hp.
        rewrite E in Hp. destruct Hp as (_ & -> & _). exact Hnd.
      * intros n users' _ E. pose proof (removeUser_spec (Users (cfg cm)) n) as Hr.
        rewrite E in Hr. destruct Hr as (_ & Hsub & _).
        exact (sublist_NoDup _ _ Hnd (fmap_sublist Username _ _ Hsub)).
  - intros Hadm. split.
    + apply H1; [exact Hadm|]. intros req h _. rewrite hasUser_app, Hadm. reflexivity.
    + apply H2; [exact Hadm | |].
      * intros n p users' E. pose proof (patchUser_spec (Users (cfg cm)) n p hashed) as Hp.
        rewrite E in Hp. destruct Hp as (_ & Hnames & _).
        apply hasUser_In. rewrite Hnames. apply hasUser_In. exact Hadm.
      * intros n users' Hne E. pose proof (removeUser_spec (Users (cfg cm)) n) as Hr.
        rewrite E in Hr. destruct Hr as (_ & _ & _ & Hkeep & _).
        rewrite Hkeep by congruence. exact Hadm.
Qed.

Lemma findUserFrom_found (users : list User) (n : string) (i : Z) :
  fst (findUserFrom users n i) = noUser \/
  (In (fst (findUserFrom users n i)) users /\ Username (fst (findUserFrom users n i)) = n).
Proof.
  destruct (findUserFrom_spec users n i) as [[_ ->]|(_ & H1 & H2)];
    [left; reflexivity | right; split; assumption].
Qed.

(** X17.  The account admin cannot be deleted, but a PUT can take its
    administrator right away.  When it is the only administrator, no
    session is an administrator's afterwards: every request to
    [handleUsers], [handleUserByID], [handleZoneByID] and [handleLogs], and
    every POST on zones and profiles, is answered 403. *)
Theorem last_admin_can_be_demoted (hashed : option string) (user : User)
  (saveErr : option string) (cm : ConfigManager) :
  muHeld cm = false -> Admin user = true ->
  hasUser (Users (cfg cm)) "admin" = true ->
  (forall u, In u (Users (cfg cm)) -> Admin u = true -> Username u = "admin") ->
  let '(res, cm') :=
    handleUserByID "PUT" (Some "admin")
      (Some {| up_Password := None; up_Admin := Some false |}) hashed user saveErr cm in
  res = Returned match saveErr with
                 | None => (ReplyHeader StatusNoContent,
                            [LogUpdateUser "admin" (Username user)])
                 | Some e => (notFoundOr500 e, [])
                 end /\
  muHeld cm' = false /\
  forall cookie now sm u,
    withAuth cookie now sm cm' = Returned (inr u) ->
    Admin u = false /\
    (forall method body h e,
       handleUsers method body h u e cm' =
         (Returned (ReplyError "forbidden" StatusForbidden, []), cm')) /\
    (forall method path body h e,
       handleUserByID method path body h u e cm' =
         (Returned (ReplyError "forbidden" StatusForbidden, []), cm')) /\
    (forall method path body e,
       handleZoneByID method path body u e cm' =
         (Returned (ReplyError "forbidden" StatusForbidden, []), cm')) /\
    (forall bits body e,
       handleZones bits "POST" body u e cm' =
         (Returned (ReplyError "forbidden" StatusForbidden, []), cm')) /\
    (forall body e,
       handleArmModes "POST" body u e cm' =
         (Returned (ReplyError "forbidden" StatusForbidden, []), cm')) /\
    (forall lines file,
       handleLogs u lines file cm' = Returned (ReplyError "forbidden" StatusForbidden)).
Proof.
  intros Hfree Hadmin Hhas Honly.
  unfold handleUserByID, afterUpdate, cm_Update. rewrite Hadmin, Hfree.
  cbn [negb String.eqb Ascii.eqb Bool.eqb fst snd].
  set (patch := {| up_Password := None; up_Admin := Some false |}).
  pose proof (patchUser_spec (Users (cfg cm)) "admin" patch hashed) as Hp.
  destruct (patchUser (Users (cfg cm)) "admin" patch hashed) as [[users'|]|].
  2: { congruence. }
  2: { destruct Hp as (_ & Hpw & _). exfalso. apply Hpw. reflexivity. }
  destruct Hp as (_ & _ & Hthis & Hothers).
  cbn [Call_map]. split; [destruct saveErr; reflexivity|]. split; [reflexivity|].
  intros cookie now sm u Hauth.
  assert (Hu : Admin u = false).
  { unfold withAuth in Hauth. destruct cookie as [value|]; [|discriminate].
    destruct (sm_Get value now sm) as [sess|]; [|discriminate].
    unfold cm_FindUser in Hauth. cbn [snd muHeld cfg withUsers Users Call_map] in Hauth.
    destruct (String.eqb (Username _) ""); [discriminate|]. injection Hauth as <-.
    destruct (String.eqb_spec (sess_Username sess) "admin") as [->|Hne].
    - rewrite Hthis. reflexivity.
    - rewrite (Hothers _ 0%Z Hne).
      destruct (findUserFrom_found (Users (cfg cm)) (sess_Username sess) 0)
        as [->|[Hin Hname]]; [reflexivity|].
      match goal with |- Admin ?x = false => destruct (Admin x) eqn:E end; [|reflexivity].
      exfalso. apply Hne. rewrite <- Hname. apply Honly; assumption. }
  split; [exact Hu|].
  unfold handleUsers, handleUserByID, handleZoneByID, handleZones, handleArmModes, handleLogs.
  rewrite Hu. cbn [negb String.eqb Ascii.eqb Bool.eqb]. repeat split.
Qed.

Lemma patchUser_hash_failed (users : list User) (n pw : string) (adm : option bool) :
  patchUser users n {| up_Password := Some pw; up_Admin := adm |} None =
    if hasUser users n then None else Some None.
Proof.
  induction users as [|u rest IH]; cbn [patchUser hasUser existsb up_Password]; [reflexivity|].
  fold (hasUser rest n). destruct (String.eqb (Username u) n); cbn [orb]; [reflexivity|].
  rewrite IH. destruct (hasUser rest n); reflexivity.
Qed.

(** X18.  [hashPassword] panics when bcrypt fails, inside the function that
    [Update] runs with the lock of the configuration held and without a
    deferred unlock.  A POST of a new account, or a PUT of a new password
    for an account that exists, then ends in a panic with the lock still
    held and the configuration unchanged; from then on [Get], [FindUser]
    and [Update], and with them [withAuth] and the GET requests on zones
    and profiles, wait for the lock. *)
Theorem failed_hash_keeps_configuration_locked (req : UserReq) (n pw : string)
  (adm : option bool) (user : User) (saveErr : option string) (cm : ConfigManager) :
  muHeld cm = false -> Admin user = true ->
  let stuck := mkCM (cfg cm) true in
  (ur_Username req <> "" -> ur_Password req <> "" ->
   hasUser (Users (cfg cm)) (ur_Username req) = false ->
   handleUsers "POST" (Some req) None user saveErr cm = (Panicked, stuck)) /\
  (hasUser (Users (cfg cm)) n = true ->
   handleUserByID "PUT" (Some n) (Some {| up_Password := Some pw; up_Admin := adm |})
     None user saveErr cm = (Panicked, stuck)) /\
  cm_Get stuck = Blocked /\
  (forall name, cm_FindUser name stuck = Blocked) /\
  (forall fn e, cm_Update fn e stuck = (Blocked, stuck)) /\
  (forall value now sm sess,
     sm_Get value now sm = Some sess -> withAuth (Some value) now sm stuck = Blocked) /\
  (forall bits body u e, handleZones bits "GET" body u e stuck = (Blocked, stuck)) /\
  (forall body u e, handleArmModes "GET" body u e stuck = (Blocked, stuck)).
Proof.
  intros Hfree Hadmin stuck. split; [|split].
  - intros Hn Hp Hnew. unfold handleUsers, afterUpdate, cm_Update.
    rewrite Hadmin, Hfree, Hnew. cbn [negb String.eqb Ascii.eqb Bool.eqb].
    destruct (String.eqb_spec (ur_Username req) "") as [|_]; [contradiction|].
    destruct (String.eqb_spec (ur_Password req) "") as [|_]; [contradiction|].
    reflexivity.
  - intros Hhas. unfold handleUserByID, afterUpdate, cm_Update.
    rewrite Hadmin, Hfree. cbn [negb String.eqb Ascii.eqb Bool.eqb].
    rewrite patchUser_hash_failed, Hhas. reflexivity.
  - repeat split.
    intros value now sm sess Hget. unfold withAuth. rewrite Hget. reflexivity.
Qed.

End AccountRequests.

(** * Sessions *)

Lemma sm_Get_insert (id id' : string) (s : Session) (t : Z) (sm : gmap string Session) :
  sm_Get id' t (<[id := s]> sm) =
    if decide (id = id') then (if (t >? Expires s)%Z then None else Some s)
    else sm_Get id' t sm.
Proof.
  unfold sm_Get. destruct (decide (id = id')) as [->|Hne].
  - rewrite lookup_insert_eq. reflexivity.
  - rewrite lookup_insert_ne by exact Hne. reflexivity.
Qed.

Lemma sm_Get_delete (id id' : string) (t : Z) (sm : gmap string Session) :
  sm_Get id' t (snd (sm_Delete id sm)) = if decide (id = id') then None else sm_Get id' t sm.
Proof.
  unfold sm_Get, sm_Delete. destruct (sm !! id) as [s|] eqn:E; cbn [snd].
  - destruct (decide (id = id')) as [->|Hne].
    + rewrite lookup_delete_eq. reflexivity.
    + rewrite lookup_delete_ne by exact Hne. reflexivity.
  - destruct (decide (id = id')) as [<-|Hne]; [rewrite E|]; reflexivity.
Qed.

Lemma sm_Purge_lookup (now : Z) (id : string) (sm : gmap string Session) (s : Session) :
  sm_Purge now sm !! id = Some s <-> sm !! id = Some s /\ (now <= Expires s)%Z.
Proof.
  unfold sm_Purge. rewrite map_lookup_filter_Some. cbn [snd]. split.
  - intros [H1 H2]. split; [exact H1 | lia].
  - intros [H1 H2]. split; [exact H1 | lia].
Qed.

(** X19.  [Purge] deletes exactly the sessions that have expired when it
    runs, and no later [Get] can tell: at every time from the purge on,
    [Get] returns what it would have returned without the purge. *)
Theorem sm_Purge_is_not_observable (now t : Z) (id : string) (sm : gmap string Session) :
  (now <= t)%Z ->
  sm_Get id t (sm_Purge now sm) = sm_Get id t sm /\
  (forall s, sm_Purge now sm !! id = Some s <-> sm !! id = Some s /\ (now <= Expires s)%Z).
Proof.
  intros Hle. split; [|intros s; apply sm_Purge_lookup].
  unfold sm_Get. destruct (sm !! id) as [s|] eqn:E.
  - destruct (Z.gtb_spec t (Expires s)) as [Hexp|Hlive].
    + destruct (sm_Purge now sm !! id) as [s'|] eqn:E'; [|reflexivity].
      apply sm_Purge_lookup in E'. destruct E' as [E' _]. rewrite E in E'.
      injection E' as <-. destruct (Z.gtb_spec t (Expires s)); [reflexivity | lia].
    + rewrite (proj2 (sm_Purge_lookup now id sm s)) by (split; [exact E | lia]).
      destruct (Z.gtb_spec t (Expires s)); [lia | reflexivity].
  - destruct (sm_Purge now sm !! id) as [s'|] eqn:E'; [|reflexivity].
    apply sm_Purge_lookup in E'. destruct E' as [E' _]. rewrite E in E'. discriminate.
Qed.

Section Logins.
Variable checkPasswordHash : string -> string -> bool.

Lemma cm_Authenticate_found (n p : string) (u : User) (cm : ConfigManager) :
  cm_Authenticate checkPasswordHash n p cm = Returned (Some u) ->
  muHeld cm = false /\ fst (findUserFrom (Users (cfg cm)) n 0) = u /\ Username u <> "" /\
  checkPasswordHash p (PasswordHash u) = true.
Proof.
  unfold cm_Authenticate, cm_FindUser. destruct (muHeld cm); [discriminate|].
  cbn [Call_map fst].
  destruct (String.eqb_spec (Username (fst (findUserFrom (Users (cfg cm)) n 0))) "")
    as [|Hne]; [discriminate|].
  destruct (checkPasswordHash p _) eqn:E; [|discriminate].
  cbn [negb]. intros [= <-]. repeat split; assumption.
Qed.

Lemma withAuth_live (value : string) (t : Z) (sess : Session) (sm : gmap string Session)
  (cm : ConfigManager) :
  muHeld cm = false -> sm_Get value t sm = Some sess ->
  withAuth (Some value) t sm cm =
    let u := fst (findUserFrom (Users (cfg cm)) (sess_Username sess) 0) in
    Returned (if String.eqb (Username u) ""
              then inl (ReplyError "unknown user" StatusUnauthorized) else inr u).
Proof.
  intros Hfree Hget. unfold withAuth, cm_FindUser. rewrite Hget, Hfree. reflexivity.
Qed.

(** X20.  A login with credentials that [Authenticate] accepts is answered
    200 with a session cookie; [withAuth] passes requests that carry the
    cookie to the handler as that user for 24 hours and answers 401
    afterwards; after a logout with the cookie it answers 401 at once.  The
    other sessions are untouched throughout. *)
Theorem login_then_logout (n p sid : string) (u : User) (now : Z)
  (sm : gmap string Session) (cm : ConfigManager) :
  cm_Authenticate checkPasswordHash n p cm = Returned (Some u) ->
  let '(res, sm1) := handleLogin checkPasswordHash "POST" (Some (n, p)) (Some sid) now sm cm in
  res = Returned (ReplyJson StatusOK BodyStatusOk, Some sid, [LogLogin (Username u)]) /\
  (forall t, withAuth (Some sid) t sm1 cm =
             if (t >? now + day)%Z
             then Returned (inl (ReplyError "session expired" StatusUnauthorized))
             else Returned (inr u)) /\
  (forall sid' t, sid' <> sid -> sm_Get sid' t sm1 = sm_Get sid' t sm) /\
  let '(res2, sm2) := handleLogout "POST" (Some sid) sm1 in
  res2 = (ReplyHeader StatusNoContent, [LogLogout]) /\
  (forall t, withAuth (Some sid) t sm2 cm =
             Returned (inl (ReplyError "session expired" StatusUnauthorized))) /\
  (forall sid' t, sid' <> sid -> sm_Get sid' t sm2 = sm_Get sid' t sm).
Proof.
  intros Hauth. unfold handleLogin. rewrite Hauth.
  cbn [negb String.eqb Ascii.eqb Bool.eqb sm_Create].
  destruct (cm_Authenticate_found _ _ _ _ Hauth) as (Hfree & Hfound & Hname & _).
  assert (Hsame : Username u = n).
  { destruct (findUserFrom_found (Users (cfg cm)) n 0) as [H|[_ H]].
    - exfalso. apply Hname. rewrite <- Hfound, H. reflexivity.
    - rewrite Hfound in H. exact H. }
  split; [reflexivity|]. split; [|split].
  - intros t. unfold withAuth. rewrite sm_Get_insert.
    destruct (decide (sid = sid)) as [_|]; [|contradiction]. cbn [Expires].
    destruct (t >? now + day)%Z; [reflexivity|].
    unfold cm_FindUser. rewrite Hfree. cbn [Call_map sess_Username fst].
    rewrite Hsame, Hfound.
    destruct (String.eqb_spec (Username u) ""); [contradiction | reflexivity].
  - intros sid' t Hne. rewrite sm_Get_insert.
    destruct (decide (sid = sid')); [congruence | reflexivity].
  - unfold handleLogout. cbn [negb String.eqb Ascii.eqb Bool.eqb].
    split; [reflexivity|]. split.
    + intros t. unfold withAuth. rewrite sm_Get_delete.
      destruct (decide (sid = sid)); [reflexivity | contradiction].
    + intros sid' t Hne. rewrite sm_Get_delete.
      destruct (decide (sid = sid')); [congruence|]. rewrite sm_Get_insert.
      destruct (decide (sid = sid')); [congruence | reflexivity].
Qed.

(** X21.  A POST on /api/users by an administrator with a name that is not
    in use appends the account with the hash of the password; with a
    password check that accepts the password against that hash, the new
    account authenticates and logs in, and the accounts that existed
    authenticate as before. *)
Theorem created_user_can_log_in (req : UserReq) (h sid : string) (user : User)
  (saveErr : option string) (now : Z) (sm : gmap string Session) (cm : ConfigManager) :
  muHeld cm = false -> Admin user = true ->
  ur_Username req <> "" -> ur_Password req <> "" ->
  hasUser (Users (cfg cm)) (ur_Username req) = false ->
  checkPasswordHash (ur_Password req) h = true ->
  let account := {| Username := ur_Username req; PasswordHash := h; Admin := ur_Admin req |} in
  let '(res, cm') := handleUsers "POST" (Some req) (Some h) user saveErr cm in
  res = Returned match saveErr with
                 | None => (ReplyHeader StatusCreated,
                            [LogCreateUser (ur_Username req) (Username user)])
                 | Some e => if String.eqb e "exists"
                             then (ReplyError "user exists" StatusBadRequest, [])
                             else (ReplyError "internal error" StatusInternalServerError, [])
                 end /\
  Users (cfg cm') = Users (cfg cm) ++ [account] /\
  cm_Authenticate checkPasswordHash (ur_Username req) (ur_Password req) cm' =
    Returned (Some account) /\
  handleLogin checkPasswordHash "POST" (Some (ur_Username req, ur_Password req))
    (Some sid) now sm cm' =
    (Returned (ReplyJson StatusOK BodyStatusOk, Some sid, [LogLogin (ur_Username req)]),
     <[sid := mkSession (ur_Username req) (now + day)]> sm) /\
  (forall n p, hasUser (Users (cfg cm)) n = true ->
     cm_Authenticate checkPasswordHash n p cm' = cm_Authenticate checkPasswordHash n p cm).
Proof.
  intros Hfree Hadmin Hn Hp Hnew Hcheck account.
  unfold handleUsers, afterUpdate, cm_Update. rewrite Hadmin, Hfree, Hnew.
  cbn [negb String.eqb Ascii.eqb Bool.eqb].
  destruct (String.eqb_spec (ur_Username req) "") as [|_]; [contradiction|].
  destruct (String.eqb_spec (ur_Password req) "") as [|_]; [contradiction|].
  cbn [orb fst snd Call_map cfg withUsers Users]. fold account.
  assert (Hauth : cm_Authenticate checkPasswordHash (ur_Username req) (ur_Password req)
                    {| cfg := withUsers (Users (cfg cm) ++ [account]) (cfg cm);
                       muHeld := false |} = Returned (Some account)).
  { unfold cm_Authenticate, cm_FindUser. cbn [muHeld cfg withUsers Users Call_map].
    rewrite findUserFrom_app, Hnew. cbn [findUserFrom account Username fst].
    rewrite String.eqb_refl. cbn [fst]. unfold account at 1 2. cbn [Username PasswordHash].
    destruct (String.eqb_spec (ur_Username req) "") as [|_]; [contradiction|].
    rewrite Hcheck. reflexivity. }
  split; [destruct saveErr; reflexivity|]. split; [reflexivity|].
  split; [exact Hauth|]. split.
  - unfold handleLogin. rewrite Hauth. reflexivity.
  - intros n p Hhas. unfold cm_Authenticate, cm_FindUser. rewrite Hfree.
    cbn [muHeld cfg withUsers Users Call_map]. rewrite findUserFrom_app, Hhas. reflexivity.
Qed.

End Logins.

(** X22.  Sessions hold the user name and are not dropped with the account.
    After the account is deleted, a live session of it is answered 401
    (unknown user); after an account of the same name is created, the old
    session is passed to the handlers again, as the new account with the
    rights of the new account. *)
Theorem session_outlives_account (n sid : string) (t : Z) (sess : Session) (req : UserReq)
  (h : string) (user : User) (e1 e2 : option string)
  (sm : gmap string Session) (cm : ConfigManager) :
  muHeld cm = false -> Admin user = true -> n <> "admin" -> n <> "" ->
  NoDup (map Username (Users (cfg cm))) -> hasUser (Users (cfg cm)) n = true ->
  sm_Get sid t sm = Some sess -> sess_Username sess = n ->
  ur_Username req = n -> ur_Password req <> "" ->
  let '(_, cm1) := handleUserByID "DELETE" (Some n) None None user e1 cm in
  withAuth (Some sid) t sm cm1 =
    Returned (inl (ReplyError "unknown user" StatusUnauthorized)) /\
  let '(_, cm2) := handleUsers "POST" (Some req) (Some h) user e2 cm1 in
  withAuth (Some sid) t sm cm2 =
    Returned (inr {| Username := n; PasswordHash := h; Admin := ur_Admin req |}).
Proof.
  intros Hfree Hadmin Hna Hne Hnd Hhas Hget Hsess Hreq Hpw.
  unfold handleUserByID, afterUpdate, cm_Update. rewrite Hadmin, Hfree.
  cbn [negb String.eqb Ascii.eqb Bool.eqb].
  destruct (String.eqb_spec n "admin") as [|_]; [contradiction|].
  pose proof (removeUser_spec (Users (cfg cm)) n) as Hr.
  destruct (removeUser (Users (cfg cm)) n) as [users1|]; [|congruence].
  destruct Hr as (_ & _ & _ & _ & Hgone). specialize (Hgone Hnd). cbn [snd].
  split.
  - rewrite (withAuth_live sid t sess) by (try exact Hget; reflexivity).
    cbn [cfg withUsers Users]. rewrite Hsess.
    destruct (findUserFrom_spec users1 n 0) as [[_ ->]|[H _]]; [reflexivity | congruence].
  - unfold handleUsers, afterUpdate, cm_Update. rewrite Hadmin.
    cbn [negb String.eqb Ascii.eqb Bool.eqb muHeld cfg withUsers Users].
    rewrite Hreq, Hgone.
    destruct (String.eqb_spec n "") as [|_]; [contradiction|].
    destruct (String.eqb_spec (ur_Password req) "") as [|_]; [contradiction|].
    cbn [orb snd].
    rewrite (withAuth_live sid t sess) by (try exact Hget; reflexivity).
    cbn [cfg withUsers Users]. rewrite Hsess, findUserFrom_app, Hgone.
    cbn [findUserFrom Username fst]. rewrite String.eqb_refl. cbn [fst Username].
    destruct (String.eqb_spec n "") as [|_]; [contradiction | reflexivity].
Qed.

(** * The event log *)

Lemma append_cons (x : ascii) (a b : string) : String x a +:+ b = String x (a +:+ b).
Proof. reflexivity. Qed.

Lemma append_empty (b : string) : "" +:+ b = b.
Proof. reflexivity. Qed.

Lemma append_assoc' (a b c : string) : (a +:+ b) +:+ c = a +:+ (b +:+ c).
Proof.
  induction a as [|x a IH]; [reflexivity|]. rewrite !append_cons. f_equal. exact IH.
Qed.

Lemma hasNewline_app (a b : string) :
  hasNewline (a +:+ b) = hasNewline a || hasNewline b.
Proof.
  induction a as [|x a IH]; [reflexivity|]. rewrite append_cons. cbn [hasNewline].
  rewrite IH, orb_assoc. reflexivity.
Qed.

Lemma splitLines_line (l rest : string) :
  hasNewline l = false ->
  splitLines (l +:+ String newline rest) = l :: splitLines rest.
Proof.
  induction l as [|c l IH]; intros H.
  - rewrite append_empty. cbn [splitLines]. rewrite Ascii.eqb_refl. reflexivity.
  - rewrite append_cons. cbn [hasNewline splitLines] in *.
    apply orb_false_iff in H. destruct H as [Hc Hl]. rewrite Hc, (IH Hl). reflexivity.
Qed.

Lemma splitLines_nonempty (s : string) : splitLines s <> [].
Proof.
  induction s as [|c s IH]; cbn [splitLines]; [discriminate|].
  destruct (Ascii.eqb c newline); [discriminate|].
  destruct (splitLines s); discriminate.
Qed.

Lemma splitLines_unlines (ls : list string) :
  (forall l, In l ls -> hasNewline l = false) ->
  splitLines (unlines ls) = ls ++ [""].
Proof.
  induction ls as [|l ls IH]; intros H; cbn [unlines fold_right app]; [reflexivity|].
  rewrite splitLines_line by (apply H; left; reflexivity).
  fold (unlines ls). rewrite IH; [reflexivity|]. intros l' Hin. apply H. right. exact Hin.
Qed.

Lemma unlines_app (a b : list string) : unlines (a ++ b) = unlines a +:+ unlines b.
Proof.
  induction a as [|l a IH]; cbn [unlines fold_right app]; [reflexivity|].
  fold (unlines (a ++ b)) (unlines a). rewrite IH, append_assoc', append_cons. reflexivity.
Qed.

Lemma logFile_unlines (entries : list (string * string)) :
  logFile entries = unlines (map logLine entries).
Proof.
  unfold logFile.
  assert (H : forall file done,
    file = unlines done ->
    fold_left (fun file entry => Log_append (fst entry) (snd entry) file) entries file =
      unlines (done ++ map logLine entries)).
  { induction entries as [|e rest IH]; intros file done Hf; cbn [fold_left map].
    - rewrite app_nil_r. exact Hf.
    - rewrite (IH _ (done ++ [logLine e])).
      + rewrite <- app_assoc. reflexivity.
      + rewrite unlines_app, Hf. unfold Log_append, logLine.
        cbn [unlines fold_right]. rewrite !append_assoc'. reflexivity. }
  exact (H "" [] eq_refl).
Qed.

Lemma List_last_snoc (A : Type) (l : list A) (x d : A) : List.last (l ++ [x]) d = x.
Proof. apply List.last_last. Qed.

Lemma lastLines_complete (limit : Z) (ls : list string) :
  (0 < limit)%Z -> (forall l, In l ls -> hasNewline l = false) ->
  lastLines limit (unlines ls) = skipn (length ls - Z.to_nat limit) ls.
Proof.
  intros Hl H. unfold lastLines. rewrite (splitLines_unlines ls H).
  rewrite length_app, List_last_snoc. cbn [length String.eqb andb].
  replace (0 <? length ls + 1)%nat with true by (symmetry; apply Nat.ltb_lt; lia).
  cbn [andb]. replace (length ls + 1 - 1)%nat with (length ls) by lia.
  rewrite firstn_app, Nat.sub_diag, firstn_all. cbn [firstn]. rewrite app_nil_r.
  f_equal. destruct (Z.gtb_spec (Z.of_nat (length ls)) limit); lia.
Qed.

(** X23.  [handleLogs] reads back what [Log] wrote: for a log file written
    by calls of [Log] whose time stamps and messages hold no line feed, an
    administrator gets the last [limit] lines in the order they were
    written, [limit] being the lines parameter when it is a positive number
    and 200 otherwise. *)
Theorem handleLogs_reads_back_Log (user : User) (lines : option Z)
  (entries : list (string * string)) (cm : ConfigManager) :
  Admin user = true -> muHeld cm = false ->
  (forall e, In e entries -> hasNewline (fst e) = false /\ hasNewline (snd e) = false) ->
  let limit := match lines with
               | Some n => if (n >? 0)%Z then n else 200%Z
               | None => 200%Z
               end in
  handleLogs user lines (Some (logFile entries)) cm =
    Returned (ReplyJson StatusOK
      (BodyLines (skipn (length entries - Z.to_nat limit) (map logLine entries)))).
Proof.
  intros Hadmin Hfree Hclean limit.
  unfold handleLogs, cm_Get. rewrite Hadmin, Hfree. cbn [negb Call_map]. fold limit.
  rewrite logFile_unlines, lastLines_complete, length_map; [reflexivity | |].
  - subst limit. destruct lines as [n|]; [|lia]. destruct (Z.gtb_spec n 0); lia.
  - intros l Hin. apply in_map_iff in Hin. destruct Hin as (e & <- & Hin).
    destruct (Hclean e Hin) as [H1 H2]. unfold logLine.
    rewrite !hasNewline_app, H1, H2. reflexivity.
Qed.

(** X24.  For every content of the log file, the answer of [handleLogs] to
    an administrator holds at most [limit] lines.  The file, split at its
    line feeds, is the skipped lines, then the lines of the answer, then
    the one last line when that line is empty, as it is after a final line
    feed: that line, and no other, is left out.  When lines were skipped
    the answer holds exactly [limit] lines. *)
Theorem handleLogs_bound (user : User) (lines : option Z) (data : string) (cm : ConfigManager) :
  Admin user = true -> muHeld cm = false ->
  let limit := match lines with
               | Some n => if (n >? 0)%Z then n else 200%Z
               | None => 200%Z
               end in
  exists ls skipped,
    handleLogs user lines (Some data) cm = Returned (ReplyJson StatusOK (BodyLines ls)) /\
    (Z.of_nat (length ls) <= limit)%Z /\
    splitLines data =
      skipped ++ ls ++
      (if String.eqb (List.last (splitLines data) "x") "" then [""] else []) /\
    (skipped <> [] -> Z.of_nat (length ls) = limit).
Proof.
  intros Hadmin Hfree limit.
  assert (Hpos : (0 < limit)%Z).
  { subst limit. destruct lines as [n|]; [|lia]. destruct (Z.gtb_spec n 0); lia. }
  unfold handleLogs, cm_Get. rewrite Hadmin, Hfree. cbn [negb Call_map]. fold limit.
  unfold lastLines.
  set (all := splitLines data).
  set (kept := if (0 <? length all)%nat && String.eqb (List.last all "x") ""
               then firstn (length all - 1) all else all).
  set (start := Z.to_nat (if (Z.of_nat (length kept) >? limit)%Z
                          then Z.of_nat (length kept) - limit else 0)%Z).
  exists (skipn start kept), (firstn start kept).
  split; [reflexivity|].
  assert (Hstart : (start <= length kept)%nat /\
                   (Z.of_nat (length kept - start) <= limit)%Z /\
                   (start <> 0%nat -> Z.of_nat (length kept - start) = limit)).
  { subst start. destruct (Z.gtb_spec (Z.of_nat (length kept)) limit); lia. }
  destruct Hstart as (H1 & H2 & H3).
  split; [rewrite length_skipn; exact H2|]. split.
  - subst kept.
    assert (Hlen : (0 <? length all)%nat = true).
    { apply Nat.ltb_lt. pose proof (splitLines_nonempty data) as Hne. fold all in Hne.
      destruct all; [contradiction | cbn [length]; lia]. }
    rewrite Hlen. cbn [andb].
    destruct (String.eqb (List.last all "x") "") eqn:E.
    + rewrite app_assoc, firstn_skipn.
      apply String.eqb_eq in E.
      destruct (exists_last (splitLines_nonempty data)) as (init & x & Hall).
      fold all in Hall. rewrite Hall in E |- *. rewrite List_last_snoc in E. subst x.
      rewrite length_app. cbn [length].
      replace (length init + 1 - 1)%nat with (length init) by lia.
      rewrite firstn_app, Nat.sub_diag, firstn_all. cbn [firstn]. rewrite app_nil_r.
      reflexivity.
    + rewrite app_nil_r, firstn_skipn. reflexivity.
  - intros Hsk. rewrite length_skipn. apply H3. intros ->. apply Hsk. reflexivity.
Qed.

(** * The functions on ASCII text *)

Lemma N_of_ascii_lt (c : ascii) : (N_of_ascii c < 256)%N.
Proof. apply N_ascii_bounded. Qed.

Lemma ascii_N_inj (a b : ascii) : N_of_ascii a = N_of_ascii b -> a = b.
Proof.
  intros H. rewrite <- (ascii_N_embedding a), <- (ascii_N_embedding b), H. reflexivity.
Qed.

Lemma toLowerByte_N (c : ascii) :
  N_of_ascii (strings.toLowerByte c) =
    (if strings.isUpper c then N_of_ascii c + 32 else N_of_ascii c)%N.
Proof.
  unfold strings.toLowerByte. destruct (strings.isUpper c) eqn:E; [|reflexivity].
  apply N_ascii_embedding. unfold strings.isUpper in E.
  apply andb_true_iff in E. destruct E as [_ E]. apply N.leb_le in E. lia.
Qed.

Lemma isUpper_N (c : ascii) :
  strings.isUpper c = true <-> (65 <= N_of_ascii c <= 90)%N.
Proof.
  unfold strings.isUpper. rewrite andb_true_iff, !N.leb_le. tauto.
Qed.

Lemma foldEq_N (a b : ascii) :
  strings.foldEq a b = true <->
  (N_of_ascii a = N_of_ascii b
   \/ (65 <= N_of_ascii a <= 90 /\ N_of_ascii b = N_of_ascii a + 32)
   \/ (65 <= N_of_ascii b <= 90 /\ N_of_ascii a = N_of_ascii b + 32))%N.
Proof.
  unfold strings.foldEq. cbv zeta.
  rewrite orb_true_iff, !andb_true_iff, !N.leb_le, !N.eqb_eq. lia.
Qed.

Lemma foldEq_toLower (a b : ascii) :
  strings.foldEq a b = true <-> strings.toLowerByte a = strings.toLowerByte b.
Proof.
  rewrite foldEq_N.
  pose proof (N_of_ascii_lt a). pose proof (N_of_ascii_lt b).
  pose proof (isUpper_N a) as Ua. pose proof (isUpper_N b) as Ub.
  split.
  - intros H1. apply ascii_N_inj. rewrite !toLowerByte_N.
    destruct (strings.isUpper a), (strings.isUpper b);
      try (assert (~ (65 <= N_of_ascii a <= 90)%N) by (intros ?; assert (false = true) by tauto; discriminate));
      try (assert (~ (65 <= N_of_ascii b <= 90)%N) by (intros ?; assert (false = true) by tauto; discriminate));
      try (assert (65 <= N_of_ascii a <= 90)%N by tauto);
      try (assert (65 <= N_of_ascii b <= 90)%N by tauto);
      lia.
  - intros H1. apply (f_equal N_of_ascii) in H1. rewrite !toLowerByte_N in H1.
    destruct (strings.isUpper a), (strings.isUpper b);
      try (assert (~ (65 <= N_of_ascii a <= 90)%N) by (intros ?; assert (false = true) by tauto; discriminate));
      try (assert (~ (65 <= N_of_ascii b <= 90)%N) by (intros ?; assert (false = true) by tauto; discriminate));
      try (assert (65 <= N_of_ascii a <= 90)%N by tauto);
      try (assert (65 <= N_of_ascii b <= 90)%N by tauto);
      lia.
Qed.

Lemma asciiEqualFold_ToLower (s t : string) :
  strings.asciiEqualFold s t = true <-> strings.asciiToLower s = strings.asciiToLower t.
Proof.
  revert t. induction s as [|a s IH]; intros [|b t]; cbn; try (split; congruence).
  rewrite andb_true_iff, foldEq_toLower, IH. split.
  - intros [-> ->]. reflexivity.
  - intros [= H1 H2]. auto.
Qed.

Lemma asciiEqualFold_refl (s : string) : strings.asciiEqualFold s s = true.
Proof. apply asciiEqualFold_ToLower. reflexivity. Qed.

Lemma asciiEqualFold_congr (s t u : string) :
  strings.asciiEqualFold s t = true -> strings.asciiEqualFold s u = strings.asciiEqualFold t u.
Proof.
  intros H. apply asciiEqualFold_ToLower in H.
  destruct (strings.asciiEqualFold s u) eqn:E1, (strings.asciiEqualFold t u) eqn:E2; try reflexivity.
  - apply asciiEqualFold_ToLower in E1. rewrite H in E1. apply asciiEqualFold_ToLower in E1. congruence.
  - apply asciiEqualFold_ToLower in E2. rewrite <- H in E2. apply asciiEqualFold_ToLower in E2. congruence.
Qed.

Lemma asciiEqualFold_sym (s t : string) : strings.asciiEqualFold s t = strings.asciiEqualFold t s.
Proof.
  destruct (strings.asciiEqualFold s t) eqn:E1, (strings.asciiEqualFold t s) eqn:E2; try reflexivity.
  - apply asciiEqualFold_ToLower in E1. symmetry in E1. apply asciiEqualFold_ToLower in E1. congruence.
  - apply asciiEqualFold_ToLower in E2. symmetry in E2. apply asciiEqualFold_ToLower in E2. congruence.
Qed.

Lemma isSpace_N (c : ascii) :
  strings.isSpace c = true <->
  (N_of_ascii c = 9 \/ N_of_ascii c = 10 \/ N_of_ascii c = 11 \/ N_of_ascii c = 12 \/
   N_of_ascii c = 13 \/ N_of_ascii c = 32)%N.
Proof.
  unfold strings.isSpace. cbv zeta. rewrite !orb_true_iff, !N.eqb_eq. tauto.
Qed.

Lemma foldEq_isSpace (a b : ascii) :
  strings.foldEq a b = true -> strings.isSpace a = strings.isSpace b.
Proof.
  intros H. apply foldEq_N in H.
  pose proof (isSpace_N a) as Ha. pose proof (isSpace_N b) as Hb.
  destruct (strings.isSpace a), (strings.isSpace b); try reflexivity; exfalso.
  - assert (Hn : ~ (N_of_ascii b = 9 \/ N_of_ascii b = 10 \/ N_of_ascii b = 11 \/
                    N_of_ascii b = 12 \/ N_of_ascii b = 13 \/ N_of_ascii b = 32)%N)
      by (intros Hx; apply Hb in Hx; discriminate).
    assert (Hy : (N_of_ascii a = 9 \/ N_of_ascii a = 10 \/ N_of_ascii a = 11 \/
                  N_of_ascii a = 12 \/ N_of_ascii a = 13 \/ N_of_ascii a = 32)%N)
      by (apply Ha; reflexivity).
    lia.
  - assert (Hn : ~ (N_of_ascii a = 9 \/ N_of_ascii a = 10 \/ N_of_ascii a = 11 \/
                    N_of_ascii a = 12 \/ N_of_ascii a = 13 \/ N_of_ascii a = 32)%N)
      by (intros Hx; apply Ha in Hx; discriminate).
    assert (Hy : (N_of_ascii b = 9 \/ N_of_ascii b = 10 \/ N_of_ascii b = 11 \/
                  N_of_ascii b = 12 \/ N_of_ascii b = 13 \/ N_of_ascii b = 32)%N)
      by (apply Hb; reflexivity).
    lia.
Qed.

Lemma asciiEqualFold_spaces (n t : string) :
  strings.asciiEqualFold n t = true -> headSpace n = headSpace t /\ lastSpace n = lastSpace t.
Proof.
  revert t. induction n as [|a n IH]; intros [|b t]; cbn [strings.asciiEqualFold];
    try discriminate; [split; reflexivity|].
  intros H. apply andb_true_iff in H. destruct H as [Hab Hnt].
  pose proof (foldEq_isSpace a b Hab) as Hsp.
  destruct (IH t Hnt) as [_ Hlast]. split; [exact Hsp|].
  destruct n as [|a' n], t as [|b' t]; cbn [strings.asciiEqualFold] in Hnt; try discriminate.
  - exact Hsp.
  - exact Hlast.
Qed.

Lemma TrimLeft_head (s : string) : headSpace (strings.TrimLeft s) = false.
Proof.
  induction s as [|c r IH]; cbn [strings.TrimLeft]; [reflexivity|].
  destruct (strings.isSpace c) eqn:E; [exact IH | exact E].
Qed.

Lemma TrimRight_head (s : string) :
  headSpace s = false -> headSpace (strings.TrimRight s) = false.
Proof.
  destruct s as [|c r]; cbn [strings.TrimRight headSpace]; [reflexivity|].
  intros H. destruct (strings.TrimRight r); [rewrite H|]; cbn [headSpace]; auto.
Qed.

Lemma TrimRight_last (s : string) : lastSpace (strings.TrimRight s) = false.
Proof.
  induction s as [|c r IH]; cbn [strings.TrimRight]; [reflexivity|].
  destruct (strings.TrimRight r) as [|c' r'].
  - destruct (strings.isSpace c) eqn:E; [reflexivity | exact E].
  - exact IH.
Qed.

Lemma TrimRight_fixed (s : string) : lastSpace s = false -> strings.TrimRight s = s.
Proof.
  induction s as [|c r IH]; [reflexivity|].
  destruct r as [|c' r'].
  - cbn. intros ->. reflexivity.
  - intros H. change (lastSpace (String c (String c' r'))) with (lastSpace (String c' r')) in H.
    change (strings.TrimRight (String c (String c' r')))
      with (match strings.TrimRight (String c' r') with
            | EmptyString => if strings.isSpace c then EmptyString else String c EmptyString
            | r0 => String c r0
            end).
    rewrite (IH H). reflexivity.
Qed.

Lemma asciiTrimSpace_fixed (s : string) :
  headSpace s = false -> lastSpace s = false -> strings.asciiTrimSpace s = s.
Proof.
  intros Hh Hl. unfold strings.asciiTrimSpace.
  assert (Hleft : strings.TrimLeft s = s).
  { destruct s as [|c r]; [reflexivity|]. cbn [headSpace] in Hh. cbn [strings.TrimLeft].
    rewrite Hh. reflexivity. }
  rewrite Hleft. apply TrimRight_fixed. exact Hl.
Qed.

Lemma ascii_untrimmed_never_matches (n name : string) :
  strings.asciiTrimSpace n <> n -> strings.asciiEqualFold n (strings.asciiTrimSpace name) = false.
Proof.
  intros Hn. destruct (strings.asciiEqualFold n (strings.asciiTrimSpace name)) eqn:E; [|reflexivity].
  exfalso. apply Hn. destruct (asciiEqualFold_spaces _ _ E) as [Hh Hl].
  apply asciiTrimSpace_fixed.
  - rewrite Hh. unfold strings.asciiTrimSpace. apply TrimRight_head, TrimLeft_head.
  - rewrite Hl. apply TrimRight_last.
Qed.

Lemma asciiEqualFold_trans (s t u : string) :
  strings.asciiEqualFold s t = true -> strings.asciiEqualFold t u = true ->
  strings.asciiEqualFold s u = true.
Proof. intros H1 H2. rewrite (asciiEqualFold_congr s t u H1). exact H2. Qed.

(** The functions on ASCII text satisfy the laws: they are the instance
    that the worked examples compute with. *)
#[global] Instance asciiStrings : strings.Lib := {|
  strings.TrimSpace := strings.asciiTrimSpace;
  strings.ToLower := strings.asciiToLower;
  strings.EqualFold := strings.asciiEqualFold;
  strings.EqualFold_reflexive := asciiEqualFold_refl;
  strings.EqualFold_symmetric := asciiEqualFold_sym;
  strings.EqualFold_transitive := asciiEqualFold_trans;
  strings.EqualFold_trimmed := ascii_untrimmed_never_matches
|}.

(** * Worked examples on the household *)

(** C3.  The profile "Night" is configured, stored without a zone list (what
    a POST of {"name":"Night"} to /api/arm_modes leaves in the
    configuration), and [arm "Night"] is answered with "unknown arm mode",
    nothing changed: [handleArm] takes the nil [activeZones] of the matching
    profile for the sign that no profile matched. *)
Theorem arm_rejects_profile_without_zone_list :
  let s := NewServer house tt in
  (exists am, In am (ArmModes house) /\ strings.EqualFold (am_Name am) "Night" = true) /\
  run stub_readPin failing_SendMail (arm "Night" admin) s = (UnknownProfile, s, []).
Proof.
  split.
  - exists {| am_Name := "Night"; ActiveZones := None |}.
    split; [right; right; left; reflexivity | reflexivity].
  - reflexivity.
Qed.

(** A profile called "Disarmed" can be armed, and the state that results is
    the one [pollSensors] takes for Disarmed. *)
Lemma arm_profile_called_Disarmed :
  let s := NewServer houseWithDisarmedProfile tt in
  let '(resp, s', _) := run stub_readPin failing_SendMail (arm "Disarmed" admin) s in
  resp = Success /\ opState s' = Disarmed.
Proof. vm_compute. split; reflexivity. Qed.

(** C2.  The configuration holds a profile called "Disarmed" that lists the
    front door and the lounge.  [arm] of that profile succeeds and
    [handleArm] reports the system armed with the active zones 1 and 2:
    the Operating State is Armed with that profile.  The lounge is
    configured and enabled, its interpreter reports activation and its
    latch is unset; yet the next iteration of [pollSensors] reads no
    sensor and latches nothing, since it takes the mode "Disarmed" for the
    Disarmed state. *)
Theorem armed_profile_called_Disarmed_is_not_polled :
  let s := NewServer houseWithDisarmedProfile 0%nat in
  let '(resp, s1, t1) := run high_readPin failing_SendMail (arm "Disarmed" admin) s in
  resp = Success /\
  In (EvPrint "System armed in Disarmed mode (active zones: [1 2])") t1 /\
  In (EvLog (LogArm "Disarmed" "admin")) t1 /\
  testMode s1 = 0%Z /\
  armActiveZones (ArmModes (cfgMgr s1)) (currentMode s1) = Some [1; 2]%Z /\
  findZone (Zones (cfgMgr s1)) 2 = Some loungePIR /\ Enabled loungePIR = true /\
  fst (fst (run high_readPin failing_SendMail (zoneTriggered loungePIR) s1)) = true /\
  latched s1 2 = false /\
  run high_readPin failing_SendMail pollSensors_tick s1 = (tt, s1, []).
Proof. vm_compute. repeat split; auto. Qed.

(** C5.  Armed in "Away" with nothing latched and the lounge sensor high, a
    disarm request is served while the poll goroutine is in an iteration
    that has passed its test of the mode.  In the schedule
    [tickAroundDisarm] the iteration takes [triggerMu] after [handleDisarm]
    has reset the latches and released it: when [handleDisarm] returns 204
    the Operating State is Disarmed and the lounge is latched, and every
    channel has been called for it. *)
Theorem disarm_returns_with_a_latch_set :
  let before := armedAway 0%nat in
  triggered before = ∅ /\
  exists (p : Pool) (t : list Event),
    pool_run high_readPin failing_SendMail tickAroundDisarm (disarmDuringTickPool before)
      = Some (p, t) /\
    threads p = [Ret Success; Ret endOfIteration] /\
    opState (shared p) = Disarmed /\
    latched (shared p) 2 = true /\
    latches t = [2%Z] /\
    sends t = map (fun h => (h, loungePIR)) (alerts before).
Proof.
  split; [reflexivity|].
  vm_compute. do 2 eexists. repeat split; reflexivity.
Qed.

(** C10.  In TestSoft, a manual trigger of the garage, whose [Enabled] flag
    is false, succeeds, sets its latch and calls every channel for it:
    [handleTestTrigger] looks the zone up as [pollSensors] does but leaves
    out the test of [zone.Enabled]. *)
Theorem manual_trigger_latches_disabled_zone :
  let s := inTestSoft tt in
  findZone (Zones (cfgMgr s)) 3 = Some garage /\ Enabled garage = false /\
  latched s 3 = false /\
  let '(resp, s', t) := run stub_readPin failing_SendMail (triggerManually 3 admin) s in
  resp = Success /\ latched s' 3 = true /\ latches t = [3%Z] /\
  sends t = map (fun h => (h, garage)) (alerts s).
Proof. vm_compute. repeat split. Qed.

(** C9.  Armed in "Away" with the lounge latched, a disarm request and a
    status request are served together.  In the schedule [statusInsideDisarm]
    the status handler runs between [s.currentMode = "Disarmed"] and the
    reset of [s.triggered]: its answer has the mode of the state after the
    transition and the latches of the state before it, and is the snapshot
    of neither. *)
Theorem status_snapshot_mixes_disarm :
  let before := awayLoungeLatched tt in
  let after := snd (fst (run stub_readPin failing_SendMail (disarm admin) before)) in
  exists (p : Pool) (t : list Event) (mixed : status),
    pool_run stub_readPin failing_SendMail statusInsideDisarm (disarmThenStatusPool before)
      = Some (p, t) /\
    threads p = [Ret Success; Ret (Json mixed)] /\
    shared p = after /\
    st_Mode mixed = "Disarmed" /\ st_Triggered mixed = [2%Z] /\
    Json mixed <> fst (fst (run stub_readPin failing_SendMail (snapshot admin) before)) /\
    Json mixed <> fst (fst (run stub_readPin failing_SendMail (snapshot admin) after)).
Proof.
  vm_compute. do 3 eexists. split; [reflexivity|].
  split; [reflexivity|]. split; [reflexivity|].
  split; [reflexivity|]. split; [reflexivity|].
  split; discriminate.
Qed.



(** Worked instances of the theorems above. *)

Lemma latch_is_edge_triggered_witness :
  let s := awayLoungeLatched 0%nat in
  let ops := [OpTick; OpTrigger "POST" (Some 2%Z) admin; OpTick; OpConfig house; OpTick] in
  latched s 2 = true /\
  let '(s', t) := run_ops oscillating_readPin failing_SendMail ops s in
  (latched s 2 = true ->
     latched s' 2 = true /\ latchCount 2 t = 0%nat /\ sendCount 2 t = 0%nat) /\
  (latchCount 2 t <= 1)%nat /\
  (sendCount 2 t <= length (alerts s))%nat.
Proof.
  split; [reflexivity|].
  exact (latch_is_edge_triggered oscillating_readPin failing_SendMail
           [OpTick; OpTrigger "POST" (Some 2%Z) admin; OpTick; OpConfig house; OpTick]
           (awayLoungeLatched 0%nat) 2).
Defined.

Lemma pollSensors_tick_follows_spec_witness :
  let s := awayLoungeLatched 0%nat in
  consistent s /\
  let '(s', t) := spec_poll_tick oscillating_readPin failing_SendMail s in
  run oscillating_readPin failing_SendMail pollSensors_tick s = (tt, s', t) /\
  (opState s = Disarmed \/ opState s = TestSoft -> s' = s /\ t = []) /\
  (opState s = TestWiring -> sends t = []).
Proof.
  assert (H : consistent (awayLoungeLatched 0%nat)) by (left; reflexivity).
  split; [exact H|].
  exact (pollSensors_tick_follows_spec oscillating_readPin failing_SendMail
           (awayLoungeLatched 0%nat) H).
Defined.

Lemma triggerManually_contract_witness :
  let s := inTestSoft tt in
  opState s = TestSoft /\ findZone (Zones (cfgMgr s)) 2 = Some loungePIR /\
  latched s 2 = false /\
  let '(resp, s', t) := run stub_readPin failing_SendMail (triggerManually 2 admin) s in
  resp = Success /\ same_setup s s' /\
  triggered s' = <[2%Z := true]> (triggered s) /\
  latches t = [2%Z] /\
  sends t = map (fun h => (h, loungePIR)) (alerts s).
Proof.
  split; [reflexivity|]. split; [reflexivity|]. split; [reflexivity|].
  pose proof (triggerManually_contract stub_readPin failing_SendMail (inTestSoft tt) 2 admin)
    as H.
  cbv zeta.
  destruct (run stub_readPin failing_SendMail (triggerManually 2 admin) (inTestSoft tt))
    as [[resp s'] t].
  destruct H as (_ & _ & _ & H).
  exact (H loungePIR eq_refl eq_refl eq_refl).
Defined.

Lemma transitions_clear_latches_witness :
  let '(resp, s', _) :=
    run stub_readPin failing_SendMail (arm "home" admin) (awayLoungeLatched tt) in
  resp = Success /\ triggered s' = ∅.
Proof.
  pose proof (proj2 (transitions_clear_latches stub_readPin failing_SendMail
                       (awayLoungeLatched tt) admin) "home") as H.
  destruct (run stub_readPin failing_SendMail (arm "home" admin) (awayLoungeLatched tt))
    as [[resp s'] t] eqn:E.
  assert (Hr : resp = Success) by (vm_compute in E; injection E as <- _ _; reflexivity).
  split; [exact Hr | exact (H Hr)].
Defined.



(** Armed in "Away", every sensor high, an SMTP server that refuses: the
    tick reads the two enabled zones, latches the lounge, calls both
    channels and records the failure of the first. *)
Example away_lounge_high_tick :
  let s := mkState house "Away" ∅ 0%Z (initAlertHandlers house) 0%nat in
  let '(_, s', t) := run high_readPin failing_SendMail pollSensors_tick s in
  pinsRead t = [17; 27]%Z /\ latches t = [2%Z] /\
  map (fun hz => AlertHandler_Name (fst hz)) (sends t) = ["email"; "log"] /\
  failures t = [("email", "connection refused")] /\
  latched s' 2 = true.
Proof. vm_compute. repeat split. Qed.

(** Armed in "Away", nothing latched, sensors that keep changing level:
    over six ticks the lounge and the front door are latched once each and
    each of them gets each channel once. *)
Example oscillation_notifies_once :
  let s := mkState house "Away" ∅ 0%Z (initAlertHandlers house) 0%nat in
  let '(s', t) :=
    run_ops oscillating_readPin failing_SendMail
      [OpTick; OpTick; OpTick; OpTick; OpTick; OpTick] s in
  latches t = [2; 1]%Z /\
  map (fun hz => (AlertHandler_Name (fst hz), ID (snd hz))) (sends t)
    = [("email", 2); ("log", 2); ("email", 1); ("log", 1)]%Z /\
  length (pinsRead t) = 12%nat.
Proof. vm_compute. repeat split. Qed.

(** Served one after the other, the status request gets the snapshot of
    the state before the disarm, or the one of the state after it. *)
Example status_served_alone :
  let before := awayLoungeLatched tt in
  let after := snd (fst (run stub_readPin failing_SendMail (disarm admin) before)) in
  (exists p t,
     pool_run stub_readPin failing_SendMail statusBeforeDisarm (disarmThenStatusPool before)
       = Some (p, t) /\
     threads p !! 1%nat
       = Some (Ret (fst (fst (run stub_readPin failing_SendMail (snapshot admin) before))))) /\
  (exists p t,
     pool_run stub_readPin failing_SendMail statusAfterDisarm (disarmThenStatusPool before)
       = Some (p, t) /\
     threads p !! 1%nat
       = Some (Ret (fst (fst (run stub_readPin failing_SendMail (snapshot admin) after))))).
Proof.
  vm_compute. split; do 2 eexists; split; reflexivity.
Qed.

(** The lines that the poll loop and a refused e-mail leave in the event
    log, after the time stamp. *)
Example event_log_lines :
  format (LogTrigger (ID loungePIR) (Name loungePIR)) = "trigger zone id=2 (Lounge PIR)" /\
  format (LogAlertError (AlertHandler_Name (EmailAlert "" 0 "" "" "" "" ""))
            "connection refused")
    = "alert handler email error: connection refused" /\
  format (LogAlertLine 2 "Lounge PIR") = "alert: zone 2 (Lounge PIR) triggered".
Proof. vm_compute. repeat split. Qed.

(** * Worked instances of the properties above *)

Lemma pollSensors_tick_latches_only_active_witness :
  let s := mkState house "Away" ∅ 0%Z (initAlertHandlers house) 0%nat in
  let '(_, s', t) := exec high_readPin failing_SendMail false pollSensors_tick s in
  In 2%Z (latches t) /\
  In 2%Z (activeIDs s) /\ latched s 2 = false /\ latched s' 2 = true /\
  exists zone, findZone (Zones (cfgMgr s)) 2 = Some zone /\ Enabled zone = true.
Proof.
  cbv zeta.
  pose proof (pollSensors_tick_latches_only_active high_readPin failing_SendMail false
                (mkState house "Away" ∅ 0%Z (initAlertHandlers house) 0%nat)) as H.
  destruct (exec high_readPin failing_SendMail false pollSensors_tick _)
    as [[u s'] t] eqn:E.
  assert (Hin : In 2%Z (latches t))
    by (vm_compute in E; injection E as _ _ <-; left; reflexivity).
  split; [exact Hin | exact (proj2 (H 2%Z Hin))].
Defined.

Lemma pollSensors_tick_detects_witness :
  let s := mkState house "Away" ∅ 0%Z (initAlertHandlers house) 0%nat in
  steadyLevels high_readPin (fun _ => true) /\
  let '(r, s', _) := exec high_readPin failing_SendMail false pollSensors_tick s in
  r = Returned tt /\ latched s' 2 = true.
Proof.
  cbv zeta.
  assert (Hs : steadyLevels high_readPin (fun _ => true)) by (intros pin w; reflexivity).
  split; [exact Hs|].
  pose proof (pollSensors_tick_detects high_readPin failing_SendMail (fun _ => true) false
                (mkState house "Away" ∅ 0%Z (initAlertHandlers house) 0%nat) Hs eq_refl)
    as H.
  destruct (exec high_readPin failing_SendMail false pollSensors_tick _) as [[r s'] t].
  destruct H as [Hr H]. split; [exact Hr|].
  apply (H 2%Z loungePIR); [right; left; reflexivity | reflexivity | reflexivity | reflexivity].
Defined.

Lemma refused_requests_change_nothing_witness :
  let s := awayLoungeLatched tt in
  let '(resp, s', t) := run stub_readPin failing_SendMail (handleArm "GET" None admin) s in
  resp <> Success /\ s' = s /\ t = [].
Proof.
  cbv zeta.
  pose proof (proj1 (refused_requests_change_nothing stub_readPin failing_SendMail
                       (awayLoungeLatched tt) admin) "GET" None) as H.
  destruct (run stub_readPin failing_SendMail (handleArm "GET" None admin) _)
    as [[resp s'] t] eqn:E.
  assert (Hr : resp <> Success)
    by (vm_compute in E; injection E as <- _ _; discriminate).
  split; [exact Hr | exact (proj1 H Hr)].
Defined.

Lemma arm_selects_polled_zones_witness :
  let '(resp, s', _) :=
    run stub_readPin failing_SendMail (arm " home" admin) (awayLoungeLatched tt) in
  resp = Success /\ activeIDs s' = [1%Z].
Proof.
  pose proof (arm_selects_polled_zones stub_readPin failing_SendMail
                (awayLoungeLatched tt) " home" admin) as H.
  cbv zeta in H.
  destruct (run stub_readPin failing_SendMail (arm " home" admin) (awayLoungeLatched tt))
    as [[resp s'] t] eqn:E.
  assert (Hr : resp = Success) by (vm_compute in E; injection E as <- _ _; reflexivity).
  split; [exact Hr | exact (H Hr)].
Defined.

Lemma arm_ignores_letter_case_witness :
  let s := awayLoungeLatched tt in
  strings.EqualFold (strings.TrimSpace "home") (strings.TrimSpace " HOME ") = true /\
  strings.TrimSpace "home" <> "Disarmed" /\ strings.TrimSpace " HOME " <> "Disarmed" /\
  isTestSoftName (strings.ToLower (strings.TrimSpace "home")) =
    isTestSoftName (strings.ToLower (strings.TrimSpace " HOME ")) /\
  isTestWiringName (strings.ToLower (strings.TrimSpace "home")) =
    isTestWiringName (strings.ToLower (strings.TrimSpace " HOME ")) /\
  let '(resp, s1, _) := run stub_readPin failing_SendMail (arm "home" admin) s in
  let '(resp', s2, _) := run stub_readPin failing_SendMail (arm " HOME " admin) s in
  resp = resp' /\ triggered s1 = triggered s2 /\ testMode s1 = testMode s2 /\
  activeIDs s1 = activeIDs s2.
Proof.
  cbv zeta. split; [reflexivity|]. split; [vm_compute; discriminate|].
  split; [vm_compute; discriminate|]. split; [reflexivity|]. split; [reflexivity|].
  apply (arm_ignores_letter_case stub_readPin failing_SendMail (awayLoungeLatched tt)
           "home" " HOME " admin);
    [reflexivity | vm_compute; discriminate | vm_compute; discriminate
    | reflexivity | reflexivity].
Defined.

Lemma house_ids_fit : forall e, In e (Zones house) -> (ID e < 2 ^ (64 - 1) - 1)%Z.
Proof. intros e [<-|[<-|[<-|[]]]]; reflexivity. Qed.

Lemma house_ids_distinct : NoDup (map ID (Zones house)).
Proof. apply (bool_decide_unpack _). vm_compute. exact I. Qed.

Lemma handleZones_post_appends_witness :
  (1 < 64)%Z /\ muHeld houseManager = false /\ Admin admin = true /\
  Name shed <> "" /\ Pin shed <> 0%Z /\
  exists id,
    handleZones 64 "POST" (Some shed) admin None houseManager =
      (Returned (ReplyJson StatusCreated (BodyZone (withID id shed)),
                 [LogCreateZone (Name shed) id (Username admin)]),
       mkCM (withZones (Zones house ++ [withID id shed]) (cfg houseManager)) false) /\
    (0 < id)%Z /\
    (forall e, In e (Zones house) -> (ID e < id)%Z) /\
    findZone (Zones house ++ [withID id shed]) id = Some (withID id shed) /\
    (forall id', id' <> id ->
       findZone (Zones house ++ [withID id shed]) id' = findZone (Zones house) id').
Proof.
  split; [lia|]. split; [reflexivity|]. split; [reflexivity|].
  split; [discriminate|]. split; [discriminate|].
  apply (handleZones_post_appends 64 shed admin None houseManager);
    [lia | exact house_ids_fit | reflexivity | reflexivity | discriminate | discriminate].
Defined.

Lemma zone_requests_keep_ids_distinct_witness :
  NoDup (map ID (Zones house)) /\
  NoDup (map ID (Zones (engine (cfg (snd
    (handleZones 64 "POST" (Some shed) admin None houseManager)))))) /\
  NoDup (map ID (Zones (engine (cfg (snd
    (handleZoneByID "POST" PathShort (Some shed) admin None houseManager)))))).
Proof.
  split; [exact house_ids_distinct|].
  apply (zone_requests_keep_ids_distinct 64 "POST" PathShort (Some shed) admin None
           houseManager); [lia | exact house_ids_fit | exact house_ids_distinct].
Defined.

Lemma handleZoneByID_put_replaces_witness :
  muHeld houseManager = false /\ Admin admin = true /\
  let '(res, cm') := handleZoneByID "PUT" (PathIs 2%Z) (Some shed) admin None houseManager in
  res = Returned (ReplyHeader StatusNoContent, [LogUpdateZone 2 "admin"]) /\
  findZone (Zones (engine (cfg cm'))) 2 = Some (withID 2 shed).
Proof.
  split; [reflexivity|]. split; [reflexivity|].
  pose proof (handleZoneByID_put_replaces 2 shed admin None houseManager eq_refl eq_refl) as H.
  cbv zeta in H.
  destruct (handleZoneByID "PUT" (PathIs 2%Z) (Some shed) admin None houseManager)
    as [res cm'].
  change (findZone (Zones (engine (cfg houseManager))) 2) with (Some loungePIR) in H.
  destruct H as (H1 & _ & H3 & _). split; [exact H1 | exact H3].
Defined.

Lemma handleZoneByID_delete_removes_witness :
  muHeld houseManager = false /\ Admin admin = true /\ NoDup (map ID (Zones house)) /\
  let '(res, cm') := handleZoneByID "DELETE" (PathIs 2%Z) None admin None houseManager in
  res = Returned (ReplyHeader StatusNoContent, [LogDeleteZone 2 "admin"]) /\
  findZone (Zones (engine (cfg cm'))) 2 = None.
Proof.
  split; [reflexivity|]. split; [reflexivity|]. split; [exact house_ids_distinct|].
  pose proof (handleZoneByID_delete_removes 2 None admin None houseManager eq_refl eq_refl)
    as H.
  cbv zeta in H.
  destruct (handleZoneByID "DELETE" (PathIs 2%Z) None admin None houseManager)
    as [res cm'].
  change (findZone (Zones (engine (cfg houseManager))) 2) with (Some loungePIR) in H.
  destruct H as (H1 & _ & _ & H4 & _). split; [exact H1 | exact (H4 house_ids_distinct)].
Defined.

Lemma deleted_zone_id_is_reused_witness :
  let s := awayGarageLatched 0%nat in
  (0 < 3 < 2 ^ (64 - 1) - 1)%Z /\ In 3%Z (map ID (Zones house)) /\
  In (3 - 1)%Z (map ID (Zones house)) /\ latched s 3 = true /\
  let '(_, cm1) := handleZoneByID "DELETE" (PathIs 3%Z) None admin None houseManager in
  let '(res, cm2) := handleZones 64 "POST" (Some shed) admin None cm1 in
  res = Returned (ReplyJson StatusCreated (BodyZone (withID 3 shed)),
                  [LogCreateZone (Name shed) 3 (Username admin)]) /\
  ArmModes (engine (cfg cm2)) = ArmModes (engine (cfg houseManager)) /\
  let s2 := set_cfgMgr (engine (cfg cm2)) s in
  findZone (Zones (cfgMgr s2)) 3 = Some (withID 3 shed) /\
  let '(_, s3, t) := run high_readPin failing_SendMail pollSensors_tick s2 in
  latched s3 3 = true /\ latchCount 3 t = 0%nat /\ sendCount 3 t = 0%nat.
Proof.
  cbv zeta. split; [lia|]. split; [right; right; left; reflexivity|].
  split; [right; left; reflexivity|]. split; [reflexivity|].
  apply (deleted_zone_id_is_reused high_readPin failing_SendMail 64 3 shed admin admin
           None None houseManager (awayGarageLatched 0%nat));
    [lia | reflexivity | reflexivity | reflexivity | discriminate | discriminate
    | exact house_ids_distinct
    | intros e [<-|[<-|[<-|[]]]]; vm_compute; discriminate
    | lia
    | right; right; left; reflexivity
    | right; right; left; reflexivity
    | reflexivity].
Defined.

Lemma handleArmModes_post_then_arm_witness :
  let req := {| am_Name := "night"; ActiveZones := Some [2%Z] |} in
  muHeld houseManager = false /\ Admin admin = true /\ am_Name req <> "" /\
  let '(res, cm') := handleArmModes "POST" (Some req) admin None houseManager in
  res = Returned (ReplyHeader StatusCreated, [LogUpdateArmMode "night" "admin"]) /\
  let '(resp, s', _) :=
    run stub_readPin failing_SendMail (arm " Night " guest)
      (set_cfgMgr (engine (cfg cm')) (awayLoungeLatched tt)) in
  resp = Success /\ currentMode s' = "Night" /\ activeIDs s' = [2%Z].
Proof.
  cbv zeta. split; [reflexivity|]. split; [reflexivity|]. split; [discriminate|].
  pose proof (handleArmModes_post_then_arm stub_readPin failing_SendMail
                {| am_Name := "night"; ActiveZones := Some [2%Z] |} admin guest None
                houseManager (awayLoungeLatched tt) " Night "
                eq_refl eq_refl ltac:(discriminate)) as H.
  destruct (handleArmModes "POST" _ admin None houseManager) as [res cm'].
  destruct H as (H1 & _ & H3). split; [exact H1|].
  specialize (H3 eq_refl eq_refl eq_refl). cbv zeta in H3.
  destruct (run stub_readPin failing_SendMail (arm " Night " guest) _) as [[resp s'] t].
  cbn [ActiveZones] in H3. destruct H3 as (Ha & Hb & Hc).
  split; [exact Ha|]. split; [exact Hb|]. exact Hc.
Defined.

Lemma house_profiles_distinct : foldDistinct (map am_Name (ArmModes house)).
Proof.
  cbn. repeat split; intros m Hin; cbn in Hin;
    repeat (destruct Hin as [<-|Hin]; [reflexivity|]); destruct Hin.
Qed.

Lemma arm_mode_names_stay_distinct_witness :
  foldDistinct (map am_Name (ArmModes house)) /\
  foldDistinct (map am_Name (ArmModes (engine (cfg (snd
    (handleArmModes "POST" (Some {| am_Name := "HOME"; ActiveZones := None |}) admin None
       houseManager)))))).
Proof.
  split; [exact house_profiles_distinct|].
  apply (arm_mode_names_stay_distinct "POST"
           (Some {| am_Name := "HOME"; ActiveZones := None |}) admin None houseManager).
  exact house_profiles_distinct.
Defined.

Lemma house_names_distinct : NoDup (map Username (Users (cfg houseManager))).
Proof. apply (bool_decide_unpack _). vm_compute. exact I. Qed.

Lemma account_requests_keep_names_witness :
  NoDup (map Username (Users (cfg houseManager))) /\
  hasUser (Users (cfg houseManager)) "admin" = true /\
  let after := Users (cfg (snd (handleUserByID "DELETE" (Some "guest") None None admin None
                                  houseManager))) in
  NoDup (map Username after) /\ hasUser after "admin" = true.
Proof.
  cbv zeta. split; [exact house_names_distinct|]. split; [reflexivity|].
  pose proof (account_requests_keep_names "DELETE" (Some "guest") None None None admin None
                houseManager) as H.
  cbv zeta in H. destruct H as [H1 H2].
  split; [exact (proj2 (H1 house_names_distinct)) | exact (proj2 (H2 eq_refl))].
Defined.

Lemma house_single_admin :
  forall u, In u (Users (cfg houseManager)) -> Admin u = true -> Username u = "admin".
Proof. intros u [<-|[<-|[]]]; [reflexivity | discriminate]. Qed.

Lemma last_admin_can_be_demoted_witness :
  muHeld houseManager = false /\ Admin admin = true /\
  hasUser (Users (cfg houseManager)) "admin" = true /\
  let '(res, cm') :=
    handleUserByID "PUT" (Some "admin")
      (Some {| up_Password := None; up_Admin := Some false |}) None admin None
      houseManager in
  res = Returned (ReplyHeader StatusNoContent, [LogUpdateUser "admin" "admin"]) /\
  forall u, withAuth (Some "s1") 10 {[ "s1" := mkSession "admin" 100 ]} cm' = Returned (inr u) ->
    Admin u = false.
Proof.
  split; [reflexivity|]. split; [reflexivity|]. split; [reflexivity|].
  pose proof (last_admin_can_be_demoted None admin None houseManager eq_refl eq_refl eq_refl
                house_single_admin) as H.
  destruct (handleUserByID "PUT" (Some "admin") _ None admin None houseManager)
    as [res cm'].
  destruct H as (H1 & _ & H3). split; [exact H1|].
  intros u Hu. exact (proj1 (H3 _ _ _ u Hu)).
Defined.

Lemma failed_hash_keeps_configuration_locked_witness :
  let req := {| ur_Username := "bob"; ur_Password := "secret"; ur_Admin := false |} in
  muHeld houseManager = false /\ Admin admin = true /\
  ur_Username req <> "" /\ ur_Password req <> "" /\
  hasUser (Users (cfg houseManager)) (ur_Username req) = false /\
  handleUsers "POST" (Some req) None admin None houseManager =
    (Panicked, mkCM (cfg houseManager) true).
Proof.
  cbv zeta. split; [reflexivity|]. split; [reflexivity|]. split; [discriminate|].
  split; [discriminate|]. split; [reflexivity|].
  apply (proj1 (failed_hash_keeps_configuration_locked
                  {| ur_Username := "bob"; ur_Password := "secret"; ur_Admin := false |}
                  "guest" "secret" None admin None houseManager eq_refl eq_refl));
    [discriminate | discriminate | reflexivity].
Defined.

Lemma sm_Purge_is_not_observable_witness :
  let sm : gmap string Session := {[ "s1" := mkSession "guest" 6 ]} in
  (5 <= 7)%Z /\ sm_Get "s1" 7 (sm_Purge 5 sm) = sm_Get "s1" 7 sm.
Proof.
  cbv zeta. split; [lia|].
  apply (sm_Purge_is_not_observable 5 7 "s1" {[ "s1" := mkSession "guest" 6 ]}). lia.
Defined.

Lemma login_then_logout_witness :
  cm_Authenticate plain_checkPasswordHash "guest" "guest" houseManager =
    Returned (Some guest) /\
  let '(res, sm1) :=
    handleLogin plain_checkPasswordHash "POST" (Some ("guest", "guest")) (Some "s1") 0 ∅
      houseManager in
  res = Returned (ReplyJson StatusOK BodyStatusOk, Some "s1", [LogLogin "guest"]) /\
  withAuth (Some "s1") day sm1 houseManager = Returned (inr guest) /\
  let '(_, sm2) := handleLogout "POST" (Some "s1") sm1 in
  withAuth (Some "s1") day sm2 houseManager =
    Returned (inl (ReplyError "session expired" StatusUnauthorized)).
Proof.
  split; [reflexivity|].
  pose proof (login_then_logout plain_checkPasswordHash "guest" "guest" "s1" guest 0 ∅
                houseManager eq_refl) as H.
  destruct (handleLogin plain_checkPasswordHash "POST" _ (Some "s1") 0 ∅ houseManager)
    as [res sm1].
  destruct H as (H1 & H2 & _ & H4). split; [exact H1|]. split; [exact (H2 day)|].
  destruct (handleLogout "POST" (Some "s1") sm1) as [res2 sm2].
  destruct H4 as (_ & H5 & _). exact (H5 day).
Defined.

Lemma created_user_can_log_in_witness :
  let req := {| ur_Username := "bob"; ur_Password := "secret"; ur_Admin := false |} in
  muHeld houseManager = false /\ Admin admin = true /\
  ur_Username req <> "" /\ ur_Password req <> "" /\
  hasUser (Users (cfg houseManager)) (ur_Username req) = false /\
  plain_checkPasswordHash (ur_Password req) "hash:secret" = true /\
  let '(res, cm') := handleUsers "POST" (Some req) (Some "hash:secret") admin None
                       houseManager in
  res = Returned (ReplyHeader StatusCreated, [LogCreateUser "bob" "admin"]) /\
  cm_Authenticate plain_checkPasswordHash "bob" "secret" cm' =
    Returned (Some {| Username := "bob"; PasswordHash := "hash:secret"; Admin := false |}).
Proof.
  cbv zeta. split; [reflexivity|]. split; [reflexivity|]. split; [discriminate|].
  split; [discriminate|]. split; [reflexivity|]. split; [reflexivity|].
  pose proof (created_user_can_log_in plain_checkPasswordHash
                {| ur_Username := "bob"; ur_Password := "secret"; ur_Admin := false |}
                "hash:secret" "s1" admin None 0 ∅ houseManager eq_refl eq_refl
                ltac:(discriminate) ltac:(discriminate) eq_refl eq_refl) as H.
  cbv zeta in H.
  destruct (handleUsers "POST" _ (Some "hash:secret") admin None houseManager) as [res cm'].
  destruct H as (H1 & _ & H3 & _). split; [exact H1 | exact H3].
Defined.

Lemma session_outlives_account_witness :
  let sess := mkSession "guest" 100 in
  let sm : gmap string Session := {[ "s1" := sess ]} in
  let req := {| ur_Username := "guest"; ur_Password := "new"; ur_Admin := true |} in
  muHeld houseManager = false /\ Admin admin = true /\
  NoDup (map Username (Users (cfg houseManager))) /\
  hasUser (Users (cfg houseManager)) "guest" = true /\
  sm_Get "s1" 10 sm = Some sess /\
  let '(_, cm1) := handleUserByID "DELETE" (Some "guest") None None admin None
                     houseManager in
  withAuth (Some "s1") 10 sm cm1 =
    Returned (inl (ReplyError "unknown user" StatusUnauthorized)) /\
  let '(_, cm2) := handleUsers "POST" (Some req) (Some "hash:new") admin None cm1 in
  withAuth (Some "s1") 10 sm cm2 =
    Returned (inr {| Username := "guest"; PasswordHash := "hash:new"; Admin := true |}).
Proof.
  cbv zeta. split; [reflexivity|]. split; [reflexivity|].
  split; [exact house_names_distinct|]. split; [reflexivity|]. split; [reflexivity|].
  apply (session_outlives_account "guest" "s1" 10 (mkSession "guest" 100)
           {| ur_Username := "guest"; ur_Password := "new"; ur_Admin := true |}
           "hash:new" admin None None {[ "s1" := mkSession "guest" 100 ]} houseManager);
    [reflexivity | reflexivity | discriminate | discriminate | exact house_names_distinct
    | reflexivity | reflexivity | reflexivity | reflexivity | discriminate].
Defined.

Lemma handleLogs_reads_back_Log_witness :
  let entries := [("2026-01-01T07:00:00Z", "arm Away by admin");
                  ("2026-01-01T18:30:00Z", "disarm by admin")] in
  Admin admin = true /\ muHeld houseManager = false /\
  handleLogs admin (Some 1%Z) (Some (logFile entries)) houseManager =
    Returned (ReplyJson StatusOK (BodyLines ["2026-01-01T18:30:00Z - disarm by admin"])).
Proof.
  cbv zeta. split; [reflexivity|]. split; [reflexivity|].
  apply (handleLogs_reads_back_Log admin (Some 1%Z)
           [("2026-01-01T07:00:00Z", "arm Away by admin");
            ("2026-01-01T18:30:00Z", "disarm by admin")] houseManager);
    [reflexivity | reflexivity |].
  intros e [<-|[<-|[]]]; split; reflexivity.
Defined.

Lemma handleLogs_bound_witness :
  let data := unlines ["a"; "b"] in
  Admin admin = true /\ muHeld houseManager = false /\
  exists ls skipped,
    handleLogs admin (Some 1%Z) (Some data) houseManager =
      Returned (ReplyJson StatusOK (BodyLines ls)) /\
    (Z.of_nat (length ls) <= 1)%Z /\
    splitLines data =
      skipped ++ ls ++
      (if String.eqb (List.last (splitLines data) "x") "" then [""] else []) /\
    (skipped <> [] -> Z.of_nat (length ls) = 1%Z).
Proof.
  cbv zeta. split; [reflexivity|]. split; [reflexivity|].
  exact (handleLogs_bound admin (Some 1%Z) (unlines ["a"; "b"]) houseManager
           eq_refl eq_refl).
Defined.

Lemma untrimmed_profile_is_never_armed_witness :
  let req := {| am_Name := "Garden "; ActiveZones := Some [2%Z] |} in
  muHeld houseManager = false /\ Admin admin = true /\ am_Name req <> "" /\
  strings.TrimSpace (am_Name req) <> am_Name req /\
  let '(res, cm') := handleArmModes "POST" (Some req) admin None houseManager in
  In req (ArmModes (engine (cfg cm'))) /\
  let '(resp, _, _) :=
    run stub_readPin failing_SendMail (arm "Garden " admin)
      (set_cfgMgr (engine (cfg cm')) (awayLoungeLatched tt)) in
  resp = UnknownProfile.
Proof.
  cbv zeta. split; [reflexivity|]. split; [reflexivity|]. split; [discriminate|].
  split; [vm_compute; discriminate|].
  pose proof (untrimmed_profile_is_never_armed stub_readPin failing_SendMail
                {| am_Name := "Garden "; ActiveZones := Some [2%Z] |} admin None houseManager
                eq_refl eq_refl ltac:(discriminate) ltac:(vm_compute; discriminate)) as H.
  destruct (handleArmModes "POST" _ admin None houseManager) as [res cm'].
  destruct H as (_ & H2 & H3). split; [exact H2|].
  specialize (H3 "Garden " admin (awayLoungeLatched tt)).
  destruct (run stub_readPin failing_SendMail (arm "Garden " admin)
              (set_cfgMgr (engine (cfg houseManager)) (awayLoungeLatched tt)))
    as [[resp1 s1] t1] eqn:E1.
  destruct (run stub_readPin failing_SendMail (arm "Garden " admin)
              (set_cfgMgr (engine (cfg cm')) (awayLoungeLatched tt))) as [[resp2 s2] t2].
  destruct H3 as (-> & _). vm_compute in E1. injection E1 as <- _ _. reflexivity.
Defined.
